(** * NEXA NET bot: subscription, payment and file lifecycle

    A shallow embedding of the store operations of [database.py], the
    handlers of [payments.py] and [configs.py] that drive them, and the
    codec and filename helpers of [utils.py], together with the properties
    of the specification that concern them. *)

From Stdlib Require Import ZArith Lia List Ascii.
From stdpp Require Import base option gmap strings list fin_maps sorting pretty.

Local Open Scope Z_scope.

Set Default Proof Using "Type".

(** ** Time

    A Python [datetime] is a point on the proleptic Gregorian calendar with
    microsecond resolution between 0001-01-01T00:00:00 and
    9999-12-31T23:59:59.999999.  It is represented by the number of
    microseconds since the lower end.  The store keeps timestamps as the
    text produced by [isoformat()]; that text has fixed-width fields down to
    the second and an optional six-digit fraction, so that the byte-wise
    comparison SQLite performs on two such texts agrees with the order of
    the instants they denote.  Comparisons of stored timestamps are
    therefore comparisons of these numbers. *)

Definition datetime := Z.

Definition MICROS_PER_DAY : Z := 86400 * 1000000.

(** [date.max.toordinal()] is 3652059: the number of days in the range. *)
Definition DATETIME_SPAN : Z := 3652059 * MICROS_PER_DAY.

Definition datetime_valid (t : datetime) : Prop := 0 <= t < DATETIME_SPAN.

Definition timedelta_days (days : Z) : Z := days * MICROS_PER_DAY.

(** [dt + timedelta]: raises [OverflowError] outside the representable
    range, here [None]. *)
Definition datetime_add (t : datetime) (delta : Z) : option datetime :=
  let r := t + delta in
  if bool_decide (0 <= r < DATETIME_SPAN) then Some r else None.

(** ** Rows of the four tables *)

Record user := mk_user {
  username : string;
  join_date : datetime;
  expiry_date : option datetime;
  payment_status : string;
  total_downloads : Z;
  is_admin : Z
}.

Record config := mk_config {
  filename : string;
  category : string;
  original_filename : string;
  file_size : Z;
  upload_date : datetime;
  config_expiry_date : option datetime;
  config_total_downloads : Z;
  is_active : Z
}.

Record payment := mk_payment {
  payment_user_id : Z;
  amount : Z;
  payment_date : datetime;
  payment_proof : string;
  status : string;
  admin_note : option string;
  processed_date : option datetime
}.

Record download := mk_download {
  download_user_id : Z;
  download_config_id : Z;
  download_date : datetime
}.

(** The store: each table with a primary key is a finite map from the key
    to the rest of the row; [downloads] is only ever appended to.  The two
    counters are the AUTOINCREMENT sequences. *)
Record Database := mk_db {
  users : gmap Z user;
  configs : gmap Z config;
  payments : gmap Z payment;
  downloads : list download;
  next_config_id : Z;
  next_payment_id : Z
}.

(** The operator account, hard-wired in [create_tables],
    [delete_expired_users] and [_notify_admin]. *)
Definition OPERATOR_ID : Z := 7108127485.

Definition set_users (f : gmap Z user -> gmap Z user) (db : Database) : Database :=
  mk_db (f (users db)) (configs db) (payments db) (downloads db)
        (next_config_id db) (next_payment_id db).

Definition set_configs (f : gmap Z config -> gmap Z config) (db : Database) : Database :=
  mk_db (users db) (f (configs db)) (payments db) (downloads db)
        (next_config_id db) (next_payment_id db).

Definition set_payments (f : gmap Z payment -> gmap Z payment) (db : Database) : Database :=
  mk_db (users db) (configs db) (f (payments db)) (downloads db)
        (next_config_id db) (next_payment_id db).

(** ** database.py *)

(** [create_tables] on an empty file: the tables are empty but for the
    operator row, inserted with the column defaults for the fields the
    INSERT does not name. *)
Definition create_tables (now : datetime) : Database :=
  mk_db {[ OPERATOR_ID := mk_user "nexanetadmin" now None "approved" 0 1 ]}
        ∅ ∅ [] 1 1.

(** [add_user]: INSERT OR IGNORE with the column defaults. *)
Definition add_user (now : datetime) (user_id : Z) (name : string)
    (db : Database) : Database :=
  match users db !! user_id with
  | Some _ => db
  | None =>
      set_users (insert user_id (mk_user name now None "pending" 0 0)) db
  end.

Definition get_user (user_id : Z) (db : Database) : option user :=
  users db !! user_id.

(** [update_user_expiry].  Subscripting the [None] that [get_user] returns
    for a missing row raises, and so does a sum outside the datetime range;
    both are caught by the handler, which leaves the store as it was. *)
Definition update_user_expiry (now : datetime) (user_id : Z) (days : Z)
    (db : Database) : Database :=
  match get_user user_id db with
  | None => db
  | Some u =>
      let new_expiry :=
        match expiry_date u with
        | Some current_date => datetime_add current_date (timedelta_days days)
        | None => datetime_add now (timedelta_days days)
        end in
      match new_expiry with
      | None => db
      | Some e =>
          set_users (alter (fun r =>
            mk_user (username r) (join_date r) (Some e) "approved"
                    (total_downloads r) (is_admin r)) user_id) db
      end
  end.

Definition update_payment_status (user_id : Z) (st : string)
    (db : Database) : Database :=
  set_users (alter (fun r =>
    mk_user (username r) (join_date r) (expiry_date r) st
            (total_downloads r) (is_admin r)) user_id) db.

Definition increment_downloads (user_id : Z) (db : Database) : Database :=
  set_users (alter (fun r =>
    mk_user (username r) (join_date r) (expiry_date r) (payment_status r)
            (total_downloads r + 1) (is_admin r)) user_id) db.

(** The WHERE clause of [delete_expired_users].  A NULL [expiry_date] makes
    the comparison NULL, which does not select the row. *)
Definition expired_user_row (now : datetime) (user_id : Z) (u : user) : bool :=
  match expiry_date u with
  | Some e => bool_decide (e < now)
  | None => false
  end
  && bool_decide (payment_status u = "approved")
  && bool_decide (user_id ≠ OPERATOR_ID).

(** [delete_expired_users] returns the number of rows deleted. *)
Definition delete_expired_users (now : datetime) (db : Database) : Z * Database :=
  let gone := filter (fun kv => expired_user_row now kv.1 kv.2 = true) (users db) in
  (Z.of_nat (size gone),
   set_users (filter (fun kv => expired_user_row now kv.1 kv.2 = false)) db).

(** [add_payment]: the new row takes the next sequence number and the
    column defaults; the id is returned.  The store does not enforce the
    foreign key. *)
Definition add_payment (now : datetime) (user_id : Z) (amt : Z)
    (proof_path : string) (db : Database) : Z * Database :=
  let payment_id := next_payment_id db in
  (payment_id,
   mk_db (users db) (configs db)
         (<[payment_id := mk_payment user_id amt now proof_path "pending" None None]>
            (payments db))
         (downloads db) (next_config_id db) (payment_id + 1)).

(** The rows selected by [get_pending_payments]: pending payments joined
    with their user row. *)
Definition pending_joined (db : Database) : gmap Z payment :=
  filter (fun kv => status kv.2 = "pending"
                    ∧ is_Some (users db !! payment_user_id kv.2))
         (payments db).

Definition payment_date_le (a b : Z * payment) : Prop :=
  payment_date a.2 <= payment_date b.2.

#[local] Instance payment_date_le_dec a b : Decision (payment_date_le a b).
Proof. unfold payment_date_le. apply _. Defined.

(** [get_pending_payments]: ORDER BY payment_date. *)
Definition get_pending_payments (db : Database) : list (Z * payment) :=
  merge_sort payment_date_le (map_to_list (pending_joined db)).

(** [update_payment]: [processed_date] is stamped unless the new status is
    'pending'. *)
Definition update_payment (now : datetime) (payment_id : Z) (st : string)
    (note : string) (db : Database) : Database :=
  let processed := if bool_decide (st ≠ "pending") then Some now else None in
  set_payments (alter (fun p =>
    mk_payment (payment_user_id p) (amount p) (payment_date p)
               (payment_proof p) st (Some note) processed) payment_id) db.

Definition add_config (now : datetime) (fname original : string) (cat : string)
    (size_bytes : Z) (expiry_days : Z) (db : Database) : Z * Database :=
  match datetime_add now (timedelta_days expiry_days) with
  | None => (-1, db)
  | Some e =>
      let config_id := next_config_id db in
      if bool_decide (Exists (fun kv => filename kv.2 = fname) (map_to_list (configs db)))
      then (-1, db)
      else
        (config_id,
         mk_db (users db)
               (<[config_id := mk_config fname cat original size_bytes now (Some e) 0 1]>
                  (configs db))
               (payments db) (downloads db) (config_id + 1) (next_payment_id db))
  end.

Definition get_config (config_id : Z) (db : Database) : option config :=
  configs db !! config_id.

Definition record_download (now : datetime) (user_id config_id : Z)
    (db : Database) : Database :=
  mk_db (users db)
        (alter (fun c =>
           mk_config (filename c) (category c) (original_filename c)
                     (file_size c) (upload_date c) (config_expiry_date c)
                     (config_total_downloads c + 1) (is_active c)) config_id
           (configs db))
        (payments db)
        (downloads db ++ [mk_download user_id config_id now])
        (next_config_id db) (next_payment_id db).

Definition expired_config_row (now : datetime) (c : config) : bool :=
  match config_expiry_date c with
  | Some e => bool_decide (e < now)
  | None => false
  end
  && bool_decide (is_active c = 1).

(** [delete_expired_configs] only clears the active flag. *)
Definition delete_expired_configs (now : datetime) (db : Database) : Z * Database :=
  let hit := filter (fun kv => expired_config_row now kv.2 = true) (configs db) in
  (Z.of_nat (size hit),
   set_configs (fmap (fun c =>
     if expired_config_row now c
     then mk_config (filename c) (category c) (original_filename c)
                    (file_size c) (upload_date c) (config_expiry_date c)
                    (config_total_downloads c) 0
     else c)) db).

Definition delete_config (config_id : Z) (db : Database) : Database :=
  set_configs (delete config_id) db.

(** ** utils.py: file names *)

(** A Python [str] is modelled by a [string] of 8-bit characters, and
    [str.lower] by the lowering of the letters A to Z. *)
Definition ascii_lower (c : ascii) : ascii :=
  let n := N_of_ascii c in
  if ((65 <=? n) && (n <=? 90))%N then ascii_of_N (n + 32) else c.

Definition lower (s : list ascii) : list ascii := map ascii_lower s.

(** [str.rfind] for a single character: the index of its last occurrence,
    or -1. *)
Fixpoint rfind (c : ascii) (p : list ascii) : Z :=
  match p with
  | [] => -1
  | x :: r =>
      let i := rfind c r in
      if bool_decide (0 <= i) then i + 1
      else if bool_decide (x = c) then 0 else -1
  end.

(** The loop of [genericpath._splitext] that skips leading dots, run over
    the characters from [filenameIndex] up to [dotIndex]: it finds a
    character other than the dot, or runs out. *)
Fixpoint has_non_dot (seg : list ascii) : bool :=
  match seg with
  | [] => false
  | x :: r => if bool_decide (x ≠ "."%char) then true else has_non_dot r
  end.

(** [os.path.splitext] of [posixpath]: separator "/", no alternative
    separator, extension separator ".". *)
Definition splitext (p : list ascii) : list ascii * list ascii :=
  let sepIndex := rfind "/"%char p in
  let dotIndex := rfind "."%char p in
  if bool_decide (dotIndex > sepIndex)
     && has_non_dot (take (Z.to_nat dotIndex - Z.to_nat (sepIndex + 1))
                          (drop (Z.to_nat (sepIndex + 1)) p))
  then (take (Z.to_nat dotIndex) p, drop (Z.to_nat dotIndex) p)
  else (p, []).

(** [str.replace('.', '')]. *)
Definition remove_dots (s : list ascii) : list ascii :=
  filter (fun c => c ≠ "."%char) s.

Definition get_file_extension (fname : string) : string :=
  String.string_of_list_ascii
    (remove_dots (lower (splitext (String.list_ascii_of_string fname)).2)).

Definition valid_extensions : list string := ["hc"; "ehi"; "ziv"; "dark"; "json"].

Definition is_valid_config_extension (fname : string) : bool :=
  let ext := get_file_extension fname in
  bool_decide (ext ∈ valid_extensions).

(** [int(datetime.now().timestamp())], the local zone taken to be UTC:
    whole seconds since 1970-01-01, which is day 719162 of the range. *)
Definition unix_timestamp (now : datetime) : Z :=
  (now - 719162 * MICROS_PER_DAY) `quot` 1000000.

(** ** utils.py: the codec *)

Definition is_byte (b : Z) : Prop := 0 <= b < 256.

(** [AES.block_size] *)
Definition block_size : nat := 16.

Definition is_block (b : list Z) : Prop :=
  length b = block_size ∧ Forall is_byte b.

(** Stand-ins for the outside primitives, to run the handlers on sample
    data: the block transformation reverses the block whatever the key, and
    the digest is constant. *)
Definition sample_encrypt_block (k b : list Z) : list Z := rev b.
Definition sample_decrypt_block (k b : list Z) : list Z := rev b.
Definition sample_key : list Z := replicate 32 7.
Definition sample_md5 (s : string) : string := "9e107d9d372bb6826bd81d3542a419d6".

(** The files on disk: path to content. *)
Abbreviation filesystem := (gmap string (list Z)).

Section Bot.

(** The primitives taken from outside the repository: the AES block
    transformation and its inverse under a key, the key that
    [ConfigEncryptor.__init__] derives with PBKDF2-HMAC-SHA256 from the
    fixed password and salt, and the hexadecimal MD5 digest. *)
Variable AES_encrypt_block : list Z -> list Z -> list Z.
Variable AES_decrypt_block : list Z -> list Z -> list Z.
Variable key : list Z.
Variable md5_hexdigest : string -> string.

(** What is assumed of the block cipher, where a proof says so: under the
    key, encryption maps blocks to blocks and decryption undoes it. *)
Hypothesis AES_encrypt_block_is_block :
  ∀ b, is_block b → is_block (AES_encrypt_block key b).
Hypothesis AES_decrypt_encrypt_block :
  ∀ b, is_block b → AES_decrypt_block key (AES_encrypt_block key b) = b.

Definition strxor (a b : list Z) : list Z := zip_with Z.lxor a b.

(** [Crypto.Util.Padding.pad] with the default style, pkcs7. *)
Definition pad (data_to_pad : list Z) (bs : nat) : list Z :=
  let padding_len := (bs - length data_to_pad mod bs)%nat in
  data_to_pad ++ replicate padding_len (Z.of_nat padding_len).

(** [Crypto.Util.Padding.unpad] with the default style; [None] stands for
    its [ValueError]. *)
Definition unpad (padded_data : list Z) (bs : nat) : option (list Z) :=
  let pdata_len := length padded_data in
  if bool_decide (pdata_len = 0%nat) then None
  else if bool_decide ((pdata_len mod bs)%nat ≠ 0%nat) then None
  else
    let padding_len := default 0 (last padded_data) in
    if bool_decide (padding_len < 1 ∨ padding_len > Z.of_nat (min bs pdata_len))
    then None
    else
      let n := Z.to_nat padding_len in
      if bool_decide (drop (pdata_len - n) padded_data ≠ replicate n padding_len)
      then None
      else Some (take (pdata_len - n) padded_data).

(** CBC chaining over [n] consecutive blocks of [data]. *)
Fixpoint cbc_encrypt_blocks (n : nat) (prev data : list Z) : list Z :=
  match n with
  | O => []
  | S n' =>
      let c := AES_encrypt_block key (strxor (take block_size data) prev) in
      c ++ cbc_encrypt_blocks n' c (drop block_size data)
  end.

Fixpoint cbc_decrypt_blocks (n : nat) (prev data : list Z) : list Z :=
  match n with
  | O => []
  | S n' =>
      let c := take block_size data in
      strxor (AES_decrypt_block key c) prev
        ++ cbc_decrypt_blocks n' c (drop block_size data)
  end.

(** [AES.new(key, AES.MODE_CBC, iv).encrypt(data)]: the IV must be one
    block long and the data a whole number of blocks; otherwise
    [ValueError], here [None]. *)
Definition cbc_encrypt (iv data : list Z) : option (list Z) :=
  if bool_decide (length iv ≠ block_size) then None
  else if bool_decide ((length data mod block_size)%nat ≠ 0%nat) then None
  else Some (cbc_encrypt_blocks (length data / block_size) iv data).

Definition cbc_decrypt (iv data : list Z) : option (list Z) :=
  if bool_decide (length iv ≠ block_size) then None
  else if bool_decide ((length data mod block_size)%nat ≠ 0%nat) then None
  else Some (cbc_decrypt_blocks (length data / block_size) iv data).

(** The byte-level content of [encrypt_file]: [iv] is the result of
    [get_random_bytes(AES.block_size)]. *)
Definition encrypt (iv data : list Z) : option (list Z) :=
  let padded_data := pad data block_size in
  c ← cbc_encrypt iv padded_data;
  Some (iv ++ c).

(** The byte-level content of [decrypt_file]. *)
Definition decrypt (encrypted_data : list Z) : option (list Z) :=
  let iv := take block_size encrypted_data in
  let ciphertext := drop block_size encrypted_data in
  decrypted_padded ← cbc_decrypt iv ciphertext;
  unpad decrypted_padded block_size.

(** [encrypt_file] and [decrypt_file]: any exception (a missing input file,
    an error of the cipher or of the padding) is caught and reported as
    [False], in which case nothing has been written. *)
Definition encrypt_file (iv : list Z) (input_path output_path : string)
    (fs : filesystem) : bool * filesystem :=
  match fs !! input_path with
  | None => (false, fs)
  | Some data =>
      match encrypt iv data with
      | None => (false, fs)
      | Some encrypted_data => (true, <[output_path := encrypted_data]> fs)
      end
  end.

Definition decrypt_file (input_path output_path : string)
    (fs : filesystem) : bool * filesystem :=
  match fs !! input_path with
  | None => (false, fs)
  | Some encrypted_data =>
      match decrypt encrypted_data with
      | None => (false, fs)
      | Some decrypted_data => (true, <[output_path := decrypted_data]> fs)
      end
  end.

(** [generate_filename] *)
Definition generate_filename (now : datetime) (original_name : string)
    (user_id : Z) : string :=
  let timestamp := unix_timestamp now in
  let hash_input :=
    original_name +:+ "_" +:+ pretty user_id +:+ "_" +:+ pretty timestamp in
  let hash_digest :=
    String.string_of_list_ascii (take 8 (String.list_ascii_of_string (md5_hexdigest hash_input))) in
  let ext := get_file_extension original_name in
  "config_" +:+ hash_digest +:+ "." +:+ ext +:+ ".enc".


(** ** The replies of the handlers

    Each constructor stands for one message text of the source. *)
Inductive reply : Type :=
  | Unauthorized               (* "Unauthorized." *)
  | AdminAccessRequired        (* "Unauthorized. Admin access required." *)
  | SelectCategoryFirst        (* "Please select config category first:" *)
  | SendConfigFile             (* "Please send a config file." *)
  | InvalidFileType            (* "Invalid file type. Allowed extensions: ..." *)
  | ConfigUploaded (config_id : Z)  (* "Config uploaded successfully!" *)
  | FailedToSaveConfig         (* "Failed to save config to database." *)
  | FailedToEncrypt            (* "Failed to encrypt config file." *)
  | UserNotFound               (* "User not found. Please start the bot with /start" *)
  | JoinChannelFirst           (* "You must join our official channel first" *)
  | PaymentRequired            (* "Payment required." *)
  | SubscriptionExpired        (* "Subscription expired." *)
  | ConfigNotFoundOrExpired    (* "Config not found or expired." *)
  | ConfigDownloaded           (* "Config downloaded successfully!" *)
  | ErrorDecrypting            (* "Error decrypting config." *)
  | ErrorDownloading           (* "Error downloading config. Please try again." *)
  | PaymentNotFound            (* "Payment not found." *)
  | PaymentApproved (payment_id : Z)  (* "Payment #n approved!" *)
  | PaymentRejected (payment_id : Z)  (* "Payment #n rejected." *)
  | UseMenuToPay               (* "Please use the menu to make a payment." *)
  | SendScreenshot             (* "Please send a screenshot/image ..." *)
  | ProofReceived              (* "Payment proof received!" *)
  | FailedToRecordPayment      (* "Failed to record payment. Please try again." *)
  | UserExpired                (* "User ... has been expired." *)
  | InvalidUserId              (* "Invalid User ID. Please enter a number." *)
  | ErrorExpiringUser          (* "Error expiring user." *)
  | NoReply.

#[local] Instance reply_eq_dec : EqDecision reply.
Proof. solve_decision. Defined.

(** [not user or not user.get('is_admin')] *)
Definition not_admin (caller : option user) : bool :=
  match caller with
  | None => true
  | Some u => bool_decide (is_admin u = 0)
  end.

(** ** user.py *)

(** The store effect of [show_welcome]; [name] is the platform user name,
    if the account has one. *)
Definition show_welcome (now : datetime) (user_id : Z) (name : option string)
    (db : Database) : Database :=
  let fallback := "User_" +:+ pretty user_id in
  let username :=
    match name with
    | Some n => if bool_decide (n = "") then fallback else n
    | None => fallback
    end in
  add_user now user_id username db.

(** ** payments.py *)

(** [_get_payment_by_id]: first the pending rows, then the table itself. *)
Definition _get_payment_by_id (payment_id : Z) (db : Database) : option payment :=
  match list_find (fun r => r.1 = payment_id) (get_pending_payments db) with
  | Some (_, r) => Some r.2
  | None => payments db !! payment_id
  end.

(** [handle_payment_proof].  [awaiting_payment] is the flag of the sender's
    conversation state, returned updated; [attachment] is the photo or
    document of the message, if any. *)
Definition handle_payment_proof (now : datetime) (user_id : Z)
    (awaiting_payment : bool) (attachment : option (list Z))
    (db : Database) (fs : filesystem)
    : reply * bool * Database * filesystem :=
  match get_user user_id db with
  | None => (UserNotFound, awaiting_payment, db, fs)
  | Some _ =>
      if negb awaiting_payment then (UseMenuToPay, awaiting_payment, db, fs)
      else
        match attachment with
        | None => (SendScreenshot, awaiting_payment, db, fs)
        | Some file =>
            let timestamp := unix_timestamp now in
            let proof_filename :=
              "payments/payment_" +:+ pretty user_id +:+ "_"
                +:+ pretty timestamp +:+ ".jpg" in
            let fs1 := <[proof_filename := file]> fs in
            let '(payment_id, db1) := add_payment now user_id 200 proof_filename db in
            if bool_decide (payment_id > 0)
            then (ProofReceived, false,
                  update_payment_status user_id "pending" db1, fs1)
            else (FailedToRecordPayment, awaiting_payment, db1, fs1)
        end
  end.

(** [approve_payment], called by [caller]. *)
Definition approve_payment (now : datetime) (caller : Z) (payment_id : Z)
    (db : Database) : reply * Database :=
  if not_admin (get_user caller db) then (Unauthorized, db)
  else
    match _get_payment_by_id payment_id db with
    | None => (PaymentNotFound, db)
    | Some p =>
        let db1 := update_payment now payment_id "approved" "Approved by admin" db in
        let db2 := update_user_expiry now (payment_user_id p) 30 db1 in
        (PaymentApproved payment_id, db2)
    end.

(** [reject_payment], called by [caller]. *)
Definition reject_payment (now : datetime) (caller : Z) (payment_id : Z)
    (db : Database) : reply * Database :=
  if not_admin (get_user caller db) then (Unauthorized, db)
  else
    match _get_payment_by_id payment_id db with
    | None => (PaymentNotFound, db)
    | Some p =>
        let db1 := update_payment now payment_id "rejected" "Rejected by admin" db in
        let db2 := update_payment_status (payment_user_id p) "rejected" db1 in
        (PaymentRejected payment_id, db2)
    end.

(** ** configs.py *)

(** [handle_upload].  [awaiting_config] is the category stored in the
    sender's conversation state, if any, returned updated; [document] is the
    attached file: its name and content; [iv] is the random block drawn by
    [encrypt_file]. *)
Definition handle_upload (now : datetime) (iv : list Z) (user_id : Z)
    (awaiting_config : option string) (document : option (string * list Z))
    (db : Database) (fs : filesystem)
    : reply * option string * Database * filesystem :=
  if not_admin (get_user user_id db)
  then (AdminAccessRequired, awaiting_config, db, fs)
  else
    match awaiting_config with
    | None => (SelectCategoryFirst, awaiting_config, db, fs)
    | Some cat =>
        match document with
        | None => (SendConfigFile, awaiting_config, db, fs)
        | Some (fname, content) =>
            if negb (is_valid_config_extension fname)
            then (InvalidFileType, awaiting_config, db, fs)
            else
              let temp_path := "temp/" +:+ pretty (unix_timestamp now) +:+ "_" +:+ fname in
              let fs1 := <[temp_path := content]> fs in
              let encrypted_filename := generate_filename now fname user_id in
              let encrypted_path := "configs/" +:+ encrypted_filename in
              match encrypt_file iv temp_path encrypted_path fs1 with
              | (true, fs2) =>
                  let file_size := Z.of_nat (length content) in
                  let '(config_id, db1) :=
                    add_config now encrypted_filename fname cat file_size 30 db in
                  if bool_decide (config_id > 0)
                  then (ConfigUploaded config_id, None, db1, delete temp_path fs2)
                  else (FailedToSaveConfig, awaiting_config, db1, fs2)
              | (false, fs2) => (FailedToEncrypt, awaiting_config, db, fs2)
              end
        end
    end.

(** The expiry test shared by [download_config] and
    [show_category_selection]: [user['expiry_date']] is set and lies before
    the current time. *)
Definition subscription_expired (now : datetime) (u : user) : bool :=
  match expiry_date u with
  | Some expiry => bool_decide (expiry < now)
  | None => false
  end.

(** [download_config].  [member] is the answer of
    [check_channel_membership]; [send_ok] tells whether [send_document]
    delivers the file or raises. *)
Definition download_config (now : datetime) (member send_ok : bool)
    (user_id config_id : Z) (db : Database) (fs : filesystem)
    : reply * Database * filesystem :=
  match get_user user_id db with
  | None => (UserNotFound, db, fs)
  | Some u =>
      if negb member then (JoinChannelFirst, db, fs)
      else if bool_decide (payment_status u ≠ "approved")
      then (PaymentRequired, db, fs)
      else if subscription_expired now u then (SubscriptionExpired, db, fs)
      else
        match get_config config_id db with
        | None => (ConfigNotFoundOrExpired, db, fs)
        | Some c =>
            if bool_decide (is_active c = 0) then (ConfigNotFoundOrExpired, db, fs)
            else
              let encrypted_path := "configs/" +:+ filename c in
              let temp_decrypted_path :=
                "temp/" +:+ pretty (unix_timestamp now) +:+ "_" +:+ original_filename c in
              match decrypt_file encrypted_path temp_decrypted_path fs with
              | (true, fs1) =>
                  if send_ok
                  then
                    let db1 := record_download now user_id config_id db in
                    let db2 := increment_downloads user_id db1 in
                    (ConfigDownloaded, db2, delete temp_decrypted_path fs1)
                  else (ErrorDownloading, db, fs1)
              | (false, fs1) => (ErrorDecrypting, db, fs1)
              end
        end
  end.

(** [ConfigManager.delete_config] *)
Definition delete_config_handler (caller config_id : Z)
    (db : Database) (fs : filesystem) : Database * filesystem :=
  if not_admin (get_user caller db) then (db, fs)
  else
    match get_config config_id db with
    | None => (db, fs)
    | Some c => (delete_config config_id db, delete ("configs/" +:+ filename c) fs)
    end.

(** ** admin.py *)

Definition admin_is_admin (user_id : Z) (db : Database) : bool :=
  bool_decide (user_id = OPERATOR_ID)
  || match get_user user_id db with
     | Some u => bool_decide (is_admin u = 1)
     | None => false
     end.

(** [process_expire_user].  [target] is [int(update.message.text)], [None]
    when the text is not a number. *)
Definition process_expire_user (now : datetime) (caller : Z)
    (awaiting_expire_user : bool) (target : option Z) (db : Database)
    : reply * bool * Database :=
  if negb (admin_is_admin caller db) then (NoReply, awaiting_expire_user, db)
  else if negb awaiting_expire_user then (NoReply, awaiting_expire_user, db)
  else
    match target with
    | None => (InvalidUserId, awaiting_expire_user, db)
    | Some user_id =>
        match get_user user_id db with
        | None => (UserNotFound, awaiting_expire_user, db)
        | Some _ =>
            match datetime_add now (- timedelta_days 1) with
            | None => (ErrorExpiringUser, awaiting_expire_user, db)
            | Some expired_date =>
                (UserExpired, false,
                 set_users (alter (fun r =>
                   mk_user (username r) (join_date r) (Some expired_date)
                           (payment_status r) (total_downloads r) (is_admin r))
                   user_id) db)
            end
        end
    end.

(** ** main.py *)

(** The store part of [job_cleanup]. *)
Definition job_cleanup (now : datetime) (db : Database) : Database :=
  let db1 := (delete_expired_users now db).2 in
  (delete_expired_configs now db1).2.

(** ** Requests

    The events that reach the store, as dispatched by [main.py]. *)
Inductive request : Type :=
  | Start (user_id : Z) (name : option string)
  | PaymentProof (user_id : Z) (awaiting : bool) (attachment : option (list Z))
  | Approve (caller payment_id : Z)
  | Reject (caller payment_id : Z)
  | Upload (iv : list Z) (user_id : Z) (awaiting : option string)
           (document : option (string * list Z))
  | Download (member send_ok : bool) (user_id config_id : Z)
  | DeleteConfig (caller config_id : Z)
  | ExpireUser (caller : Z) (awaiting : bool) (target : option Z)
  | Cleanup.

(** One request handled at time [now]. *)
Definition handle (now : datetime) (r : request)
    (s : Database * filesystem) : Database * filesystem :=
  let '(db, fs) := s in
  match r with
  | Start user_id name => (show_welcome now user_id name db, fs)
  | PaymentProof user_id awaiting attachment =>
      let '(_, _, db', fs') := handle_payment_proof now user_id awaiting attachment db fs in
      (db', fs')
  | Approve caller payment_id => ((approve_payment now caller payment_id db).2, fs)
  | Reject caller payment_id => ((reject_payment now caller payment_id db).2, fs)
  | Upload iv user_id awaiting document =>
      let '(_, _, db', fs') := handle_upload now iv user_id awaiting document db fs in
      (db', fs')
  | Download member send_ok user_id config_id =>
      let '(_, db', fs') := download_config now member send_ok user_id config_id db fs in
      (db', fs')
  | DeleteConfig caller config_id => delete_config_handler caller config_id db fs
  | ExpireUser caller awaiting target =>
      ((process_expire_user now caller awaiting target db).2, fs)
  | Cleanup => (job_cleanup now db, fs)
  end.

(** The state after a run of timed requests, oldest first. *)
Fixpoint run (trace : list (datetime * request))
    (s : Database * filesystem) : Database * filesystem :=
  match trace with
  | [] => s
  | (now, r) :: rest => run rest (handle now r s)
  end.

(** The states the system can be in: [create_tables] on first start, an
    empty disk, then any run of requests. *)
Definition reachable (s : Database * filesystem) : Prop :=
  ∃ t0 trace, s = run trace (create_tables t0, ∅).

(** ** Notions about the whole state *)

(** The download records of a file, and of a user, counted. *)
Definition download_count (config_id : Z) (ds : list download) : Z :=
  Z.of_nat (length (filter (fun d => download_config_id d = config_id) ds)).

Definition user_download_count (user_id : Z) (ds : list download) : Z :=
  Z.of_nat (length (filter (fun d => download_user_id d = user_id) ds)).

(** User rows: the operator is there; the admin flag is set on the operator
    row and on no other; a download counter does not exceed the records. *)
Definition users_ok (db : Database) : Prop :=
  is_Some (users db !! OPERATOR_ID)
  ∧ map_Forall (fun k u =>
      is_admin u = (if bool_decide (k = OPERATOR_ID) then 1 else 0)
      ∧ 0 <= total_downloads u <= user_download_count k (downloads db))
    (users db).

(** Payment rows: numbered below the sequence, of amount 200, with a known
    status, and with a processed date and an admin note exactly when the
    status is no longer 'pending'. *)
Definition payments_ok (db : Database) : Prop :=
  0 < next_payment_id db
  ∧ map_Forall (fun k p =>
      0 < k < next_payment_id db
      ∧ amount p = 200
      ∧ status p ∈ ["pending"; "approved"; "rejected"]
      ∧ (processed_date p = None ↔ status p = "pending")
      ∧ (admin_note p = None ↔ status p = "pending"))
    (payments db).

(** File rows: numbered below the sequence, with an active flag of 0 or 1,
    an expiry, a download counter equal to the number of download records,
    a storage name no other row has, and the encrypted file on disk. *)
Definition configs_ok (db : Database) (fs : filesystem) : Prop :=
  0 < next_config_id db
  ∧ Forall (fun d => download_config_id d < next_config_id db) (downloads db)
  ∧ map_Forall (fun k c =>
      0 < k < next_config_id db
      ∧ (is_active c = 0 ∨ is_active c = 1)
      ∧ is_Some (config_expiry_date c)
      ∧ config_total_downloads c = download_count k (downloads db)
      ∧ is_Some (fs !! ("configs/" +:+ filename c))
      ∧ ∀ k' c', configs db !! k' = Some c' → filename c' = filename c → k' = k)
    (configs db).

Definition state_ok (s : Database * filesystem) : Prop :=
  users_ok s.1 ∧ payments_ok s.1 ∧ configs_ok s.1 s.2.

(** ** database.py: listings *)

Definition upload_date_ge (a b : Z * config) : Prop :=
  upload_date b.2 <= upload_date a.2.

#[local] Instance upload_date_ge_dec a b : Decision (upload_date_ge a b).
Proof. unfold upload_date_ge. apply _. Defined.

(** [get_configs_by_category]: the active rows of a category, ORDER BY
    upload_date DESC. *)
Definition get_configs_by_category (cat : string) (db : Database)
    : list (Z * config) :=
  merge_sort upload_date_ge
    (map_to_list (filter (fun kv => category kv.2 = cat ∧ is_active kv.2 = 1)
                    (configs db))).

(** [get_all_configs]: all active rows, ORDER BY upload_date DESC. *)
Definition get_all_configs (db : Database) : list (Z * config) :=
  merge_sort upload_date_ge
    (map_to_list (filter (fun kv => is_active kv.2 = 1) (configs db))).

Definition join_date_ge (a b : Z * user) : Prop :=
  join_date b.2 <= join_date a.2.

#[local] Instance join_date_ge_dec a b : Decision (join_date_ge a b).
Proof. unfold join_date_ge. apply _. Defined.

(** [get_all_users]: ORDER BY join_date DESC. *)
Definition get_all_users (db : Database) : list (Z * user) :=
  merge_sort join_date_ge (map_to_list (users db)).

(** ** user.py: the way to the catalogue *)

(** The replies of [show_category_selection]; its texts differ from those of
    [download_config]. *)
Inductive category_reply : Type :=
  | CategoryUserNotFound         (* "User not found." *)
  | CategoryJoinChannelFirst     (* "You must join our official channel first" *)
  | CategoryPaymentRequired      (* "Payment required." *)
  | CategorySubscriptionExpired  (* "Subscription expired." *)
  | CategoryKeyboard.            (* "SELECT CATEGORY" with the category keyboard *)

(** [show_category_selection]; [member] is the answer of
    [check_channel_membership]. *)
Definition show_category_selection (now : datetime) (member : bool)
    (user_id : Z) (db : Database) : category_reply :=
  match get_user user_id db with
  | None => CategoryUserNotFound
  | Some u =>
      if negb member then CategoryJoinChannelFirst
      else if bool_decide (payment_status u ≠ "approved")
      then CategoryPaymentRequired
      else
        match expiry_date u with
        | Some expiry =>
            if bool_decide (expiry < now) then CategorySubscriptionExpired
            else CategoryKeyboard
        | None => CategoryKeyboard
        end
  end.

(** ** admin.py: broadcast *)

(** The loop of [process_broadcast] over the users; [delivers] tells for
    which recipient the send goes through, an exception counting as a
    failure. *)
Fixpoint broadcast_loop (delivers : Z -> bool) (recipients : list (Z * user))
    (successful failed : Z) : Z * Z :=
  match recipients with
  | [] => (successful, failed)
  | (user_id, _) :: rest =>
      if delivers user_id
      then broadcast_loop delivers rest (successful + 1) failed
      else broadcast_loop delivers rest successful (failed + 1)
  end.

(** [process_broadcast]: the counts reported (successful, failed, total),
    if a report is sent, and the conversation flag afterwards. *)
Definition process_broadcast (caller : Z) (awaiting_broadcast : bool)
    (delivers : Z -> bool) (db : Database) : option (Z * Z * Z) * bool :=
  if negb (admin_is_admin caller db) then (None, awaiting_broadcast)
  else if negb awaiting_broadcast then (None, awaiting_broadcast)
  else
    let recipients := get_all_users db in
    let '(successful, failed) := broadcast_loop delivers recipients 0 0 in
    (Some (successful, failed, Z.of_nat (length recipients)), false).


(** ** configs.py: the end of a download *)

(** Once [send_document] has delivered the file and the download is
    recorded, [download_config] still removes the decrypted copy and edits
    the message into the confirmation.  Either step may raise, and the
    handler then answers "Error downloading config". *)
Inductive after_send : Type :=
  | AllDone         (* both steps go through *)
  | RemoveRaises    (* [os.remove] raises *)
  | ConfirmRaises.  (* [edit_message_text] raises on the confirmation *)

(** [download_config] with these outcomes told apart. *)
Definition download_config_outcome (now : datetime) (member send_ok : bool)
    (rest : after_send) (user_id config_id : Z) (db : Database)
    (fs : filesystem) : reply * Database * filesystem :=
  match get_user user_id db with
  | None => (UserNotFound, db, fs)
  | Some u =>
      if negb member then (JoinChannelFirst, db, fs)
      else if bool_decide (payment_status u ≠ "approved")
      then (PaymentRequired, db, fs)
      else if subscription_expired now u then (SubscriptionExpired, db, fs)
      else
        match get_config config_id db with
        | None => (ConfigNotFoundOrExpired, db, fs)
        | Some c =>
            if bool_decide (is_active c = 0) then (ConfigNotFoundOrExpired, db, fs)
            else
              let encrypted_path := "configs/" +:+ filename c in
              let temp_decrypted_path :=
                "temp/" +:+ pretty (unix_timestamp now) +:+ "_" +:+ original_filename c in
              match decrypt_file encrypted_path temp_decrypted_path fs with
              | (true, fs1) =>
                  if send_ok
                  then
                    let db1 := record_download now user_id config_id db in
                    let db2 := increment_downloads user_id db1 in
                    match rest with
                    | AllDone =>
                        (ConfigDownloaded, db2, delete temp_decrypted_path fs1)
                    | RemoveRaises => (ErrorDownloading, db2, fs1)
                    | ConfirmRaises =>
                        (ErrorDownloading, db2, delete temp_decrypted_path fs1)
                    end
                  else (ErrorDownloading, db, fs1)
              | (false, fs1) => (ErrorDecrypting, db, fs1)
              end
        end
  end.
(** ** utils.py: dates and durations *)

(** A [timedelta] is a number of microseconds; [delta.days] and
    [delta.seconds] are its normalised parts: the seconds lie between 0 and
    86399 and the days carry the sign. *)
Definition delta_days (delta : Z) : Z := delta `div` MICROS_PER_DAY.

Definition delta_seconds (delta : Z) : Z :=
  (delta `mod` MICROS_PER_DAY) `div` 1000000.

(** The plural "s" of the f-strings: [{'s' if n != 1 else ''}]. *)
Definition plural_s (n : Z) : string := if bool_decide (n ≠ 1) then "s" else "".

(** [format_timedelta] *)
Definition format_timedelta (delta : Z) : string :=
  let days := delta_days delta in
  let hours := delta_seconds delta `div` 3600 in
  if bool_decide (days > 0) then pretty days +:+ " day" +:+ plural_s days
  else if bool_decide (hours > 0) then pretty hours +:+ " hour" +:+ plural_s hours
  else
    let minutes := delta_seconds delta `div` 60 in
    pretty minutes +:+ " minute" +:+ plural_s minutes.

(** [get_time_until_expiry].  The stored text always parses, so the
    "Unknown" of the exception handler does not arise. *)
Definition get_time_until_expiry (now : datetime)
    (expiry_date : option datetime) : string :=
  match expiry_date with
  | None => "Expired"
  | Some expiry =>
      if bool_decide (expiry < now) then "Expired"
      else format_timedelta (expiry - now)
  end.

(** Year, month and day of the day numbered [d] from 0001-01-01, by the
    usual computation on 400-year eras of years that start in March. *)
Definition civil_from_days (d : Z) : Z * Z * Z :=
  let z := d + 306 in
  let era := z `div` 146097 in
  let doe := z - era * 146097 in
  let yoe := (doe - doe `div` 1460 + doe `div` 36524 - doe `div` 146096) `div` 365 in
  let doy := doe - (365 * yoe + yoe `div` 4 - yoe `div` 100) in
  let mp := (5 * doy + 2) `div` 153 in
  let day := doy - (153 * mp + 2) `div` 5 + 1 in
  let month := if bool_decide (mp < 10) then mp + 3 else mp - 9 in
  let year := yoe + era * 400 + (if bool_decide (month <= 2) then 1 else 0) in
  (year, month, day).

Definition digit_char (n : Z) : ascii := ascii_of_N (48 + Z.to_N (n `mod` 10)).

(** A field that [strftime] pads with a zero to two digits. *)
Definition two_digits (n : Z) : string :=
  String (digit_char (n `div` 10)) (String (digit_char n) EmptyString).

(** [dt.strftime("%d/%m/%Y %H:%M")].  The year is printed as the C library
    prints it, without padding; from the year 1000 on this is the same on
    every platform. *)
Definition strftime_dmy_hm (t : datetime) : string :=
  let '(year, month, day) := civil_from_days (t `div` MICROS_PER_DAY) in
  let in_day := t `mod` MICROS_PER_DAY in
  let hour := in_day `div` (3600 * 1000000) in
  let minute := (in_day `div` (60 * 1000000)) `mod` 60 in
  two_digits day +:+ "/" +:+ two_digits month +:+ "/" +:+ pretty year
    +:+ " " +:+ two_digits hour +:+ ":" +:+ two_digits minute.

(** [format_date] *)
Definition format_date (date_str : option datetime) : string :=
  match date_str with
  | None => "Never"
  | Some t => strftime_dmy_hm t
  end.

(** ** user.py: the status page *)

Inductive subscription_line : Type :=
  | LineExpired                     (* "Expired" *)
  | LineActive (remaining : string) (* "Active (... remaining)" *)
  | LinePending                     (* "Pending" *)
  | LinePaymentPending              (* "Payment Pending" *)
  | LineNoSubscription.             (* "No Subscription" *)

Inductive status_action : Type :=
  | ActionJoinChannel  (* "Join @nexanetofficial to access configs" *)
  | ActionMakePayment  (* "Make payment to download configs" *)
  | ActionRenew        (* "Renew your subscription" *)
  | ActionReady.       (* "Ready to download configs!" *)

Record status_page := mk_status_page {
  page_user : string;
  page_id : Z;
  page_joined : string;
  page_channel : bool;
  page_subscription : subscription_line;
  page_expires : string;
  page_downloads : Z;
  page_action : status_action
}.

(** [show_user_status]; [None] is the reply "User not found.", [member] the
    answer of [check_channel_membership]. *)
Definition show_user_status (now : datetime) (member : bool) (user_id : Z)
    (db : Database) : option status_page :=
  match get_user user_id db with
  | None => None
  | Some u =>
      let subscription_status :=
        if bool_decide (payment_status u = "approved") then
          match expiry_date u with
          | Some expiry =>
              let expiry_status := get_time_until_expiry now (Some expiry) in
              if bool_decide (expiry_status = "Expired") then LineExpired
              else LineActive expiry_status
          | None => LinePending
          end
        else if bool_decide (payment_status u = "pending")
        then LinePaymentPending
        else LineNoSubscription in
      let joined := format_date (Some (join_date u)) in
      let expires := format_date (expiry_date u) in
      let action :=
        if negb member then ActionJoinChannel
        else if bool_decide (payment_status u ≠ "approved")
        then ActionMakePayment
        else if bool_decide (expires = "Expired") then ActionRenew
        else ActionReady in
      Some (mk_status_page
              (if bool_decide (username u = "") then "N/A" else username u)
              user_id joined member subscription_status expires
              (total_downloads u) action)
  end.

(** ** Paged listings *)

(** An index of a slice, clipped to the list as Python does. *)
Definition slice_bound (i : Z) (len : nat) : nat :=
  Z.to_nat (if bool_decide (i < 0) then Z.max (i + Z.of_nat len) 0
            else Z.min i (Z.of_nat len)).

(** [items[start:stop]] *)
Definition slice {A : Type} (items : list A) (start stop : Z) : list A :=
  let s := slice_bound start (length items) in
  let e := slice_bound stop (length items) in
  take (e - s) (drop s items).

(** What a paged listing shows: the total, the page as printed (from 1),
    the number of pages as printed, the lines of the page, and the pages
    that the "Prev" and "Next" buttons ask for. *)
Record page_view (A : Type) := mk_page_view {
  view_total : Z;
  view_page : Z;
  view_pages : Z;
  view_items : list A;
  view_prev : option Z;
  view_next : option Z
}.
#[global] Arguments mk_page_view {A}.
#[global] Arguments view_total {A}.
#[global] Arguments view_page {A}.
#[global] Arguments view_pages {A}.
#[global] Arguments view_items {A}.
#[global] Arguments view_prev {A}.
#[global] Arguments view_next {A}.

(** The part that [list_pending_payments] and [list_users] share. *)
Definition paginate {A B : Type} (line : Z -> A -> B) (items : list A)
    (page per_page : Z) : page_view B :=
  let start_idx := page * per_page in
  let end_idx := start_idx + per_page in
  let current := slice items start_idx end_idx in
  mk_page_view
    (Z.of_nat (length items))
    (page + 1)
    ((Z.of_nat (length items) + per_page - 1) `div` per_page)
    (imap (fun k => line (start_idx + 1 + Z.of_nat k)) current)
    (if bool_decide (page > 0) then Some (page - 1) else None)
    (if bool_decide (end_idx < Z.of_nat (length items)) then Some (page + 1)
     else None).

Inductive listing (A : Type) : Type :=
  | ListingUnauthorized          (* "Unauthorized." *)
  | ListingEmpty                 (* "No pending payments." *)
  | ListingPage (v : page_view A).
#[global] Arguments ListingUnauthorized {A}.
#[global] Arguments ListingEmpty {A}.
#[global] Arguments ListingPage {A}.

(** ** payments.py: the pending list *)

(** A line of the list: the payment id of the "Review" button, the user
    label and the date. *)
Record payment_line := mk_payment_line {
  line_payment_id : Z;
  line_payer : string;
  line_date : string
}.

Definition payment_line_of (db : Database) (row : Z * payment) : payment_line :=
  let '(payment_id, p) := row in
  let name := from_option username "" (users db !! payment_user_id p) in
  mk_payment_line payment_id
    (if bool_decide (name = "") then "User_" +:+ pretty (payment_user_id p)
     else name)
    (format_date (Some (payment_date p))).

(** [list_pending_payments]; [page] is [user_data.get('payment_page', 0)]. *)
Definition list_pending_payments (caller : Z) (page : Z) (db : Database)
    : listing payment_line :=
  if not_admin (get_user caller db) then ListingUnauthorized
  else
    match get_pending_payments db with
    | [] => ListingEmpty
    | pending =>
        ListingPage (paginate (fun _ => payment_line_of db) pending page 5)
    end.

(** ** admin.py: the user list *)

Inductive badge : Type := BadgeGreen | BadgeYellow | BadgeRed.

Record user_line := mk_user_line {
  line_number : Z;
  line_badge : badge;
  line_name : string;
  line_crown : bool;
  line_user_id : Z;
  line_downloads : Z;
  line_status : string;
  line_expires : string
}.

Definition user_line_of (now : datetime) (i : Z) (row : Z * user) : user_line :=
  let '(user_id, u) := row in
  let status :=
    if bool_decide (payment_status u = "approved") then BadgeGreen
    else if bool_decide (payment_status u = "pending") then BadgeYellow
    else BadgeRed in
  let name :=
    if bool_decide (username u = "") then "User_" +:+ pretty user_id
    else "@" +:+ username u in
  let '(status, expiry_status) :=
    match expiry_date u with
    | Some expiry =>
        let expiry_status := get_time_until_expiry now (Some expiry) in
        (if bool_decide (expiry_status = "Expired") then BadgeRed else status,
         expiry_status)
    | None => (status, "Never")
    end in
  mk_user_line i status name (bool_decide (is_admin u ≠ 0)) user_id
    (total_downloads u) (payment_status u) expiry_status.

(** [list_users]; [page] is [user_data.get('users_page', 0)]. *)
Definition list_users (now : datetime) (caller : Z) (page : Z) (db : Database)
    : listing user_line :=
  if negb (admin_is_admin caller db) then ListingUnauthorized
  else ListingPage (paginate (user_line_of now) (get_all_users db) page 10).

(** ** utils.py and configs.py: the catalogue of a category *)

(** The file name on a button: a name longer than [limit] characters is cut
    to [keep] characters and three dots. *)
Definition shorten (limit keep : nat) (name : string) : string :=
  if bool_decide (limit < String.length name)%nat
  then String.substring 0 keep name +:+ "..."
  else name.

(** A button for a file: its label, without the pictogram in front, and the
    config id of its callback data. *)
Record config_button := mk_config_button {
  button_label : string;
  button_config_id : Z
}.

Record configs_keyboard := mk_configs_keyboard {
  keyboard_buttons : list config_button;
  keyboard_previous : option Z;
  keyboard_next : option Z
}.

(** [create_configs_keyboard] *)
Definition create_configs_keyboard (configs : list (Z * config))
    (page configs_per_page : Z) : configs_keyboard * Z :=
  let start_idx := page * configs_per_page in
  let end_idx := start_idx + configs_per_page in
  let current_configs := slice configs start_idx end_idx in
  let keyboard :=
    (fun row : Z * config =>
       mk_config_button (shorten 30 27 (original_filename row.2)) row.1)
      <$> current_configs in
  let current_page :=
    match current_configs with [] => 0 | _ => page + 1 end in
  (mk_configs_keyboard keyboard
     (if bool_decide (page > 0) then Some (page - 1) else None)
     (if bool_decide (end_idx < Z.of_nat (length configs)) then Some (page + 1)
      else None),
   current_page).

(** [list_configs]: [None] is the reply "No configs available"; otherwise
    the total shown, the page shown and the keyboard. *)
Definition list_configs (cat : string) (db : Database)
    : option (Z * Z * configs_keyboard) :=
  match get_configs_by_category cat db with
  | [] => None
  | configs =>
      let '(keyboard, current_page) := create_configs_keyboard configs 0 10 in
      Some (Z.of_nat (length configs), current_page, keyboard)
  end.

(** [list_configs_for_deletion]: [None] is "No configs available."; the
    buttons are those of the first twenty rows. *)
Definition list_configs_for_deletion (db : Database)
    : option (Z * list config_button) :=
  match get_all_configs db with
  | [] => None
  | configs =>
      Some (Z.of_nat (length configs),
            (fun row : Z * config =>
               mk_config_button
                 (shorten 25 22 (original_filename row.2)
                    +:+ " (" +:+ category row.2 +:+ ")")
                 row.1)
              <$> slice configs 0 20)
  end.

(** ** Sample data

    2024-01-01T00:00:00 is day 738885 of the range. *)
Definition sample_now : datetime := 738885 * MICROS_PER_DAY.

Definition operator_row : user :=
  mk_user "nexanetadmin" 0 None "approved" 0 1.

(** A store with the operator, one member [42] with the given status and
    expiry, and one payment [1] of that member with the given status. *)
Definition sample_db (user_status : string) (expiry : option datetime)
    (payment_st : string) : Database :=
  mk_db (<[42 := mk_user "bob" 0 expiry user_status 3 0]>
           {[ OPERATOR_ID := operator_row ]})
        ∅
        {[ 1 := mk_payment 42 200 0 "payments/payment_42_0.jpg" payment_st None None ]}
        [] 1 2.

(** A five-byte file, and its encryption under the stand-in cipher with
    the IV 1, ..., 16. *)
Definition sample_plain : list Z := [104; 101; 108; 108; 111].

Definition sample_blob : list Z :=
  [1; 2; 3; 4; 5; 6; 7; 8; 9; 10; 11; 12; 13; 14; 15; 16;
   27; 4; 5; 6; 7; 0; 1; 2; 3; 12; 13; 106; 104; 111; 103; 105].

(** A store with the operator, one member [42] with the given status and
    expiry, and one active file [7] with the given expiry; and a disk that
    holds the encrypted file. *)
Definition sample_catalog (user_status : string) (expiry : option datetime)
    (file_expiry : option datetime) : Database :=
  mk_db (<[42 := mk_user "bob" 0 expiry user_status 3 0]>
           {[ OPERATOR_ID := operator_row ]})
        {[ 7 := mk_config "config_ab12cd34.hc.enc" "Safaricom" "safaricom.hc"
                  5 0 file_expiry 0 1 ]}
        ∅ [] 8 1.

Definition sample_disk : filesystem :=
  {[ "configs/config_ab12cd34.hc.enc" := sample_blob ]}.

(** ** Notions used in the statements *)

(** The statuses the handlers write. *)
Definition status_known (u : user) : Prop :=
  payment_status u ∈ ["pending"; "approved"; "rejected"].

(** Every user row carries one of the three statuses, and the payment
    sequence is positive. *)
Definition store_ok (db : Database) : Prop :=
  map_Forall (fun _ u => status_known u) (users db) ∧ 0 < next_payment_id db.

(** The shape of a file name with an extension in the sense of
    [os.path.splitext]: a directory part that is empty or ends with the
    separator, a base name free of separators that is not made of dots
    only, a dot, and an extension free of dots and separators. *)
Definition has_extension (p ext : list ascii) : Prop :=
  ∃ dir base,
    p = dir ++ base ++ "."%char :: ext
    ∧ (dir = [] ∨ ∃ d, dir = d ++ ["/"%char])
    ∧ ("/"%char ∉ base)
    ∧ (∃ c, c ∈ base ∧ c ≠ "."%char)
    ∧ ("."%char ∉ ext)
    ∧ ("/"%char ∉ ext).

(** * Properties *)

(** Closes a goal that is a disjunction of equations one of which holds by
    computation. *)
Ltac pick_disjunct := repeat first [left; reflexivity | right].

(** ** Store lemmas *)

Lemma get_payment_by_id_lookup payment_id db :
  _get_payment_by_id payment_id db = payments db !! payment_id.
Proof.
  unfold _get_payment_by_id.
  destruct (list_find _ _) as [[i [k p]]|] eqn:E; [|done].
  apply list_find_Some in E as (Hl & Hk & _). simpl in Hk. subst k.
  apply list_elem_of_lookup_2 in Hl.
  unfold get_pending_payments in Hl. rewrite merge_sort_Permutation in Hl.
  apply elem_of_map_to_list in Hl.
  apply map_lookup_filter_Some in Hl as [Hl _]. by rewrite Hl.
Qed.

Lemma users_update_payment now payment_id st note db :
  users (update_payment now payment_id st note db) = users db.
Proof. done. Qed.

Lemma payments_update_user_expiry now user_id days db :
  payments (update_user_expiry now user_id days db) = payments db.
Proof.
  unfold update_user_expiry.
  destruct (get_user user_id db) as [u|]; [|done].
  by destruct (expiry_date u); destruct (datetime_add _ _).
Qed.

Lemma datetime_add_Some t delta :
  datetime_valid (t + delta) → datetime_add t delta = Some (t + delta).
Proof. intros H. unfold datetime_add. by rewrite bool_decide_eq_true_2. Qed.

(** The effect of [update_user_expiry] on the row it addresses, when the
    new expiry is representable. *)
Lemma update_user_expiry_lookup now user_id days db u :
  users db !! user_id = Some u →
  datetime_valid (default now (expiry_date u) + timedelta_days days) →
  users (update_user_expiry now user_id days db) !! user_id
  = Some (mk_user (username u) (join_date u)
            (Some (default now (expiry_date u) + timedelta_days days))
            "approved" (total_downloads u) (is_admin u)).
Proof.
  intros Hu Hr. unfold update_user_expiry, get_user. rewrite Hu.
  destruct (expiry_date u) as [e|] eqn:He; simpl in Hr;
    rewrite (datetime_add_Some _ _ Hr); simpl;
    by rewrite lookup_alter_eq, Hu.
Qed.

(** What an authorised [approve_payment] does to a payment that exists,
    whatever its status. *)
Lemma approve_payment_effect now caller payment_id db p u :
  not_admin (get_user caller db) = false →
  payments db !! payment_id = Some p →
  users db !! payment_user_id p = Some u →
  datetime_valid (default now (expiry_date u) + timedelta_days 30) →
  let '(r, db') := approve_payment now caller payment_id db in
  r = PaymentApproved payment_id
  ∧ payments db' !! payment_id
    = Some (mk_payment (payment_user_id p) (amount p) (payment_date p)
              (payment_proof p) "approved" (Some "Approved by admin") (Some now))
  ∧ users db' !! payment_user_id p
    = Some (mk_user (username u) (join_date u)
              (Some (default now (expiry_date u) + timedelta_days 30))
              "approved" (total_downloads u) (is_admin u)).
Proof.
  intros Ha Hp Hu Hr. unfold approve_payment.
  rewrite Ha, get_payment_by_id_lookup, Hp.
  split; [done|]. split.
  - rewrite payments_update_user_expiry. simpl.
    by rewrite lookup_alter_eq, Hp.
  - by apply update_user_expiry_lookup.
Qed.

Lemma expired_user_row_true now user_id u :
  expired_user_row now user_id u = true ↔
  payment_status u = "approved"
  ∧ (∃ e, expiry_date u = Some e ∧ e < now)
  ∧ user_id ≠ OPERATOR_ID.
Proof.
  unfold expired_user_row.
  rewrite !andb_true_iff, !bool_decide_eq_true.
  destruct (expiry_date u) as [e|].
  - rewrite bool_decide_eq_true. split.
    + intros [[? ?] ?]. eauto.
    + intros (? & (e' & [= <-] & ?) & ?). auto.
  - split.
    + by intros [[? ?] ?].
    + by intros (? & (e' & ? & ?) & ?).
Qed.

(** Once the membership and subscription checks of [download_config] have
    passed, the reply is about the file or its delivery. *)
Lemma download_config_after_checks now send_ok user_id config_id db fs u :
  users db !! user_id = Some u →
  payment_status u = "approved" →
  subscription_expired now u = false →
  (download_config now true send_ok user_id config_id db fs).1.1
    ∈ [ConfigNotFoundOrExpired; ConfigDownloaded; ErrorDownloading; ErrorDecrypting].
Proof.
  intros Hu Hs He. unfold download_config, get_user. rewrite Hu. simpl.
  rewrite bool_decide_eq_false_2 by (by intros []). rewrite He.
  rewrite !elem_of_cons.
  destruct (get_config config_id db) as [c|]; [|by left].
  case_bool_decide; [by left|].
  destruct (decrypt_file _ _ _) as [[] fs1]; [destruct send_ok|]; simpl; pick_disjunct.
Qed.

Lemma download_config_not_approved now member send_ok user_id config_id db fs u :
  users db !! user_id = Some u →
  payment_status u ≠ "approved" →
  download_config now member send_ok user_id config_id db fs
  = (if member then PaymentRequired else JoinChannelFirst, db, fs).
Proof.
  intros Hu Hs. unfold download_config, get_user. rewrite Hu.
  destruct member; simpl; [|done]. by rewrite bool_decide_eq_true_2.
Qed.

(** ** Payment approval *)

(** C1 (amended).  When an administrator approves a payment, the owner's
    payment status becomes 'approved' and the new expiry is the stored
    expiry plus 30 days whenever an expiry is stored, be it past or future,
    and the current time plus 30 days when none is stored; this for every
    sum that is a representable datetime. *)
Theorem approve_payment_extends_expiry now caller payment_id db p u :
  not_admin (get_user caller db) = false →
  payments db !! payment_id = Some p →
  users db !! payment_user_id p = Some u →
  datetime_valid (default now (expiry_date u) + timedelta_days 30) →
  ∃ u', users (approve_payment now caller payment_id db).2 !! payment_user_id p = Some u'
    ∧ payment_status u' = "approved"
    ∧ expiry_date u'
      = Some (match expiry_date u with
              | Some T => T + timedelta_days 30
              | None => now + timedelta_days 30
              end).
Proof.
  intros Ha Hp Hu Hr.
  pose proof (approve_payment_effect now caller payment_id db p u Ha Hp Hu Hr) as H.
  destruct (approve_payment now caller payment_id db) as [r db'].
  destruct H as (_ & _ & H). eexists. split; [exact H|].
  split; [done|]. simpl. by destruct (expiry_date u).
Qed.

(** C1, as stated, fails for a past expiry: a member whose expiry lies five
    days back is approved and ends 25 days ahead, not 30. *)
Lemma approve_past_expiry_counterexample :
  let db := sample_db "pending" (Some (sample_now - timedelta_days 5)) "pending" in
  let db' := (approve_payment sample_now OPERATOR_ID 1 db).2 in
  expiry_date <$> users db' !! 42 = Some (Some (sample_now + timedelta_days 25))
  ∧ expiry_date <$> users db' !! 42 ≠ Some (Some (sample_now + timedelta_days 30)).
Proof. vm_compute. split; [reflexivity | discriminate]. Qed.

(** C2 (amended).  [approve_payment] has no guard on the payment's status:
    approving a payment that is already 'approved' or 'rejected' is
    answered like a first approval and stamps the payment 'approved' with a
    new processed date.  When the owner's row exists and the date 30 days
    after the stored expiry (after the current time, if none is stored) is
    representable, the owner's row is set to 'approved' with that date as
    expiry: a further 30 days.  When the owner's row is gone, or the date is
    out of range, no user row is changed. *)
Theorem approve_payment_terminal_reprocessed now caller payment_id db p :
  status p = "approved" ∨ status p = "rejected" →
  not_admin (get_user caller db) = false →
  payments db !! payment_id = Some p →
  let out := approve_payment now caller payment_id db in
  out.1 = PaymentApproved payment_id
  ∧ (λ q, (status q, processed_date q)) <$> payments out.2 !! payment_id
    = Some ("approved", Some now)
  ∧ (∀ u, users db !! payment_user_id p = Some u →
          datetime_valid (default now (expiry_date u) + timedelta_days 30) →
          users out.2 !! payment_user_id p
          = Some (mk_user (username u) (join_date u)
                    (Some (default now (expiry_date u) + timedelta_days 30))
                    "approved" (total_downloads u) (is_admin u)))
  ∧ (∀ u, users db !! payment_user_id p = Some u →
          ¬ datetime_valid (default now (expiry_date u) + timedelta_days 30) →
          users out.2 = users db)
  ∧ (users db !! payment_user_id p = None → users out.2 = users db).
Proof.
  intros _ Ha Hp out. unfold out, approve_payment.
  rewrite Ha, get_payment_by_id_lookup, Hp. cbn [fst snd].
  split; [done|]. split.
  { rewrite payments_update_user_expiry. simpl.
    by rewrite lookup_alter_eq, Hp. }
  split; [|split].
  - intros u Hu Hr. by apply update_user_expiry_lookup.
  - intros u Hu Hr. unfold update_user_expiry, get_user.
    rewrite users_update_payment, Hu.
    assert (Hnone : datetime_add (default now (expiry_date u)) (timedelta_days 30)
                    = None).
    { unfold datetime_add. by rewrite bool_decide_eq_false_2. }
    destruct (expiry_date u); simpl in Hnone; by rewrite Hnone.
  - intros Hu. unfold update_user_expiry, get_user.
    by rewrite users_update_payment, Hu.
Qed.

(** C2, as stated, fails: a payment already approved is approved again and
    the owner's expiry moves from 10 to 40 days ahead; a rejected payment
    becomes approved. *)
Lemma approve_terminal_counterexample :
  let ahead := Some (sample_now + timedelta_days 10) in
  let db1 := sample_db "approved" ahead "approved" in
  let db2 := sample_db "rejected" ahead "rejected" in
  (approve_payment sample_now OPERATOR_ID 1 db1).1 = PaymentApproved 1
  ∧ expiry_date <$> users (approve_payment sample_now OPERATOR_ID 1 db1).2 !! 42
    = Some (Some (sample_now + timedelta_days 40))
  ∧ (approve_payment sample_now OPERATOR_ID 1 db2).1 = PaymentApproved 1
  ∧ status <$> payments (approve_payment sample_now OPERATOR_ID 1 db2).2 !! 1
    = Some "approved".
Proof. vm_compute. repeat split. Qed.

(** ** The sweep of expired users *)

Lemma delete_expired_users_lookup now db user_id u :
  users (delete_expired_users now db).2 !! user_id = Some u ↔
  users db !! user_id = Some u ∧ expired_user_row now user_id u = false.
Proof. simpl. by rewrite map_lookup_filter_Some. Qed.

(** C8.  After the user step of the sweep a row is present exactly when it
    was present and is not at once 'approved', with a stored expiry before
    the current time, and other than the operator; so the rows removed are
    exactly those that are all three, a row without expiry stays, and the
    operator row stays.  The rest of the sweep leaves the users alone. *)
Theorem delete_expired_users_exact now db user_id u :
  let db' := (delete_expired_users now db).2 in
  let swept :=
    payment_status u = "approved"
    ∧ (∃ e, expiry_date u = Some e ∧ e < now)
    ∧ user_id ≠ OPERATOR_ID in
  (users db' !! user_id = Some u ↔ users db !! user_id = Some u ∧ ¬ swept)
  ∧ (users db !! user_id = Some u → (users db' !! user_id = None ↔ swept))
  ∧ (users db !! user_id = Some u → expiry_date u = None →
     users db' !! user_id = Some u)
  ∧ users db' !! OPERATOR_ID = users db !! OPERATOR_ID
  ∧ users (job_cleanup now db) = users db'.
Proof.
  intros db' swept.
  assert (Hsw : expired_user_row now user_id u = false ↔ ¬ swept).
  { unfold swept. rewrite <- expired_user_row_true. symmetry.
    apply not_true_iff_false. }
  assert (H1 : users db' !! user_id = Some u
               ↔ users db !! user_id = Some u ∧ ¬ swept).
  { unfold db'. by rewrite delete_expired_users_lookup, Hsw. }
  split; [exact H1|]. split; [|split; [|split]].
  - intros Hu. split.
    + intros Hn. destruct (expired_user_row now user_id u) eqn:Er.
      * by apply expired_user_row_true in Er.
      * assert (users db' !! user_id = Some u) as Hs
          by (apply H1; split; [done|by apply Hsw]).
        congruence.
    + intros Hs. destruct (users db' !! user_id) as [v|] eqn:Ev; [|done].
      apply delete_expired_users_lookup in Ev as [Ev Hv].
      assert (v = u) as -> by congruence.
      apply Hsw in Hv. done.
  - intros Hu He. apply H1. split; [done|].
    intros (_ & (e & He' & _) & _). congruence.
  - unfold db'. simpl. apply option_eq. intros v.
    rewrite map_lookup_filter_Some. simpl. split; [by intros [? _]|].
    intros Hv. split; [done|]. apply not_true_iff_false.
    rewrite expired_user_row_true. by intros (_ & _ & ?).
  - done.
Qed.

(** ** Rejection *)

(** C10.  When an administrator rejects a pending payment, the owner's row
    keeps every field but the payment status, which becomes 'rejected'; in
    particular expiry and download counter are unchanged.  From then on
    every download request of the owner is refused, however far ahead the
    stored expiry lies: for want of payment when the membership gate
    passes, at the gate otherwise. *)
Theorem reject_payment_frame now caller payment_id db p u :
  not_admin (get_user caller db) = false →
  payments db !! payment_id = Some p →
  status p = "pending" →
  users db !! payment_user_id p = Some u →
  let db' := (reject_payment now caller payment_id db).2 in
  users db' !! payment_user_id p
  = Some (mk_user (username u) (join_date u) (expiry_date u) "rejected"
            (total_downloads u) (is_admin u))
  ∧ ∀ t member send_ok config_id fs,
      download_config t member send_ok (payment_user_id p) config_id db' fs
      = (if member then PaymentRequired else JoinChannelFirst, db', fs).
Proof.
  intros Ha Hp _ Hu db'.
  assert (Hrow : users db' !! payment_user_id p
    = Some (mk_user (username u) (join_date u) (expiry_date u) "rejected"
              (total_downloads u) (is_admin u))).
  { unfold db', reject_payment. rewrite Ha, get_payment_by_id_lookup, Hp.
    simpl. by rewrite lookup_alter_eq, Hu. }
  split; [exact Hrow|].
  intros t member send_ok config_id fs.
  by apply download_config_not_approved with (u := mk_user (username u)
    (join_date u) (expiry_date u) "rejected" (total_downloads u) (is_admin u)).
Qed.

(** ** Download eligibility *)

(** C6 (amended).  For a member of the channel, [download_config] gets past
    its two subscription checks exactly when the payment status is
    'approved' and the expiry is null or not before the current time: an
    expiry equal to the current time still passes.  Hence every other
    status fails, an approved user with an expiry before now fails, and an
    approved user without expiry passes at every time. *)
Theorem download_eligibility now send_ok user_id config_id db fs u :
  users db !! user_id = Some u →
  let r := (download_config now true send_ok user_id config_id db fs).1.1 in
  (r ≠ PaymentRequired ∧ r ≠ SubscriptionExpired) ↔
  payment_status u = "approved"
  ∧ (expiry_date u = None ∨ ∃ e, expiry_date u = Some e ∧ now <= e).
Proof.
  intros Hu r.
  destruct (decide (payment_status u = "approved")) as [Hs|Hs].
  - destruct (subscription_expired now u) eqn:He.
    + assert (r = SubscriptionExpired) as ->.
      { unfold r, download_config, get_user. rewrite Hu. simpl.
        rewrite bool_decide_eq_false_2 by (by intros []). by rewrite He. }
      unfold subscription_expired in He.
      destruct (expiry_date u) as [e|]; [|done].
      apply bool_decide_eq_true in He.
      split; [by intros [_ []]|]. intros (_ & [[=]|(e' & [= <-] & ?)]). lia.
    + pose proof (download_config_after_checks now send_ok user_id config_id
                    db fs u Hu Hs He) as Hin.
      fold r in Hin. rewrite !elem_of_cons, elem_of_nil in Hin.
      split.
      * intros _. split; [done|]. unfold subscription_expired in He.
        destruct (expiry_date u) as [e|]; [|by left].
        apply bool_decide_eq_false in He. right. exists e. split; [done|lia].
      * intros _. split; intros Hr; rewrite Hr in Hin;
          destruct Hin as [?|[?|[?|[?|[]]]]]; discriminate.
  - assert (r = PaymentRequired) as ->.
    { unfold r. by rewrite (download_config_not_approved _ _ _ _ _ _ _ u). }
    split; [by intros [[] _]|]. by intros [? _].
Qed.

(** ** The checks of a download *)

(** C3 (amended).  [download_config] checks, in this order: that the user
    row exists, the channel-membership gate, the payment status, the
    subscription expiry, and that the file row exists with its active flag
    set.  The first check that fails decides the reply and nothing is
    changed; the five replies are distinct.  The expiry timestamp of the
    file is not consulted: an active file goes on to decryption and
    delivery whatever its expiry. *)
Theorem download_config_check_order now member send_ok user_id config_id db fs u :
  let out := download_config now member send_ok user_id config_id db fs in
  let approved := payment_status u = "approved" in
  (users db !! user_id = None → out = (UserNotFound, db, fs))
  ∧ (users db !! user_id = Some u →
       (member = false → out = (JoinChannelFirst, db, fs))
     ∧ (member = true → ¬ approved → out = (PaymentRequired, db, fs))
     ∧ (member = true → approved → subscription_expired now u = true →
        out = (SubscriptionExpired, db, fs))
     ∧ (member = true → approved → subscription_expired now u = false →
        (∀ c, configs db !! config_id = Some c → is_active c = 0) →
        out = (ConfigNotFoundOrExpired, db, fs))
     ∧ (member = true → approved → subscription_expired now u = false →
        ∀ c, configs db !! config_id = Some c → is_active c ≠ 0 →
        out.1.1 ∈ [ConfigDownloaded; ErrorDownloading; ErrorDecrypting]))
  ∧ NoDup [UserNotFound; JoinChannelFirst; PaymentRequired;
           SubscriptionExpired; ConfigNotFoundOrExpired].
Proof.
  intros out approved. unfold out, approved, download_config, get_user.
  split; [by intros ->|]. split.
  - intros ->. split; [by intros ->|].
    split; [intros -> Hs; simpl; by rewrite bool_decide_eq_true_2|].
    split; [intros -> Hs He; simpl;
            by rewrite bool_decide_eq_false_2, He by (by intros [])|].
    split.
    + intros -> Hs He Hc. simpl.
      rewrite bool_decide_eq_false_2, He by (by intros []).
      unfold get_config. destruct (configs db !! config_id) as [c|]; [|done].
      by rewrite bool_decide_eq_true_2 by (by apply Hc).
    + intros -> Hs He c Hc Ha. simpl.
      rewrite bool_decide_eq_false_2, He by (by intros []).
      unfold get_config. rewrite Hc. rewrite bool_decide_eq_false_2 by done.
      rewrite !elem_of_cons.
      destruct (decrypt_file _ _ _) as [[] fs1]; [destruct send_ok|]; simpl; pick_disjunct.
  - repeat (apply NoDup_cons; split;
            [rewrite ?not_elem_of_cons; repeat split; try discriminate;
             apply not_elem_of_nil|]).
    apply NoDup_nil_2.
Qed.

(** ** The transient plaintext *)


(** ** Registration and the statuses ever stored *)

Lemma status_known_alter (f : user → user) user_id (m : gmap Z user) :
  (∀ r, status_known r → status_known (f r)) →
  map_Forall (fun _ u => status_known u) m →
  map_Forall (fun _ u => status_known u) (alter f user_id m).
Proof.
  intros Hf Hm k v Hv. destruct (decide (user_id = k)) as [->|Hne].
  - rewrite lookup_alter_eq in Hv.
    destruct (m !! k) as [w|] eqn:Hw; [|done].
    injection Hv as <-. apply Hf. by apply (Hm k).
  - rewrite lookup_alter_ne in Hv by done. by apply (Hm k).
Qed.

Lemma store_ok_create_tables t0 : store_ok (create_tables t0).
Proof.
  split; [|done]. intros k v Hv. simpl in Hv.
  apply lookup_singleton_Some in Hv as [_ <-].
  unfold status_known. simpl. rewrite !elem_of_cons. pick_disjunct.
Qed.

Lemma store_ok_add_user now user_id name db :
  store_ok db → store_ok (add_user now user_id name db).
Proof.
  intros [Hm Hn]. unfold add_user.
  destruct (users db !! user_id); [done|]. split; [|done].
  simpl. apply map_Forall_insert_2; [|done].
  unfold status_known. simpl. rewrite !elem_of_cons. pick_disjunct.
Qed.

Lemma store_ok_update_payment_status user_id st db :
  st ∈ ["pending"; "approved"; "rejected"] →
  store_ok db → store_ok (update_payment_status user_id st db).
Proof.
  intros Hst [Hm Hn]. split; [|done]. simpl.
  by apply status_known_alter.
Qed.

Lemma store_ok_update_user_expiry now user_id days db :
  store_ok db → store_ok (update_user_expiry now user_id days db).
Proof.
  intros [Hm Hn]. unfold update_user_expiry.
  destruct (get_user user_id db) as [u|]; [|done].
  assert (∀ e, store_ok (set_users (alter (fun r =>
            mk_user (username r) (join_date r) (Some e) "approved"
                    (total_downloads r) (is_admin r)) user_id) db)) as H.
  { intros e. split; [|done]. simpl. apply status_known_alter; [|done].
    intros r _. unfold status_known. simpl. rewrite !elem_of_cons. pick_disjunct. }
  destruct (expiry_date u); destruct (datetime_add _ _); by try apply H.
Qed.

Lemma store_ok_users_eq db db' :
  users db' = users db → next_payment_id db' = next_payment_id db →
  store_ok db → store_ok db'.
Proof. intros Hu Hn [? ?]. split; by rewrite ?Hu, ?Hn. Qed.

Lemma store_ok_delete_expired_users now db :
  store_ok db → store_ok (delete_expired_users now db).2.
Proof.
  intros [Hm Hn]. split; [|done]. intros k v Hv.
  apply delete_expired_users_lookup in Hv as [Hv _]. by apply (Hm k).
Qed.

Lemma store_ok_handle now r db fs :
  store_ok db → store_ok (handle now r (db, fs)).1.
Proof.
  intros Hok. destruct r; simpl.
  - by apply store_ok_add_user.
  - unfold handle_payment_proof.
    destruct (get_user user_id db); [|done].
    destruct awaiting; simpl; [|done].
    destruct attachment; [|done]. simpl.
    assert (store_ok (add_payment now user_id 200
      ("payments/payment_" +:+ pretty user_id +:+ "_"
         +:+ pretty (unix_timestamp now) +:+ ".jpg") db).2) as Hadd.
    { destruct Hok as [Hm Hn]. split; [done|]. simpl. lia. }
    case_bool_decide; simpl; [|done].
    apply store_ok_update_payment_status; [|done].
    rewrite !elem_of_cons. pick_disjunct.
  - unfold approve_payment. destruct (not_admin _); [done|].
    destruct (_get_payment_by_id _ _); [|done]. simpl.
    apply store_ok_update_user_expiry.
    by apply (store_ok_users_eq db).
  - unfold reject_payment. destruct (not_admin _); [done|].
    destruct (_get_payment_by_id _ _); [|done]. simpl.
    apply store_ok_update_payment_status; [rewrite !elem_of_cons; pick_disjunct|].
    by apply (store_ok_users_eq db).
  - unfold handle_upload. destruct (not_admin _); [done|].
    destruct awaiting; [|done]. destruct document as [[fname content]|]; [|done].
    destruct (is_valid_config_extension fname); simpl; [|done].
    destruct (encrypt_file _ _ _ _) as [[] fs2]; [|done].
    unfold add_config. destruct (datetime_add _ _); simpl; [|done].
    case_bool_decide; simpl; [done|].
    case_bool_decide; simpl; by apply (store_ok_users_eq db).
  - unfold download_config. destruct (get_user user_id db); [|done].
    destruct member; simpl; [|done].
    case_bool_decide; [done|]. destruct (subscription_expired _ _); [done|].
    destruct (get_config _ _); [|done]. case_bool_decide; [done|].
    destruct (decrypt_file _ _ _) as [[] fs1]; [|done].
    destruct send_ok; simpl; [|done].
    destruct Hok as [Hm Hn]. split; [|done]. simpl.
    by apply status_known_alter.
  - unfold delete_config_handler. destruct (not_admin _); [done|].
    destruct (get_config _ _); [|done]. simpl.
    by apply (store_ok_users_eq db).
  - unfold process_expire_user. destruct (admin_is_admin _ _); [|done].
    destruct awaiting; simpl; [|done]. destruct target; [|done].
    destruct (get_user _ _); [|done]. destruct (datetime_add _ _); [|done].
    simpl. destruct Hok as [Hm Hn]. split; [|done]. simpl.
    by apply status_known_alter.
  - unfold job_cleanup.
    apply (store_ok_users_eq (delete_expired_users now db).2); [done..|].
    by apply store_ok_delete_expired_users.
Qed.

Lemma store_ok_run trace s : store_ok s.1 → store_ok (run trace s).1.
Proof.
  revert s. induction trace as [|[now r] rest IH]; intros [db fs] Hok; [done|].
  simpl. apply IH. by apply store_ok_handle.
Qed.

(** C9.  A row that [add_user] creates has status 'pending', no expiry, no
    downloads and no admin flag.  In every state the system can reach,
    every user row has status 'pending', 'approved' or 'rejected', never
    'none'.  And a user whose payment proof has just been received has
    status 'pending', the very status of a row just created. *)
Theorem registration_defaults_and_statuses :
  (∀ now user_id name db,
     users db !! user_id = None →
     users (add_user now user_id name db) !! user_id
     = Some (mk_user name now None "pending" 0 0))
  ∧ (∀ s, reachable s → ∀ user_id u,
       users s.1 !! user_id = Some u →
       payment_status u ∈ ["pending"; "approved"; "rejected"]
       ∧ payment_status u ≠ "none")
  ∧ (∀ s, reachable s → ∀ now user_id file u,
       users s.1 !! user_id = Some u →
       let '(r, _, db', _) :=
         handle_payment_proof now user_id true (Some file) s.1 s.2 in
       r = ProofReceived
       ∧ payment_status <$> users db' !! user_id = Some "pending").
Proof.
  assert (Hreach : ∀ s, reachable s → store_ok s.1).
  { intros s (t0 & trace & ->). apply store_ok_run. apply store_ok_create_tables. }
  split; [|split].
  - intros now user_id name db Hn. unfold add_user. rewrite Hn. simpl.
    apply lookup_insert_eq.
  - intros s Hs user_id u Hu. destruct (Hreach s Hs) as [Hm _].
    pose proof (Hm user_id u Hu) as Hk. split; [exact Hk|].
    unfold status_known in Hk. rewrite !elem_of_cons, elem_of_nil in Hk.
    intros Hnone. rewrite Hnone in Hk.
    destruct Hk as [?|[?|[?|[]]]]; discriminate.
  - intros s Hs now user_id file u Hu. destruct (Hreach s Hs) as [_ Hn].
    unfold handle_payment_proof, get_user. rewrite Hu. simpl.
    rewrite bool_decide_eq_true_2 by lia.
    split; [done|]. simpl. by rewrite lookup_alter_eq, Hu.
Qed.

(** ** The extension gate *)

Lemma rfind_not_elem c p : c ∉ p → rfind c p = -1.
Proof.
  induction p as [|x r IH]; [done|].
  rewrite not_elem_of_cons. intros [Hx Hr]. simpl. rewrite (IH Hr).
  rewrite bool_decide_eq_false_2 by lia.
  by rewrite bool_decide_eq_false_2 by congruence.
Qed.

Lemma rfind_last c pre post :
  c ∉ post → rfind c (pre ++ c :: post) = Z.of_nat (length pre).
Proof.
  intros Hpost. induction pre as [|x pre IH]; simpl.
  - rewrite (rfind_not_elem _ _ Hpost).
    rewrite bool_decide_eq_false_2 by lia.
    by rewrite bool_decide_eq_true_2.
  - rewrite IH. rewrite bool_decide_eq_true_2 by lia. lia.
Qed.

Lemma has_non_dot_true seg :
  has_non_dot seg = true ↔ ∃ c, c ∈ seg ∧ c ≠ "."%char.
Proof.
  induction seg as [|x r IH]; simpl.
  - split; [done|]. intros (c & Hc & _). by apply elem_of_nil in Hc.
  - case_bool_decide as Hx.
    + split; [|done]. intros _. exists x. split; [left|done].
    + subst x. rewrite IH. split.
      * intros (c & Hc & Hne). exists c. split; [by right|done].
      * intros (c & Hc & Hne). exists c. split; [|done].
        apply elem_of_cons in Hc as [->|Hc]; done.
Qed.

Lemma ascii_lower_dot c : ascii_lower c = "."%char ↔ c = "."%char.
Proof.
  split; [|by intros ->].
  destruct c as [[] [] [] [] [] [] [] []]; vm_compute; congruence.
Qed.

Lemma remove_dots_lower_id ext :
  "."%char ∉ ext → remove_dots (lower ext) = lower ext.
Proof.
  induction ext as [|x r IH]; [done|].
  rewrite not_elem_of_cons. intros [Hx Hr].
  unfold remove_dots, lower in *. simpl. rewrite filter_cons.
  destruct (decide _) as [_|Hd].
  - f_equal. by apply IH.
  - exfalso. apply Hd. intros Hl.
    apply (proj1 (ascii_lower_dot _)) in Hl. congruence.
Qed.

Lemma remove_dots_lower_ext ext :
  "."%char ∉ ext → remove_dots (lower ("."%char :: ext)) = lower ext.
Proof.
  intros H. unfold remove_dots, lower. simpl. rewrite filter_cons.
  destruct (decide _) as [Hd|_]; [by destruct Hd|].
  by apply remove_dots_lower_id.
Qed.

Lemma splitext_has_extension dir base ext :
  (dir = [] ∨ ∃ d, dir = d ++ ["/"%char]) →
  "/"%char ∉ base →
  (∃ c, c ∈ base ∧ c ≠ "."%char) →
  "."%char ∉ ext →
  "/"%char ∉ ext →
  splitext (dir ++ base ++ "."%char :: ext) = (dir ++ base, "."%char :: ext).
Proof.
  intros Hdir Hbase Hc Hext Hsep. unfold splitext.
  assert (Hdot : rfind "."%char (dir ++ base ++ "."%char :: ext)
                 = Z.of_nat (length (dir ++ base))).
  { rewrite (assoc_L (++)). by apply rfind_last. }
  assert (Hrest : "/"%char ∉ base ++ "."%char :: ext).
  { rewrite not_elem_of_app, not_elem_of_cons. done. }
  assert (Hs : Z.to_nat (rfind "/"%char (dir ++ base ++ "."%char :: ext) + 1)
               = length dir
             ∧ rfind "/"%char (dir ++ base ++ "."%char :: ext)
               < Z.of_nat (length (dir ++ base))).
  { destruct Hdir as [->|[d ->]].
    - simpl. rewrite (rfind_not_elem _ _ Hrest). simpl. split; [done|lia].
    - rewrite <- (assoc_L (++)). simpl. rewrite (rfind_last _ _ _ Hrest).
      rewrite !length_app. simpl. split; lia. }
  destruct Hs as [Hs1 Hs2]. rewrite Hdot, Hs1.
  rewrite bool_decide_eq_true_2 by lia. rewrite Nat2Z.id.
  rewrite drop_app_length.
  replace (length (dir ++ base) - length dir)%nat with (length base)
    by (rewrite length_app; lia).
  rewrite take_app_length.
  rewrite (proj2 (has_non_dot_true base) Hc). simpl.
  rewrite (assoc_L (++)). by rewrite take_app_length, drop_app_length.
Qed.

Lemma splitext_ext_inv p e :
  (splitext p).2 = e → e ≠ [] →
  ∃ ext, e = "."%char :: ext ∧ has_extension p ext.
Proof.
  unfold splitext. intros He Hne.
  destruct (bool_decide _ && _) eqn:Hc; [|by simpl in He; subst e].
  apply andb_true_iff in Hc as [Hgt Hnd]. apply bool_decide_eq_true in Hgt.
  simpl in He.
  destruct (decide ("."%char ∈ p)) as [Hin|Hnin];
    [|rewrite (rfind_not_elem _ _ Hnin) in Hgt;
      destruct (decide ("/"%char ∈ p)) as [Hs|Hs];
      [apply list_elem_of_split_r in Hs as (a & b & -> & Hb);
       rewrite (rfind_last _ _ _ Hb) in Hgt; lia
      |rewrite (rfind_not_elem _ _ Hs) in Hgt; lia]].
  apply list_elem_of_split_r in Hin as (stem & ext & -> & Hext).
  rewrite (rfind_last _ _ _ Hext) in *. rewrite Nat2Z.id in *.
  rewrite drop_app_length in He. subst e. exists ext. split; [done|].
  apply has_non_dot_true in Hnd as (c & Hc & Hcne).
  destruct (decide ("/"%char ∈ stem ++ "."%char :: ext)) as [Hs|Hs].
  - apply list_elem_of_split_r in Hs as (a & b & Hab & Hb).
    rewrite Hab in Hgt, Hc. rewrite (rfind_last _ _ _ Hb) in *.
    assert (length a < length stem)%nat as Hlt by lia.
    assert (∃ base, stem = a ++ "/"%char :: base ∧ b = base ++ "."%char :: ext)
      as (base & -> & ->).
    { exists (drop (S (length a)) stem).
      assert (take (length a) stem = a) as Ha.
      { apply (f_equal (take (length a))) in Hab.
        rewrite take_app_le in Hab by lia. by rewrite take_app_length in Hab. }
      assert (drop (length a) (stem ++ "."%char :: ext) = "/"%char :: b) as Hd.
      { rewrite Hab. by rewrite drop_app_length. }
      rewrite drop_app_le in Hd by lia.
      destruct (drop (length a) stem) as [|x rest] eqn:Hds.
      { apply (f_equal length) in Hds. rewrite length_drop in Hds. simpl in Hds. lia. }
      simpl in Hd. injection Hd as -> Hb'.
      assert (drop (S (length a)) stem = rest) as ->.
      { replace (S (length a)) with (length a + 1)%nat by lia.
        rewrite <- drop_drop, Hds. done. }
      split; [|done]. rewrite <- (take_drop (length a) stem) at 1.
      by rewrite Ha, Hds. }
    rewrite not_elem_of_app, not_elem_of_cons in Hb. destruct Hb as (Hb1 & _ & Hb2).
    exists (a ++ ["/"%char]), base. rewrite <- !(assoc_L (++)). simpl.
    split; [done|]. split; [right; by exists a|]. split; [done|].
    split; [|done]. exists c. split; [|done].
    replace (Z.to_nat (Z.of_nat (length a) + 1)) with (length (a ++ ["/"%char])) in Hc
      by (rewrite length_app; simpl; lia).
    replace (a ++ "/"%char :: base ++ "."%char :: ext)
      with ((a ++ ["/"%char]) ++ base ++ "."%char :: ext) in Hc
      by (by rewrite <- (assoc_L (++))).
    rewrite drop_app_length in Hc.
    replace (length (a ++ "/"%char :: base) - length (a ++ ["/"%char]))%nat
      with (length base) in Hc by (rewrite !length_app; simpl; lia).
    by rewrite take_app_length in Hc.
  - rewrite (rfind_not_elem _ _ Hs) in *.
    change (Z.to_nat (-1 + 1)) with 0%nat in Hc.
    rewrite Nat.sub_0_r, drop_0, take_app_length in Hc.
    rewrite not_elem_of_app, not_elem_of_cons in Hs. destruct Hs as (Hs1 & _ & Hs2).
    exists [], stem. simpl. split; [done|]. split; [by left|].
    split; [done|]. split; [by exists c|done].
Qed.

(** C7.  [is_valid_config_extension] accepts a file name exactly when it has
    an extension, in the sense of [os.path.splitext], whose lower-cased
    form is one of hc, ehi, ziv, dark, json; a name without extension is
    refused.  In [handle_upload], an administrator who has chosen a category
    and sends a document is answered "Invalid file type" exactly when the
    check fails. *)
Theorem is_valid_config_extension_exact fname :
  (is_valid_config_extension fname = true ↔
   ∃ ext, has_extension (String.list_ascii_of_string fname) ext
          ∧ String.string_of_list_ascii (lower ext) ∈ valid_extensions)
  ∧ (∀ now iv user_id cat content db fs,
       not_admin (get_user user_id db) = false →
       (handle_upload now iv user_id (Some cat) (Some (fname, content)) db fs).1.1.1
       = InvalidFileType
       ↔ is_valid_config_extension fname = false).
Proof.
  split.
  - unfold is_valid_config_extension, get_file_extension.
    rewrite bool_decide_eq_true. split.
    + intros Hin.
      destruct (splitext_ext_inv (String.list_ascii_of_string fname) _ eq_refl)
        as (ext & He & Hext).
      { intros He. rewrite He in Hin. unfold valid_extensions in Hin.
        rewrite !elem_of_cons, elem_of_nil in Hin.
        destruct Hin as [?|[?|[?|[?|[?|[]]]]]]; discriminate. }
      exists ext. split; [done|]. rewrite He in Hin.
      rewrite remove_dots_lower_ext in Hin; [done|].
      by destruct Hext as (? & ? & _ & _ & _ & _ & ? & _).
    + intros (ext & (dir & base & Hp & Hdir & Hbase & Hc & Hdot & Hsep) & Hin).
      rewrite Hp, splitext_has_extension by done. simpl snd.
      by rewrite remove_dots_lower_ext.
  - intros now iv user_id cat content db fs Ha. unfold handle_upload.
    rewrite Ha. destruct (is_valid_config_extension fname); simpl.
    + split; [|done].
      destruct (encrypt_file _ _ _ _) as [[] fs2]; [|done].
      destruct (add_config _ _ _ _ _ _ _) as [config_id db1].
      by case_bool_decide.
    + done.
Qed.

(** ** The codec *)

Lemma lxor_is_byte a b : is_byte a → is_byte b → is_byte (Z.lxor a b).
Proof.
  unfold is_byte. intros Ha Hb.
  assert (0 <= Z.lxor a b) as Hn by (apply Z.lxor_nonneg; lia).
  split; [done|].
  destruct (decide (Z.lxor a b = 0)) as [->|Hz]; [lia|].
  change 256 with (2 ^ 8). apply Z.log2_lt_pow2; [lia|].
  pose proof (Z.log2_lxor a b ltac:(lia) ltac:(lia)) as Hl.
  assert (∀ x, 0 <= x < 256 → Z.log2 x < 8) as Hlog.
  { intros x Hx. destruct (decide (x = 0)) as [->|]; [done|].
    apply Z.log2_lt_pow2; lia. }
  pose proof (Hlog a Ha). pose proof (Hlog b Hb). lia.
Qed.

Lemma strxor_length a b :
  length a = length b → length (strxor a b) = length a.
Proof. intros H. unfold strxor. rewrite length_zip_with. lia. Qed.

Lemma strxor_is_byte a b :
  Forall is_byte a → Forall is_byte b → Forall is_byte (strxor a b).
Proof.
  intros Ha. revert b. induction Ha as [|x a Hx Ha IH]; intros b Hb; [constructor|].
  destruct Hb as [|y b Hy Hb]; [constructor|].
  simpl. constructor; [by apply lxor_is_byte|by apply IH].
Qed.

Lemma strxor_is_block a b : is_block a → is_block b → is_block (strxor a b).
Proof.
  intros [La Ba] [Lb Bb]. split.
  - rewrite strxor_length; congruence.
  - by apply strxor_is_byte.
Qed.

Lemma strxor_cancel a b :
  length a = length b → strxor (strxor a b) b = a.
Proof.
  revert b. induction a as [|x a IH]; intros [|y b] Hl; try done.
  simpl in *. f_equal; [|apply IH; lia].
  by rewrite Z.lxor_assoc, Z.lxor_nilpotent, Z.lxor_0_r.
Qed.

Lemma pad_shape data :
  ∃ p, (1 ≤ p ≤ block_size)%nat
       ∧ pad data block_size = data ++ replicate p (Z.of_nat p)
       ∧ ∃ n, length (pad data block_size) = (n * block_size)%nat.
Proof.
  unfold pad, block_size.
  pose proof (Nat.mod_upper_bound (length data) 16 ltac:(lia)) as Hr.
  pose proof (Nat.div_mod_eq (length data) 16) as Hd.
  exists (16 - length data mod 16)%nat. split; [lia|]. split; [done|].
  exists (length data / 16 + 1)%nat.
  rewrite length_app, length_replicate. lia.
Qed.

Lemma pad_is_byte data :
  Forall is_byte data → Forall is_byte (pad data block_size).
Proof.
  intros Hd. destruct (pad_shape data) as (p & Hp & -> & _).
  apply Forall_app. split; [done|]. apply Forall_replicate.
  unfold is_byte, block_size in *. lia.
Qed.

Lemma unpad_pad data : unpad (pad data block_size) block_size = Some data.
Proof.
  destruct (pad_shape data) as (p & Hp & Hpad & n & Hn).
  unfold unpad. rewrite Hn.
  assert (length (pad data block_size) = length data + p)%nat as Hlen
    by (by rewrite Hpad, length_app, length_replicate).
  unfold block_size in *.
  rewrite bool_decide_eq_false_2 by lia.
  rewrite bool_decide_eq_false_2
    by (intros H; apply H; apply Nat.Div0.mod_mul).
  assert (last (pad data 16) = Some (Z.of_nat p)) as ->.
  { rewrite Hpad. destruct p as [|p]; [lia|].
    rewrite replicate_S_end, (assoc_L (++)). apply last_snoc. }
  cbn [from_option id]. rewrite bool_decide_eq_false_2 by lia.
  rewrite Nat2Z.id. replace (n * 16 - p)%nat with (length data) by lia.
  rewrite Hpad, drop_app_length, take_app_length.
  by rewrite bool_decide_eq_false_2 by (by intros []).
Qed.

Lemma cbc_blocks_roundtrip n : ∀ prev data,
  is_block prev → Forall is_byte data → length data = (n * block_size)%nat →
  length (cbc_encrypt_blocks n prev data) = (n * block_size)%nat
  ∧ cbc_decrypt_blocks n prev (cbc_encrypt_blocks n prev data) = data.
Proof using AES_encrypt_block_is_block AES_decrypt_encrypt_block.
  induction n as [|n IH]; intros prev data Hprev Hdata Hlen.
  - simpl in *. by destruct data.
  - cbn [cbc_encrypt_blocks cbc_decrypt_blocks].
    set (b := take block_size data).
    set (c := AES_encrypt_block key (strxor b prev)).
    assert (length b = block_size) as Hbl.
    { unfold b. rewrite length_take. unfold block_size in *. lia. }
    assert (is_block b) as Hb by (split; [done|by apply Forall_take]).
    assert (is_block (strxor b prev)) as Hx by (by apply strxor_is_block).
    assert (is_block c) as Hc by (by apply AES_encrypt_block_is_block).
    destruct Hc as [Hcl Hcb].
    destruct (IH c (drop block_size data)) as [IHl IHr];
      [done|by apply Forall_drop|..].
    { rewrite length_drop. unfold block_size in *. lia. }
    split.
    + rewrite length_app, IHl, Hcl. lia.
    + rewrite take_app_length' by done. rewrite drop_app_length' by done.
      rewrite IHr. unfold c.
      rewrite AES_decrypt_encrypt_block by done.
      rewrite strxor_cancel by (destruct Hprev as [-> _]; done).
      apply take_drop.
Qed.

(** C5.  For a 16-byte IV and any byte buffer B, [encrypt] yields the IV
    followed by the CBC ciphertext of the PKCS#7-padded buffer, and
    [decrypt] of that output returns exactly B.  On files: [encrypt_file]
    of a file holding B followed by [decrypt_file] of its output both
    succeed and leave B at the output path. *)
Theorem decrypt_encrypt_roundtrip iv B :
  is_block iv → Forall is_byte B →
  (∃ c, cbc_encrypt iv (pad B block_size) = Some c
        ∧ encrypt iv B = Some (iv ++ c)
        ∧ decrypt (iv ++ c) = Some B)
  ∧ ∀ (fs : filesystem) input_path encrypted_path output_path,
      fs !! input_path = Some B →
      let '(ok1, fs1) := encrypt_file iv input_path encrypted_path fs in
      let '(ok2, fs2) := decrypt_file encrypted_path output_path fs1 in
      ok1 = true ∧ ok2 = true ∧ fs2 !! output_path = Some B.
Proof using AES_encrypt_block_is_block AES_decrypt_encrypt_block.
  intros Hiv HB.
  destruct (pad_shape B) as (p & Hp & Hpad & n & Hn).
  destruct (cbc_blocks_roundtrip n iv (pad B block_size)) as [Hl Hr];
    [done|by apply pad_is_byte|done|].
  assert (cbc_encrypt iv (pad B block_size)
          = Some (cbc_encrypt_blocks n iv (pad B block_size))) as Henc.
  { unfold cbc_encrypt. destruct Hiv as [Hivl _].
    rewrite bool_decide_eq_false_2 by (by intros []).
    rewrite bool_decide_eq_false_2
      by (intros H; apply H; rewrite Hn; apply Nat.Div0.mod_mul).
    by rewrite Hn, Nat.div_mul. }
  assert (encrypt iv B = Some (iv ++ cbc_encrypt_blocks n iv (pad B block_size)))
    as Hencrypt by (unfold encrypt; by rewrite Henc).
  assert (decrypt (iv ++ cbc_encrypt_blocks n iv (pad B block_size)) = Some B)
    as Hdecrypt.
  { unfold decrypt. destruct Hiv as [Hivl _].
    rewrite take_app_length', drop_app_length' by done.
    unfold cbc_decrypt.
    rewrite bool_decide_eq_false_2 by (by intros []).
    rewrite bool_decide_eq_false_2
      by (intros H; apply H; rewrite Hl; apply Nat.Div0.mod_mul).
    rewrite Hl, Nat.div_mul by done. simpl. rewrite Hr.
    apply unpad_pad. }
  split; [by eexists|].
  intros fs input_path encrypted_path output_path Hin.
  unfold encrypt_file. rewrite Hin, Hencrypt.
  unfold decrypt_file. rewrite lookup_insert_eq, Hdecrypt.
  repeat split. apply lookup_insert_eq.
Qed.

(** * Further properties of the store and the handlers *)

(** ** The review queue *)

#[local] Instance payment_date_le_total : Total payment_date_le.
Proof. intros a b. unfold payment_date_le. lia. Qed.

#[local] Instance payment_date_le_trans : Transitive payment_date_le.
Proof. intros a b c. unfold payment_date_le. lia. Qed.

Lemma get_pending_payments_elem db payment_id p :
  (payment_id, p) ∈ get_pending_payments db ↔
  payments db !! payment_id = Some p
  ∧ status p = "pending"
  ∧ is_Some (users db !! payment_user_id p).
Proof.
  unfold get_pending_payments.
  rewrite merge_sort_Permutation, elem_of_map_to_list. unfold pending_joined.
  rewrite map_lookup_filter_Some. simpl. split.
  - by intros (? & ? & ?).
  - by intros (? & ? & ?).
Qed.

Lemma is_Some_lookup_alter (f : user → user) (m : gmap Z user) (i j : Z) :
  is_Some (alter f i m !! j) ↔ is_Some (m !! j).
Proof.
  destruct (decide (i = j)) as [->|Hne].
  - rewrite lookup_alter_eq. apply fmap_is_Some.
  - by rewrite lookup_alter_ne.
Qed.

Lemma is_Some_users_update_user_expiry now user_id days db k :
  is_Some (users (update_user_expiry now user_id days db) !! k)
  ↔ is_Some (users db !! k).
Proof.
  unfold update_user_expiry.
  destruct (get_user user_id db) as [u|]; [|done].
  destruct (expiry_date u); destruct (datetime_add _ _); simpl;
    try done; apply is_Some_lookup_alter.
Qed.

(** X1.  The review queue of [get_pending_payments] through the life of a
    payment.  A proof recorded by [handle_payment_proof] joins the queue
    and changes nothing else in it.  A payment that an administrator
    approves or rejects leaves the queue, and every other entry stays,
    also the other pending payments of the same user.  And the sweep takes
    out of the queue exactly the payments of the users it removes, that is
    of approved users, other than the operator, whose expiry is past; the
    payment rows themselves all stay in the table. *)
Theorem pending_queue_lifecycle now db :
  (∀ user_id file fs u,
     users db !! user_id = Some u →
     0 < next_payment_id db →
     payments db !! next_payment_id db = None →
     let out := handle_payment_proof now user_id true (Some file) db fs in
     ∀ k p,
       (k, p) ∈ get_pending_payments out.1.2 ↔
       (k, p) ∈ get_pending_payments db
       ∨ (k = next_payment_id db
          ∧ p = mk_payment user_id 200 now
                  ("payments/payment_" +:+ pretty user_id +:+ "_"
                     +:+ pretty (unix_timestamp now) +:+ ".jpg")
                  "pending" None None))
  ∧ (∀ caller payment_id p0 db',
       not_admin (get_user caller db) = false →
       payments db !! payment_id = Some p0 →
       db' = (approve_payment now caller payment_id db).2
       ∨ db' = (reject_payment now caller payment_id db).2 →
       ∀ k p,
         (k, p) ∈ get_pending_payments db' ↔
         (k, p) ∈ get_pending_payments db ∧ k ≠ payment_id)
  ∧ (∀ k p,
       (k, p) ∈ get_pending_payments (job_cleanup now db) ↔
       (k, p) ∈ get_pending_payments db
       ∧ ¬ ∃ u e, users db !! payment_user_id p = Some u
                  ∧ payment_status u = "approved"
                  ∧ expiry_date u = Some e ∧ e < now
                  ∧ payment_user_id p ≠ OPERATOR_ID)
  ∧ payments (job_cleanup now db) = payments db.
Proof.
  split; [|split; [|split]].
  - intros user_id file fs u Hu Hn Hfree out k p.
    unfold out, handle_payment_proof, get_user. rewrite Hu. simpl.
    rewrite bool_decide_eq_true_2 by lia. simpl.
    rewrite !get_pending_payments_elem. simpl.
    rewrite is_Some_lookup_alter.
    destruct (decide (k = next_payment_id db)) as [->|Hk].
    + rewrite lookup_insert_eq, Hfree. split.
      * intros (Hp & _ & _). right. split; [done|]. by injection Hp as <-.
      * intros [(Hp & _)|[_ ->]]; [done|]. simpl. by rewrite Hu.
    + rewrite lookup_insert_ne by done. split.
      * intros H. by left.
      * by intros [H|[? _]].
  - intros caller payment_id p0 db' Ha Hp Hdb' k p.
    rewrite !get_pending_payments_elem.
    assert (Hpay : ∃ st note,
              st ≠ "pending"
              ∧ payments db'
                = alter (fun q =>
                    mk_payment (payment_user_id q) (amount q) (payment_date q)
                      (payment_proof q) st (Some note) (Some now))
                    payment_id (payments db)).
    { destruct Hdb' as [-> | ->].
      - exists "approved", "Approved by admin". split; [done|].
        unfold approve_payment.
        rewrite Ha, get_payment_by_id_lookup, Hp. cbn [snd].
        by rewrite payments_update_user_expiry.
      - exists "rejected", "Rejected by admin". split; [done|].
        unfold reject_payment.
        by rewrite Ha, get_payment_by_id_lookup, Hp. }
    assert (Husers : ∀ j, is_Some (users db' !! j) ↔ is_Some (users db !! j)).
    { intros j. destruct Hdb' as [-> | ->].
      - unfold approve_payment.
        rewrite Ha, get_payment_by_id_lookup, Hp. cbn [snd].
        by rewrite is_Some_users_update_user_expiry.
      - unfold reject_payment.
        rewrite Ha, get_payment_by_id_lookup, Hp. cbn [snd]. simpl.
        apply is_Some_lookup_alter. }
    destruct Hpay as (st & note & Hst & ->). rewrite Husers.
    destruct (decide (k = payment_id)) as [->|Hk].
    + rewrite lookup_alter_eq, Hp. simpl. split.
      * intros (Hq & Hs & _). injection Hq as <-. done.
      * by intros [_ ?].
    + rewrite lookup_alter_ne by done. split.
      * by intros ?.
      * by intros [? _].
  - intros k p. rewrite !get_pending_payments_elem.
    assert (payments (job_cleanup now db) = payments db) as -> by done.
    assert (users (job_cleanup now db)
            = filter (fun kv => expired_user_row now kv.1 kv.2 = false) (users db))
      as -> by done.
    split.
    + intros (Hp & Hs & [u Hu]).
      apply map_lookup_filter_Some in Hu as [Hu He]. simpl in He.
      split; [by eauto|].
      intros (u' & e & Hu' & Hst & Hexp & Hlt & Hop).
      assert (u' = u) as -> by congruence.
      assert (expired_user_row now (payment_user_id p) u = true) as Ht.
      { apply expired_user_row_true. by eauto. }
      congruence.
    + intros [(Hp & Hs & [u Hu]) Hno].
      split; [done|]. split; [done|]. exists u.
      apply map_lookup_filter_Some. split; [done|]. simpl.
      destruct (expired_user_row now (payment_user_id p) u) eqn:He; [|done].
      exfalso. apply Hno.
      apply expired_user_row_true in He as (Hst & (e & Hexp & Hlt) & Hop).
      by exists u, e.
  - done.
Qed.

(** ** What approval and rejection leave alone *)

Lemma users_update_user_expiry_ne now user_id days db k :
  k ≠ user_id →
  users (update_user_expiry now user_id days db) !! k = users db !! k.
Proof.
  intros Hne. unfold update_user_expiry.
  destruct (get_user user_id db) as [u|]; [|done].
  destruct (expiry_date u); destruct (datetime_add _ _); simpl;
    by rewrite ?lookup_alter_ne.
Qed.

Lemma rest_update_user_expiry now user_id days db :
  configs (update_user_expiry now user_id days db) = configs db
  ∧ downloads (update_user_expiry now user_id days db) = downloads db
  ∧ next_config_id (update_user_expiry now user_id days db) = next_config_id db
  ∧ next_payment_id (update_user_expiry now user_id days db) = next_payment_id db.
Proof.
  unfold update_user_expiry.
  destruct (get_user user_id db) as [u|]; [|done].
  by destruct (expiry_date u); destruct (datetime_add _ _).
Qed.

(** X2.  [approve_payment] and [reject_payment] touch nothing but the
    payment they are given and the user row of its owner: every other
    payment, every other user, the files and the download records are as
    before. *)
Theorem approve_reject_frame now caller payment_id db p :
  payments db !! payment_id = Some p →
  ∀ db', db' = (approve_payment now caller payment_id db).2
         ∨ db' = (reject_payment now caller payment_id db).2 →
    (∀ k, k ≠ payment_id → payments db' !! k = payments db !! k)
    ∧ (∀ k, k ≠ payment_user_id p → users db' !! k = users db !! k)
    ∧ configs db' = configs db
    ∧ downloads db' = downloads db.
Proof.
  intros Hp db' Hdb'.
  unfold approve_payment, reject_payment in Hdb'.
  rewrite get_payment_by_id_lookup, Hp in Hdb'.
  destruct (not_admin (get_user caller db)); [by destruct Hdb' as [->| ->]|].
  destruct Hdb' as [->| ->]; simpl.
  - destruct (rest_update_user_expiry now (payment_user_id p) 30
      (update_payment now payment_id "approved" "Approved by admin" db))
      as (Hc & Hd & _ & _).
    split; [|split; [|split]].
    + intros k Hk. rewrite payments_update_user_expiry. simpl.
      by rewrite lookup_alter_ne.
    + intros k Hk. by rewrite users_update_user_expiry_ne.
    + by rewrite Hc.
    + by rewrite Hd.
  - split; [|split; [|split]]; [|  |done..].
    + intros k Hk. by rewrite lookup_alter_ne.
    + intros k Hk. by rewrite lookup_alter_ne.
Qed.

(** ** Subscription checks, approval and the sweep *)

(** The two subscription checks of [download_config], for a member. *)
Lemma download_subscription_reply now send_ok user_id config_id db fs u :
  users db !! user_id = Some u →
  let r := (download_config now true send_ok user_id config_id db fs).1.1 in
  (r ≠ PaymentRequired ∧ r ≠ SubscriptionExpired) ↔
  payment_status u = "approved" ∧ subscription_expired now u = false.
Proof.
  intros Hu r.
  destruct (decide (payment_status u = "approved")) as [Hs|Hs].
  - destruct (subscription_expired now u) eqn:He.
    + assert (r = SubscriptionExpired) as ->.
      { unfold r, download_config, get_user. rewrite Hu. simpl.
        rewrite bool_decide_eq_false_2 by (by intros []). by rewrite He. }
      split; [by intros [_ []]|by intros [_ ?]].
    + pose proof (download_config_after_checks now send_ok user_id config_id
                    db fs u Hu Hs He) as Hin.
      fold r in Hin. rewrite !elem_of_cons, elem_of_nil in Hin.
      split; [done|]. intros _.
      split; intros Hr; rewrite Hr in Hin;
        destruct Hin as [?|[?|[?|[?|[]]]]]; discriminate.
  - assert (r = PaymentRequired) as ->.
    { unfold r. by rewrite (download_config_not_approved _ _ _ _ _ _ _ u). }
    split; [by intros [[] _]|]. by intros [? _].
Qed.

(** X3.  Approval does not by itself give access: right after an
    administrator has approved a payment, the owner passes the subscription
    checks of a download exactly when no expiry was stored or the stored
    expiry plus 30 days is not before the current time.  A member whose
    expiry lapsed more than 30 days ago stays locked out. *)
Theorem approval_gives_access_iff now caller payment_id db p u send_ok config_id fs :
  not_admin (get_user caller db) = false →
  payments db !! payment_id = Some p →
  users db !! payment_user_id p = Some u →
  datetime_valid (default now (expiry_date u) + timedelta_days 30) →
  let db' := (approve_payment now caller payment_id db).2 in
  let r := (download_config now true send_ok (payment_user_id p) config_id db' fs).1.1 in
  (r ≠ PaymentRequired ∧ r ≠ SubscriptionExpired) ↔
  match expiry_date u with
  | Some T => now <= T + timedelta_days 30
  | None => True
  end.
Proof.
  intros Ha Hp Hu Hr db' r.
  pose proof (approve_payment_effect now caller payment_id db p u Ha Hp Hu Hr) as H.
  unfold db' in r. unfold r, db'.
  destruct (approve_payment now caller payment_id db) as [rep db2].
  destruct H as (_ & _ & Hrow). simpl.
  rewrite (download_subscription_reply now send_ok _ config_id db2 fs _ Hrow).
  unfold subscription_expired. simpl. split.
  - intros [_ He]. destruct (expiry_date u) as [T|]; [|done].
    simpl in He. apply bool_decide_eq_false in He. lia.
  - intros He. split; [done|].
    destruct (expiry_date u) as [T|]; simpl.
    + apply bool_decide_eq_false. lia.
    + apply bool_decide_eq_false. unfold timedelta_days, MICROS_PER_DAY. lia.
Qed.

(** X4.  The sweep removes no user who could still download: a row that
    [job_cleanup] deletes is refused by [download_config] at that same
    time, at the membership gate or for an expired subscription.  And among
    approved users other than the operator it removes exactly those whose
    subscription check fails. *)
Theorem sweep_removes_only_expired now db user_id u :
  users db !! user_id = Some u →
  (users (job_cleanup now db) !! user_id = None →
   ∀ member send_ok config_id fs,
     (download_config now member send_ok user_id config_id db fs).1.1
     = if member then SubscriptionExpired else JoinChannelFirst)
  ∧ (payment_status u = "approved" → user_id ≠ OPERATOR_ID →
     (users (job_cleanup now db) !! user_id = None
      ↔ subscription_expired now u = true)).
Proof.
  intros Hu.
  assert (Hgone : users (job_cleanup now db) !! user_id = None
                  ↔ expired_user_row now user_id u = true).
  { unfold job_cleanup. simpl. rewrite map_lookup_filter_None. split.
    - intros [Hn|Hn]; [congruence|].
      apply not_false_iff_true. intros Hf. by apply (Hn u).
    - intros Ht. right. intros v Hv. simpl. congruence. }
  split.
  - intros Hn%Hgone member send_ok config_id fs.
    apply expired_user_row_true in Hn as (Hs & (e & He & Hlt) & _).
    unfold download_config, get_user. rewrite Hu.
    destruct member; simpl; [|done].
    rewrite bool_decide_eq_false_2 by (by intros []).
    unfold subscription_expired. rewrite He.
    by rewrite bool_decide_eq_true_2.
  - intros Hs Hop. rewrite Hgone, expired_user_row_true.
    unfold subscription_expired. split.
    + intros (_ & (e & -> & Hlt) & _). by apply bool_decide_eq_true.
    + intros He. split; [done|]. split; [|done].
      destruct (expiry_date u) as [e|]; [|done].
      exists e. split; [done|]. by apply bool_decide_eq_true in He.
Qed.

(** X5.  Running the sweep at a time and again at that or a later time
    leaves the store as one run at the later time does; in particular the
    sweep is idempotent. *)
Theorem job_cleanup_twice t1 t2 db :
  t1 <= t2 → job_cleanup t2 (job_cleanup t1 db) = job_cleanup t2 db.
Proof.
  intros Hle.
  unfold job_cleanup, delete_expired_configs, delete_expired_users,
    set_configs, set_users. simpl. f_equal.
  - rewrite map_filter_filter. apply map_filter_ext. intros k u _. simpl.
    split; [by intros [? _]|]. intros H2. split; [done|].
    apply not_true_iff_false. intros H1. apply not_true_iff_false in H2.
    apply H2. apply expired_user_row_true.
    apply expired_user_row_true in H1 as (? & (e & ? & ?) & ?).
    split; [done|]. split; [|done]. exists e. split; [done|lia].
  - rewrite <- map_fmap_compose. apply map_fmap_ext. intros k c _.
    destruct c as [fn cat orig sz up [e|] dl act];
      unfold compose, expired_config_row; simpl; [|done].
    repeat (case_bool_decide; simpl); try done; lia.
Qed.

(** X6.  The number [delete_expired_users] returns is the number of rows
    it removed. *)
Theorem delete_expired_users_count now db :
  (delete_expired_users now db).1
  = Z.of_nat (size (users db))
    - Z.of_nat (size (users (delete_expired_users now db).2)).
Proof.
  simpl.
  set (P := fun kv : Z * user => expired_user_row now kv.1 kv.2 = true).
  assert (filter (fun kv : Z * user => expired_user_row now kv.1 kv.2 = false)
            (users db)
          = filter (fun kv => ¬ P kv) (users db)) as ->.
  { apply map_filter_ext. intros k u _. unfold P. simpl.
    symmetry. apply not_true_iff_false. }
  rewrite <- (map_filter_union_complement P (users db)) at 2.
  rewrite map_size_disj_union by apply map_disjoint_filter_complement.
  lia.
Qed.

(** ** Soft expiry of files *)

Lemma expired_config_row_true now c :
  expired_config_row now c = true ↔
  (∃ e, config_expiry_date c = Some e ∧ e < now) ∧ is_active c = 1.
Proof.
  unfold expired_config_row. rewrite andb_true_iff, bool_decide_eq_true.
  destruct (config_expiry_date c) as [e|].
  - rewrite bool_decide_eq_true. split.
    + intros [? ?]. eauto.
    + intros [(e' & [= <-] & ?) ?]. auto.
  - split; [by intros [? _]|]. by intros [(e' & ? & _) _].
Qed.

(** X7.  [delete_expired_configs] deletes nothing: every file row stays,
    with all its fields but the active flag, which is cleared exactly on
    the rows that were active with an expiry before the current time; users,
    payments and download records are untouched.  A file so expired is
    never delivered afterwards, whoever asks and whenever. *)
Theorem delete_expired_configs_soft now db config_id c :
  configs db !! config_id = Some c →
  let db' := (delete_expired_configs now db).2 in
  let hit := (∃ e, config_expiry_date c = Some e ∧ e < now) ∧ is_active c = 1 in
  (∃ c', configs db' !! config_id = Some c'
         ∧ (hit → c' = mk_config (filename c) (category c) (original_filename c)
                        (file_size c) (upload_date c) (config_expiry_date c)
                        (config_total_downloads c) 0)
         ∧ (¬ hit → c' = c))
  ∧ dom (configs db') = dom (configs db)
  ∧ users db' = users db ∧ payments db' = payments db
  ∧ downloads db' = downloads db
  ∧ (hit → ∀ t member send_ok user_id fs,
       (download_config t member send_ok user_id config_id db' fs).1.1
       ≠ ConfigDownloaded).
Proof.
  intros Hc db' hit.
  assert (Hrow : configs db' !! config_id
    = Some (if expired_config_row now c
            then mk_config (filename c) (category c) (original_filename c)
                   (file_size c) (upload_date c) (config_expiry_date c)
                   (config_total_downloads c) 0
            else c)).
  { unfold db'. simpl. by rewrite lookup_fmap, Hc. }
  split; [|split; [|split; [|split; [|split]]]]; try done.
  - eexists. split; [exact Hrow|]. split.
    + intros Hh. by rewrite (proj2 (expired_config_row_true now c) Hh).
    + intros Hh. destruct (expired_config_row now c) eqn:He; [|done].
      by apply expired_config_row_true in He.
  - unfold db'. simpl. apply dom_fmap_L.
  - intros Hh t member send_ok user_id fs.
    rewrite (proj2 (expired_config_row_true now c) Hh) in Hrow.
    assert (Husers : users db' = users db) by done.
    clearbody db'.
    unfold download_config, get_config, get_user. rewrite Husers.
    destruct (users db !! user_id) as [u|]; [|done].
    destruct member; simpl; [|done].
    case_bool_decide; [done|].
    destruct (subscription_expired t u); [done|].
    rewrite Hrow. simpl. by rewrite ?bool_decide_eq_true_2.
Qed.

(** ** Manual expiry *)

(** X8.  When an administrator expires a user that exists,
    [process_expire_user] sets that user's expiry to one day before the
    current time and changes no other field.  From then on every download
    by that user is refused, at the channel gate for a non-member and for
    payment or expiry for a member; and, if the user is approved and not
    the operator, the row is removed by the next sweep. *)
Theorem process_expire_user_effect now caller target db u :
  admin_is_admin caller db = true →
  users db !! target = Some u →
  datetime_valid (now - timedelta_days 1) →
  let out := process_expire_user now caller true (Some target) db in
  out.1 = (UserExpired, false)
  ∧ users out.2 !! target
    = Some (mk_user (username u) (join_date u) (Some (now - timedelta_days 1))
              (payment_status u) (total_downloads u) (is_admin u))
  ∧ (∀ k, k ≠ target → users out.2 !! k = users db !! k)
  ∧ (∀ t member send_ok config_id fs, now <= t →
       (download_config t member send_ok target config_id out.2 fs).1.1
         ∈ (if member then [PaymentRequired; SubscriptionExpired]
            else [JoinChannelFirst]))
  ∧ (∀ t, now <= t → payment_status u = "approved" → target ≠ OPERATOR_ID →
       users (job_cleanup t out.2) !! target = None).
Proof.
  intros Ha Hu Hv out. unfold out, process_expire_user, get_user.
  rewrite Ha, Hu. simpl.
  assert (Hadd : datetime_add now (- timedelta_days 1)
                 = Some (now - timedelta_days 1)).
  { rewrite datetime_add_Some by (by rewrite Z.add_opp_r).
    by rewrite Z.add_opp_r. }
  rewrite Hadd. simpl.
  split; [done|]. split; [by rewrite lookup_alter_eq, Hu|].
  split; [intros k Hk; by rewrite lookup_alter_ne|]. split.
  - intros t member send_ok config_id fs Ht.
    unfold download_config, get_user. simpl.
    rewrite lookup_alter_eq, Hu. simpl.
    destruct member; cbn [negb]; rewrite !elem_of_cons; [|by left].
    case_bool_decide; [by left|]. right. left.
    unfold subscription_expired. simpl.
    rewrite bool_decide_eq_true_2; [done|].
    unfold timedelta_days, MICROS_PER_DAY. lia.
  - intros t Ht Hs Hop. unfold job_cleanup. simpl.
    apply map_lookup_filter_None. right. intros v Hv'. simpl.
    rewrite lookup_alter_eq, Hu in Hv'. injection Hv' as <-.
    apply not_false_iff_true. apply expired_user_row_true. simpl.
    split; [done|]. split; [|done]. eexists. split; [done|].
    unfold timedelta_days, MICROS_PER_DAY. lia.
Qed.

(** ** Submitting a payment proof *)

(** X9.  A payment proof sent by a known user who was asked for one is
    stored on disk and recorded as a new pending payment of 200 under the
    next payment number, other payments staying as they were; the sender's
    status becomes 'pending' with expiry and counter unchanged, so that
    every download is refused until a decision, even for a subscriber whose
    paid time has not run out.  Without the request flag or without an
    attachment nothing is recorded. *)
Theorem handle_payment_proof_effect now user_id file db fs u :
  users db !! user_id = Some u →
  0 < next_payment_id db →
  let proof_filename :=
    "payments/payment_" +:+ pretty user_id +:+ "_"
      +:+ pretty (unix_timestamp now) +:+ ".jpg" in
  let out := handle_payment_proof now user_id true (Some file) db fs in
  out.1.1 = (ProofReceived, false)
  ∧ payments out.1.2 !! next_payment_id db
    = Some (mk_payment user_id 200 now proof_filename "pending" None None)
  ∧ (∀ k, k ≠ next_payment_id db → payments out.1.2 !! k = payments db !! k)
  ∧ next_payment_id out.1.2 = next_payment_id db + 1
  ∧ users out.1.2 !! user_id
    = Some (mk_user (username u) (join_date u) (expiry_date u) "pending"
              (total_downloads u) (is_admin u))
  ∧ out.2 !! proof_filename = Some file
  ∧ (∀ t member send_ok config_id fs2,
       (download_config t member send_ok user_id config_id out.1.2 fs2).1.1
       = if member then PaymentRequired else JoinChannelFirst)
  ∧ (∀ awaiting attachment,
       awaiting = false ∨ attachment = None →
       (handle_payment_proof now user_id awaiting attachment db fs).1.2 = db
       ∧ (handle_payment_proof now user_id awaiting attachment db fs).2 = fs).
Proof.
  intros Hu Hn proof_filename out.
  unfold out, handle_payment_proof, get_user. rewrite Hu. simpl.
  rewrite bool_decide_eq_true_2 by lia. simpl.
  split; [done|]. split; [apply lookup_insert_eq|].
  split; [intros k Hk; by apply lookup_insert_ne|].
  split; [done|].
  assert (Hrow : users (update_payment_status user_id "pending"
     (add_payment now user_id 200 proof_filename db).2) !! user_id
    = Some (mk_user (username u) (join_date u) (expiry_date u) "pending"
              (total_downloads u) (is_admin u))).
  { simpl. by rewrite lookup_alter_eq, Hu. }
  split; [exact Hrow|]. split; [apply lookup_insert_eq|]. split.
  - intros t member send_ok config_id fs2.
    by rewrite (download_config_not_approved _ _ _ _ _ _ _ _ Hrow).
  - intros awaiting attachment [-> | ->]; [done|].
    by destruct awaiting.
Qed.

(** ** What a download records *)

(** X10.  [download_config] writes to the store only after the file has
    been sent: the store is as before whenever the request is refused,
    decryption fails or sending fails.  After a send it has added one to
    the download counter of the user and one to that of the file, appended
    one download record for the pair, and left every other row alone.  The
    answer does not always tell: when removing the decrypted copy or
    editing the message raises after the records are written, the user is
    told that the download failed although the file was sent and the
    download is recorded.  What follows the send never changes the store. *)
Theorem download_config_effect now member send_ok rest user_id config_id db fs :
  let out :=
    download_config_outcome now member send_ok rest user_id config_id db fs in
  let base := download_config now member send_ok user_id config_id db fs in
  let recorded :=
    ∃ u c,
      users db !! user_id = Some u ∧ configs db !! config_id = Some c
      ∧ users out.1.2 !! user_id
        = Some (mk_user (username u) (join_date u) (expiry_date u)
                  (payment_status u) (total_downloads u + 1) (is_admin u))
      ∧ configs out.1.2 !! config_id
        = Some (mk_config (filename c) (category c) (original_filename c)
                  (file_size c) (upload_date c) (config_expiry_date c)
                  (config_total_downloads c + 1) (is_active c))
      ∧ downloads out.1.2 = downloads db ++ [mk_download user_id config_id now]
      ∧ (∀ k, k ≠ user_id → users out.1.2 !! k = users db !! k)
      ∧ (∀ k, k ≠ config_id → configs out.1.2 !! k = configs db !! k)
      ∧ payments out.1.2 = payments db in
  (rest = AllDone → out = base)
  ∧ out.1.2 = base.1.2
  ∧ (out.1.1 ≠ ConfigDownloaded → out.1.1 ≠ ErrorDownloading → out.1.2 = db)
  ∧ (send_ok = false → out.1.2 = db)
  ∧ (out.1.1 = ConfigDownloaded → recorded)
  ∧ (out.1.1 = ErrorDownloading → send_ok = true → recorded ∧ rest ≠ AllDone)
  ∧ (base.1.1 = ConfigDownloaded → rest ≠ AllDone →
     out.1.1 = ErrorDownloading ∧ recorded).
Proof.
  intros out base recorded.
  unfold recorded, out, base, download_config_outcome, download_config,
    get_user, get_config.
  clear out base recorded.
  destruct (users db !! user_id) as [u|] eqn:Hu; [|done].
  destruct member; cbn [negb]; [|done].
  case_bool_decide; [done|].
  destruct (subscription_expired now u); [done|].
  destruct (configs db !! config_id) as [c|] eqn:Hc; [|done].
  case_bool_decide; [done|].
  destruct (decrypt_file _ _ _) as [[] fs1]; [|done].
  destruct send_ok; [|done].
  assert (Hrec :
    ∃ u0 c0,
      Some u = Some u0 ∧ Some c = Some c0
      ∧ users (increment_downloads user_id
                 (record_download now user_id config_id db)) !! user_id
        = Some (mk_user (username u0) (join_date u0) (expiry_date u0)
                  (payment_status u0) (total_downloads u0 + 1) (is_admin u0))
      ∧ configs (increment_downloads user_id
                   (record_download now user_id config_id db)) !! config_id
        = Some (mk_config (filename c0) (category c0) (original_filename c0)
                  (file_size c0) (upload_date c0) (config_expiry_date c0)
                  (config_total_downloads c0 + 1) (is_active c0))
      ∧ downloads (increment_downloads user_id
                     (record_download now user_id config_id db))
        = downloads db ++ [mk_download user_id config_id now]
      ∧ (∀ k, k ≠ user_id →
           users (increment_downloads user_id
                    (record_download now user_id config_id db)) !! k
           = users db !! k)
      ∧ (∀ k, k ≠ config_id →
           configs (increment_downloads user_id
                      (record_download now user_id config_id db)) !! k
           = configs db !! k)
      ∧ payments (increment_downloads user_id
                    (record_download now user_id config_id db))
        = payments db).
  { exists u, c. simpl.
    split; [done|]. split; [done|].
    split; [by rewrite lookup_alter_eq, Hu|].
    split; [by rewrite lookup_alter_eq, Hc|].
    split; [done|].
    split; [intros k Hk; by rewrite lookup_alter_ne|].
    split; [intros k Hk; by rewrite lookup_alter_ne|done]. }
  destruct rest; cbn [fst snd].
  - split; [done|]. split; [done|]. split; [done|]. split; [done|].
    split; [done|]. split; [done|]. by intros _ [].
  - split; [done|]. split; [done|]. split; [done|]. split; [done|].
    split; [done|]. split; [by intros _ _|]. by intros _ _.
  - split; [done|]. split; [done|]. split; [done|]. split; [done|].
    split; [done|]. split; [by intros _ _|]. by intros _ _.
Qed.

(** ** More on the codec *)

(** X11.  [unpad] accepts exactly the buffers that [pad] produces, and
    gives back what was padded: the two are inverse to each other. *)
Theorem unpad_Some_iff_pad padded data :
  unpad padded block_size = Some data ↔ pad data block_size = padded.
Proof.
  split; [|intros <-; apply unpad_pad].
  unfold unpad, block_size.
  case_bool_decide as H0; [done|].
  case_bool_decide as Hm; [done|].
  case_bool_decide as Hk; [done|].
  case_bool_decide as Hd; [done|].
  intros [= <-].
  set (k := default 0 (last padded)) in *.
  assert (1 <= k <= Z.of_nat (min 16 (length padded))) as Hk' by lia.
  clear Hk.
  set (n := Z.to_nat k) in *.
  assert (1 ≤ n ≤ 16 ∧ n ≤ length padded)%nat as (Hn1 & Hn2) by lia.
  assert (k = Z.of_nat n) as Hkn by lia.
  unfold pad. rewrite length_take.
  rewrite Nat.min_l by lia.
  pose proof (Nat.div_mod_eq (length padded) 16) as Hdiv. rewrite Hm in Hdiv.
  assert (16 - (length padded - n) mod 16 = n)%nat as ->.
  { destruct (decide (n = 16%nat)) as [->|Hne].
    - rewrite <- (Nat.mod_unique (length padded - 16) 16
                    (length padded / 16 - 1) 0); lia.
    - rewrite <- (Nat.mod_unique (length padded - n) 16
                    (length padded / 16 - 1) (16 - n)); lia. }
  rewrite <- Hkn, <- Hd. apply take_drop.
Qed.

Lemma cbc_decrypt_blocks_length n : ∀ prev data,
  (length prev ≤ block_size)%nat →
  (length (cbc_decrypt_blocks n prev data) ≤ n * block_size)%nat.
Proof.
  induction n as [|n IH]; intros prev data Hp; [done|].
  cbn [cbc_decrypt_blocks]. rewrite length_app.
  assert (length (strxor (AES_decrypt_block key (take block_size data)) prev)
          ≤ block_size)%nat.
  { unfold strxor. rewrite length_zip_with. lia. }
  assert (length (cbc_decrypt_blocks n (take block_size data) (drop block_size data))
          ≤ n * block_size)%nat.
  { apply IH. rewrite length_take. lia. }
  lia.
Qed.

(** X12.  [decrypt] succeeds only on input made of an IV and at least one
    further block, and what it returns is at least 17 bytes shorter than
    its input.  Hence [decrypt_file] reports failure, and writes nothing,
    for every file shorter than 32 bytes or not a whole number of blocks,
    and for a missing file. *)
Theorem decrypt_rejects_malformed encrypted_data :
  (∀ data, decrypt encrypted_data = Some data →
     (32 ≤ length encrypted_data)%nat
     ∧ (length encrypted_data mod 16)%nat = 0%nat
     ∧ (length data + 17 ≤ length encrypted_data)%nat)
  ∧ ∀ (fs : filesystem) input_path output_path,
      fs !! input_path = None
      ∨ (fs !! input_path = Some encrypted_data
         ∧ ((length encrypted_data < 32)%nat
            ∨ (length encrypted_data mod 16)%nat ≠ 0%nat)) →
      decrypt_file input_path output_path fs = (false, fs).
Proof.
  assert (Hlen : ∀ data, decrypt encrypted_data = Some data →
     (32 ≤ length encrypted_data)%nat
     ∧ (length encrypted_data mod 16)%nat = 0%nat
     ∧ (length data + 17 ≤ length encrypted_data)%nat).
  { intros data. unfold decrypt, cbc_decrypt.
    case_bool_decide as Hiv; [done|].
    case_bool_decide as Hm; [done|].
    simpl. set (ct := drop block_size encrypted_data) in *.
    set (P := cbc_decrypt_blocks _ _ _).
    assert (length P ≤ length ct / block_size * block_size)%nat as HP.
    { apply cbc_decrypt_blocks_length. lia. }
    unfold unpad.
    case_bool_decide as H0; [done|].
    case_bool_decide as HPm; [done|].
    case_bool_decide as Hk; [done|].
    case_bool_decide as Hd; [done|].
    intros [= <-]. rewrite length_take.
    rewrite length_take in Hiv. unfold ct in *. rewrite length_drop in *.
    unfold block_size in *.
    pose proof (Nat.div_mod_eq (length encrypted_data - 16) 16) as Hdm.
    rewrite Hm in Hdm.
    assert (length encrypted_data mod 16 = 0)%nat.
    { symmetry. apply (Nat.mod_unique (length encrypted_data) 16
                         ((length encrypted_data - 16) / 16 + 1) 0); lia. }
    split; [lia|]. split; [exact H|lia]. }
  split; [exact Hlen|].
  intros fs input_path output_path [Hn|[Hs Hbad]]; unfold decrypt_file.
  - by rewrite Hn.
  - rewrite Hs. destruct (decrypt encrypted_data) as [data|]; [|done].
    destruct (Hlen data eq_refl) as (? & ? & _). lia.
Qed.

Lemma cbc_encrypt_blocks_length n : ∀ prev data,
  is_block prev → Forall is_byte data → length data = (n * block_size)%nat →
  length (cbc_encrypt_blocks n prev data) = (n * block_size)%nat.
Proof using AES_encrypt_block_is_block.
  induction n as [|n IH]; intros prev data Hprev Hdata Hlen; [done|].
  cbn [cbc_encrypt_blocks].
  assert (is_block (take block_size data)) as Hb.
  { split; [|by apply Forall_take].
    rewrite length_take. unfold block_size in *. lia. }
  pose proof (AES_encrypt_block_is_block _ (strxor_is_block _ _ Hb Hprev))
    as Hc.
  rewrite length_app, IH; [destruct Hc as [-> _]; lia|done|by apply Forall_drop|].
  rewrite length_drop. unfold block_size in *. lia.
Qed.

(** X13.  [encrypt] fails exactly when the IV is not 16 bytes long.  With
    a 16-byte IV and a byte buffer, its output starts with the IV and is
    the buffer's length rounded down to a multiple of 16, plus 32 bytes:
    between 17 and 32 bytes more than the plaintext. *)
Theorem encrypt_output_length iv data :
  (encrypt iv data = None ↔ length iv ≠ block_size)
  ∧ (is_block iv → Forall is_byte data →
     ∃ e, encrypt iv data = Some e
          ∧ take block_size e = iv
          ∧ length e = (16 * (length data / 16) + 32)%nat).
Proof using AES_encrypt_block_is_block.
  destruct (pad_shape data) as (p & Hp & Hpad & n & Hn).
  assert (Hdec : cbc_encrypt iv (pad data block_size)
                 = if bool_decide (length iv ≠ block_size) then None
                   else Some (cbc_encrypt_blocks n iv (pad data block_size))).
  { unfold cbc_encrypt. case_bool_decide; [done|].
    rewrite bool_decide_eq_false_2
      by (intros H'; apply H'; rewrite Hn; apply Nat.Div0.mod_mul).
    by rewrite Hn, Nat.div_mul. }
  split.
  - unfold encrypt. rewrite Hdec. case_bool_decide; simpl; split; done.
  - intros Hiv Hdata. unfold encrypt. rewrite Hdec.
    destruct Hiv as [Hivl Hivb].
    rewrite bool_decide_eq_false_2 by (by intros []).
    cbn [mbind option_bind].
    eexists. split; [done|]. split; [by rewrite take_app_length'|].
    rewrite length_app, cbc_encrypt_blocks_length;
      [|done|by apply pad_is_byte|done].
    rewrite Hivl. rewrite Hpad, length_app, length_replicate in Hn.
    unfold block_size in *.
    pose proof (Nat.div_mod_eq (length data) 16) as Hdm.
    pose proof (Nat.mod_upper_bound (length data) 16 ltac:(lia)) as Hub.
    assert (n = length data / 16 + 1)%nat; [|lia].
    assert (16 * n = 16 * (length data / 16) + (length data mod 16 + p))%nat
      as Heq by lia.
    assert (length data mod 16 + p = 16)%nat; [|lia].
    assert (length data mod 16 + p < 32)%nat by lia.
    assert (0 < length data mod 16 + p)%nat by lia.
    lia.
Qed.

(** ** Invariants of the reachable states *)

Lemma reachable_ind (P : Database * filesystem → Prop) :
  (∀ t0, P (create_tables t0, ∅)) →
  (∀ now r s, P s → P (handle now r s)) →
  ∀ s, reachable s → P s.
Proof.
  intros H0 Hstep s (t0 & trace & ->).
  assert (∀ s, P s → P (run trace s)) as Hrun.
  { induction trace as [|[now r] rest IH]; intros s Hs; [done|].
    simpl. apply IH. by apply Hstep. }
  apply Hrun, H0.
Qed.

Lemma download_count_snoc config_id ds d :
  download_count config_id (ds ++ [d])
  = download_count config_id ds
    + (if bool_decide (download_config_id d = config_id) then 1 else 0).
Proof.
  unfold download_count. rewrite filter_app, length_app, filter_cons, filter_nil.
  case_bool_decide; destruct (decide _); simpl; try done; lia.
Qed.

Lemma user_download_count_snoc user_id ds d :
  user_download_count user_id (ds ++ [d])
  = user_download_count user_id ds
    + (if bool_decide (download_user_id d = user_id) then 1 else 0).
Proof.
  unfold user_download_count.
  rewrite filter_app, length_app, filter_cons, filter_nil.
  case_bool_decide; destruct (decide _); simpl; try done; lia.
Qed.

Lemma download_count_fresh config_id ds :
  Forall (fun d => download_config_id d < config_id) ds →
  download_count config_id ds = 0.
Proof.
  intros H. unfold download_count.
  induction H as [|d ds Hd _ IH]; [done|].
  rewrite filter_cons. destruct (decide _) as [He|_]; [lia|done].
Qed.

(** *** User rows *)

Lemma users_ok_same db db' :
  users db' = users db → downloads db' = downloads db →
  users_ok db → users_ok db'.
Proof. intros Hu Hd [? ?]. unfold users_ok. by rewrite Hu, Hd. Qed.

Lemma users_ok_alter (f : user → user) user_id db :
  (∀ r, is_admin (f r) = is_admin r ∧ total_downloads (f r) = total_downloads r) →
  users_ok db → users_ok (set_users (alter f user_id) db).
Proof.
  intros Hf [Hop Hrows]. split; simpl.
  - destruct Hop as [o Ho]. destruct (decide (user_id = OPERATOR_ID)) as [->|Hne].
    + rewrite lookup_alter_eq, Ho. by eexists.
    + rewrite lookup_alter_ne by done. by eexists.
  - intros k v Hv. destruct (decide (user_id = k)) as [->|Hne].
    + rewrite lookup_alter_eq in Hv.
      destruct (users db !! k) as [w|] eqn:Hw; [|done].
      injection Hv as <-. destruct (Hf w) as [-> ->]. by apply (Hrows k).
    + rewrite lookup_alter_ne in Hv by done. by apply (Hrows k).
Qed.

Lemma users_ok_update_user_expiry now user_id days db :
  users_ok db → users_ok (update_user_expiry now user_id days db).
Proof.
  intros Hok. unfold update_user_expiry.
  destruct (get_user user_id db) as [u|]; [|done].
  destruct (expiry_date u); destruct (datetime_add _ _); try done;
    by apply users_ok_alter.
Qed.

Lemma users_ok_add_user now user_id name db :
  users_ok db → users_ok (add_user now user_id name db).
Proof.
  intros [Hop Hrows]. unfold add_user.
  destruct (users db !! user_id) eqn:Hu; [done|].
  assert (user_id ≠ OPERATOR_ID) as Hne.
  { intros ->. rewrite Hu in Hop. by destruct Hop. }
  split; simpl.
  - by rewrite lookup_insert_ne.
  - apply map_Forall_insert_2; [|done]. simpl.
    rewrite bool_decide_eq_false_2 by done. split; [done|].
    unfold user_download_count. lia.
Qed.

Lemma users_ok_delete_expired_users now db :
  users_ok db → users_ok (delete_expired_users now db).2.
Proof.
  intros [[o Ho] Hrows]. split; simpl.
  - exists o. apply map_lookup_filter_Some. split; [done|]. simpl.
    apply not_true_iff_false. rewrite expired_user_row_true.
    by intros (_ & _ & ?).
  - intros k v Hv. apply map_lookup_filter_Some in Hv as [Hv _].
    by apply (Hrows k).
Qed.

Lemma users_ok_download user_id config_id now db u :
  users db !! user_id = Some u →
  users_ok db →
  users_ok (increment_downloads user_id (record_download now user_id config_id db)).
Proof.
  intros Hu [[o Ho] Hrows]. split; simpl.
  - destruct (decide (user_id = OPERATOR_ID)) as [->|Hne].
    + rewrite lookup_alter_eq, Ho. by eexists.
    + rewrite lookup_alter_ne by done. by eexists.
  - intros k v Hv. rewrite user_download_count_snoc. simpl.
    destruct (decide (user_id = k)) as [->|Hne].
    + rewrite lookup_alter_eq, Hu in Hv. injection Hv as <-. simpl.
      destruct (Hrows k u Hu) as [-> ?].
      rewrite (bool_decide_eq_true_2 (k = k)) by done. split; [done|lia].
    + rewrite lookup_alter_ne in Hv by done.
      destruct (Hrows k v Hv) as [-> ?]. split; [done|].
      case_bool_decide; lia.
Qed.

Lemma users_ok_handle now r db fs :
  users_ok db → users_ok (handle now r (db, fs)).1.
Proof.
  intros Hok. destruct r; simpl.
  - by apply users_ok_add_user.
  - unfold handle_payment_proof.
    destruct (get_user user_id db); [|done].
    destruct awaiting; simpl; [|done].
    destruct attachment; [|done]. simpl.
    case_bool_decide; simpl; [|by apply (users_ok_same db)].
    apply (users_ok_alter _ user_id
             (add_payment now user_id 200 _ db).2); [done|].
    by apply (users_ok_same db).
  - unfold approve_payment. destruct (not_admin _); [done|].
    destruct (_get_payment_by_id _ _); [|done]. simpl.
    apply users_ok_update_user_expiry. by apply (users_ok_same db).
  - unfold reject_payment. destruct (not_admin _); [done|].
    destruct (_get_payment_by_id _ _); [|done]. simpl.
    apply (users_ok_alter _ _ (update_payment now payment_id "rejected"
                                 "Rejected by admin" db)); [done|].
    by apply (users_ok_same db).
  - unfold handle_upload. destruct (not_admin _); [done|].
    destruct awaiting; [|done]. destruct document as [[fname content]|]; [|done].
    destruct (is_valid_config_extension fname); simpl; [|done].
    destruct (encrypt_file _ _ _ _) as [[] fs2]; [|done].
    unfold add_config. destruct (datetime_add _ _); simpl; [|done].
    case_bool_decide; simpl; [done|].
    case_bool_decide; simpl; by apply (users_ok_same db).
  - unfold download_config.
    destruct (get_user user_id db) as [u|] eqn:Hu; [|done].
    destruct member; simpl; [|done].
    case_bool_decide; [done|]. destruct (subscription_expired _ _); [done|].
    destruct (get_config _ _); [|done]. case_bool_decide; [done|].
    destruct (decrypt_file _ _ _) as [[] fs1]; [|done].
    destruct send_ok; simpl; [|done].
    by apply (users_ok_download _ _ _ _ u).
  - unfold delete_config_handler. destruct (not_admin _); [done|].
    destruct (get_config _ _); [|done]. simpl.
    by apply (users_ok_same db).
  - unfold process_expire_user. destruct (admin_is_admin _ _); [|done].
    destruct awaiting; simpl; [|done]. destruct target; [|done].
    destruct (get_user _ _); [|done]. destruct (datetime_add _ _); [|done].
    simpl. by apply users_ok_alter.
  - unfold job_cleanup.
    apply (users_ok_same (delete_expired_users now db).2); [done..|].
    by apply users_ok_delete_expired_users.
Qed.

(** *** Payment rows *)

Lemma payments_ok_same db db' :
  payments db' = payments db → next_payment_id db' = next_payment_id db →
  payments_ok db → payments_ok db'.
Proof. intros Hp Hn [? ?]. unfold payments_ok. by rewrite Hp, Hn. Qed.

Lemma payments_ok_update_user_expiry now user_id days db :
  payments_ok db → payments_ok (update_user_expiry now user_id days db).
Proof.
  apply payments_ok_same; [apply payments_update_user_expiry|].
  apply rest_update_user_expiry.
Qed.

Lemma payments_ok_add_payment now user_id proof_path db :
  payments_ok db → payments_ok (add_payment now user_id 200 proof_path db).2.
Proof.
  intros [Hn Hrows]. split; simpl; [lia|].
  apply map_Forall_insert_2.
  - simpl. split; [lia|]. split; [done|].
    split; [rewrite !elem_of_cons; pick_disjunct|done].
  - intros k p Hp. destruct (Hrows k p Hp) as (? & ? & ? & ? & ?).
    split; [lia|done].
Qed.

Lemma payments_ok_update_payment now payment_id st note db :
  st = "approved" ∨ st = "rejected" →
  payments_ok db → payments_ok (update_payment now payment_id st note db).
Proof.
  intros Hst [Hn Hrows]. split; [done|]. simpl.
  intros k p Hp. destruct (decide (payment_id = k)) as [->|Hne].
  - rewrite lookup_alter_eq in Hp.
    destruct (payments db !! k) as [q|] eqn:Hq; [|done].
    injection Hp as <-. simpl.
    destruct (Hrows k q Hq) as (? & ? & _).
    split; [done|]. split; [done|].
    destruct Hst as [-> | ->]; simpl;
      (split; [rewrite !elem_of_cons; pick_disjunct|]); by split; split.
  - rewrite lookup_alter_ne in Hp by done. by apply (Hrows k).
Qed.

Lemma payments_ok_handle now r db fs :
  payments_ok db → payments_ok (handle now r (db, fs)).1.
Proof.
  intros Hok. destruct r; simpl.
  - unfold show_welcome, add_user. by destruct (users db !! user_id).
  - unfold handle_payment_proof.
    destruct (get_user user_id db); [|done].
    destruct awaiting; simpl; [|done].
    destruct attachment; [|done]. simpl.
    pose proof (payments_ok_add_payment now user_id
      ("payments/payment_" +:+ pretty user_id +:+ "_"
         +:+ pretty (unix_timestamp now) +:+ ".jpg") db Hok) as Hadd.
    case_bool_decide; simpl; [|done].
    revert Hadd. by apply payments_ok_same.
  - unfold approve_payment. destruct (not_admin _); [done|].
    destruct (_get_payment_by_id _ _); [|done]. simpl.
    apply payments_ok_update_user_expiry.
    apply payments_ok_update_payment; [by left|done].
  - unfold reject_payment. destruct (not_admin _); [done|].
    destruct (_get_payment_by_id _ _); [|done]. simpl.
    apply (payments_ok_same (update_payment now payment_id "rejected"
                               "Rejected by admin" db)); [done..|].
    apply payments_ok_update_payment; [by right|done].
  - unfold handle_upload. destruct (not_admin _); [done|].
    destruct awaiting; [|done]. destruct document as [[fname content]|]; [|done].
    destruct (is_valid_config_extension fname); simpl; [|done].
    destruct (encrypt_file _ _ _ _) as [[] fs2]; [|done].
    unfold add_config. destruct (datetime_add _ _); simpl; [|done].
    case_bool_decide; simpl; [done|].
    case_bool_decide; simpl; by apply (payments_ok_same db).
  - unfold download_config.
    destruct (get_user user_id db) as [u|] eqn:Hu; [|done].
    destruct member; simpl; [|done].
    case_bool_decide; [done|]. destruct (subscription_expired _ _); [done|].
    destruct (get_config _ _); [|done]. case_bool_decide; [done|].
    destruct (decrypt_file _ _ _) as [[] fs1]; [|done].
    destruct send_ok; simpl; [|done].
    by apply (payments_ok_same db).
  - unfold delete_config_handler. destruct (not_admin _); [done|].
    destruct (get_config _ _); [|done]. simpl.
    by apply (payments_ok_same db).
  - unfold process_expire_user. destruct (admin_is_admin _ _); [|done].
    destruct awaiting; simpl; [|done]. destruct target; [|done].
    destruct (get_user _ _); [|done]. destruct (datetime_add _ _); [|done].
    simpl. by apply (payments_ok_same db).
  - by apply (payments_ok_same db).
Qed.

(** *** File rows and the encrypted files *)

Definition blobs_kept (fs fs' : filesystem) : Prop :=
  ∀ f, is_Some (fs !! ("configs/" +:+ f)) → is_Some (fs' !! ("configs/" +:+ f)).

Lemma blobs_kept_refl fs : blobs_kept fs fs.
Proof. by intros f. Qed.

Lemma blobs_kept_trans fs1 fs2 fs3 :
  blobs_kept fs1 fs2 → blobs_kept fs2 fs3 → blobs_kept fs1 fs3.
Proof. intros H1 H2 f Hf. by apply H2, H1. Qed.

Lemma blobs_kept_insert path content (fs : filesystem) :
  blobs_kept fs (<[path := content]> fs).
Proof.
  intros f Hf. destruct (decide (path = "configs/" +:+ f)) as [->|Hne].
  - rewrite lookup_insert_eq. by eexists.
  - by rewrite lookup_insert_ne.
Qed.

Lemma blobs_kept_delete_temp name (fs : filesystem) :
  blobs_kept fs (delete ("temp/" +:+ name) fs).
Proof. intros f Hf. by rewrite lookup_delete_ne. Qed.

Lemma blobs_kept_decrypt_file input_path output_path fs :
  blobs_kept fs (decrypt_file input_path output_path fs).2.
Proof.
  unfold decrypt_file. destruct (fs !! input_path) as [e|]; [|apply blobs_kept_refl].
  destruct (decrypt e); [apply blobs_kept_insert|apply blobs_kept_refl].
Qed.

Lemma configs_ok_blobs_kept db fs fs' :
  blobs_kept fs fs' → configs_ok db fs → configs_ok db fs'.
Proof.
  intros Hk (Hn & Hd & Hrows). split; [done|]. split; [done|].
  intros k c Hc. destruct (Hrows k c Hc) as (? & ? & ? & ? & ? & ?).
  repeat split; try done; try lia. by apply Hk.
Qed.

Lemma configs_ok_same db db' fs :
  configs db' = configs db → downloads db' = downloads db →
  next_config_id db' = next_config_id db →
  configs_ok db fs → configs_ok db' fs.
Proof. intros Hc Hd Hn H. unfold configs_ok. by rewrite Hc, Hd, Hn. Qed.

Lemma configs_ok_update_user_expiry now user_id days db fs :
  configs_ok db fs → configs_ok (update_user_expiry now user_id days db) fs.
Proof.
  destruct (rest_update_user_expiry now user_id days db) as (? & ? & ? & _).
  by apply configs_ok_same.
Qed.

Lemma configs_ok_delete_expired_configs now db fs :
  configs_ok db fs → configs_ok (delete_expired_configs now db).2 fs.
Proof.
  intros (Hn & Hd & Hrows). split; [done|]. split; [done|]. simpl.
  intros k c' Hc'. rewrite lookup_fmap in Hc'.
  destruct (configs db !! k) as [c|] eqn:Hc; [|done].
  injection Hc' as <-.
  destruct (Hrows k c Hc) as (? & ? & ? & ? & ? & Huniq).
  assert (∀ k' c'', (((λ c0, if expired_config_row now c0
            then mk_config (filename c0) (category c0) (original_filename c0)
                   (file_size c0) (upload_date c0) (config_expiry_date c0)
                   (config_total_downloads c0) 0
            else c0) <$> configs db) !! k' = Some c'') →
          filename c'' = filename c → k' = k) as Huniq'.
  { intros k' c'' Hc''. rewrite lookup_fmap in Hc''.
    destruct (configs db !! k') as [d|] eqn:Hd'; [|done].
    injection Hc'' as <-. intros Hf. apply (Huniq k' d Hd').
    by destruct (expired_config_row now d). }
  destruct (expired_config_row now c); simpl; repeat split; try done; try lia.
Qed.

Lemma configs_ok_record_download now user_id config_id db fs c :
  configs db !! config_id = Some c →
  configs_ok db fs →
  configs_ok (increment_downloads user_id
                (record_download now user_id config_id db)) fs.
Proof.
  intros Hc (Hn & Hd & Hrows).
  destruct (Hrows config_id c Hc) as (Hid & _).
  split; [done|]. split; simpl.
  - apply Forall_app. split; [done|]. constructor; [simpl; lia|constructor].
  - intros k c' Hc'. rewrite download_count_snoc. simpl.
    assert (∀ k' c'', alter (λ c0, mk_config (filename c0) (category c0)
              (original_filename c0) (file_size c0) (upload_date c0)
              (config_expiry_date c0) (config_total_downloads c0 + 1)
              (is_active c0)) config_id (configs db) !! k' = Some c'' →
            ∃ d, configs db !! k' = Some d ∧ filename c'' = filename d) as Hback.
    { intros k' c'' Hc''. destruct (decide (config_id = k')) as [->|Hne].
      - rewrite lookup_alter_eq in Hc''.
        destruct (configs db !! k') as [d|]; [|done].
        injection Hc'' as <-. by exists d.
      - rewrite lookup_alter_ne in Hc'' by done. by exists c''. }
    destruct (decide (config_id = k)) as [->|Hne].
    + rewrite lookup_alter_eq, Hc in Hc'. injection Hc' as <-. simpl.
      destruct (Hrows k c Hc) as (? & ? & ? & -> & ? & Huniq).
      rewrite (bool_decide_eq_true_2 (k = k)) by done.
      repeat split; try done; try lia.
      intros k' c'' Hc'' Hf. destruct (Hback k' c'' Hc'') as (d & Hd' & Hfd).
      apply (Huniq k' d Hd'). congruence.
    + rewrite lookup_alter_ne in Hc' by done.
      destruct (Hrows k c' Hc') as (? & ? & ? & -> & ? & Huniq).
      rewrite (bool_decide_eq_false_2 (config_id = k)) by done.
      repeat split; try done; try lia.
      intros k' c'' Hc'' Hf. destruct (Hback k' c'' Hc'') as (d & Hd' & Hfd).
      apply (Huniq k' d Hd'). congruence.
Qed.

Lemma configs_ok_add_config now fname original cat size_bytes days db fs :
  is_Some (fs !! ("configs/" +:+ fname)) →
  configs_ok db fs →
  configs_ok (add_config now fname original cat size_bytes days db).2 fs.
Proof.
  intros Hblob (Hn & Hd & Hrows). unfold add_config.
  destruct (datetime_add _ _) as [e|]; [|done].
  case_bool_decide as Hdup; [done|]. simpl.
  assert (∀ k c, configs db !! k = Some c → filename c ≠ fname) as Hnew.
  { intros k c Hc Hf. apply Hdup. apply Exists_exists. exists (k, c).
    split; [by apply elem_of_map_to_list|done]. }
  assert (configs db !! next_config_id db = None) as Hfresh.
  { destruct (configs db !! next_config_id db) as [c|] eqn:Hc; [|done].
    destruct (Hrows _ c Hc) as (? & _). lia. }
  split; [simpl; lia|]. split; simpl.
  - eapply Forall_impl; [exact Hd|]. simpl. intros d ?. lia.
  - apply map_Forall_insert_2.
    + simpl. split; [lia|]. split; [by right|]. split; [by eexists|].
      split; [by rewrite download_count_fresh|]. split; [done|].
      intros k' c' Hc' Hf.
      destruct (decide (next_config_id db = k')) as [<-|Hne]; [done|].
      rewrite lookup_insert_ne in Hc' by done. by destruct (Hnew k' c' Hc').
    + intros k c Hc. destruct (Hrows k c Hc) as (? & ? & ? & ? & ? & Huniq).
      repeat split; try done; try lia.
      intros k' c' Hc' Hf.
      destruct (decide (next_config_id db = k')) as [<-|Hne].
      * rewrite lookup_insert_eq in Hc'. injection Hc' as <-. simpl in Hf.
        by destruct (Hnew k c Hc).
      * rewrite lookup_insert_ne in Hc' by done. by apply (Huniq k' c').
Qed.

Lemma configs_path_inj a b : "configs/" +:+ a = "configs/" +:+ b → a = b.
Proof. intros H. injection H as H. exact H. Qed.

Lemma configs_ok_delete_config config_id db fs c :
  configs db !! config_id = Some c →
  configs_ok db fs →
  configs_ok (delete_config config_id db) (delete ("configs/" +:+ filename c) fs).
Proof.
  intros Hc (Hn & Hd & Hrows). split; [done|]. split; [done|]. simpl.
  intros k c' Hc'. apply lookup_delete_Some in Hc' as [Hne Hc'].
  destruct (Hrows k c' Hc') as (? & ? & ? & ? & ? & Huniq).
  repeat split; try done; try lia.
  - rewrite lookup_delete_ne; [done|].
    intros Hp%configs_path_inj. apply Hne. by apply (Huniq config_id c).
  - intros k' c'' Hc'' Hf. apply lookup_delete_Some in Hc'' as [_ Hc''].
    by apply (Huniq k' c'').
Qed.

Lemma configs_ok_handle now r db fs :
  configs_ok db fs →
  configs_ok (handle now r (db, fs)).1 (handle now r (db, fs)).2.
Proof.
  intros Hok. destruct r; simpl.
  - apply (configs_ok_same db); [..|done];
      unfold show_welcome, add_user; by destruct (users db !! user_id).
  - unfold handle_payment_proof.
    destruct (get_user user_id db); [|done].
    destruct awaiting; simpl; [|done].
    destruct attachment; [|done]. simpl.
    case_bool_decide; simpl;
      (eapply configs_ok_blobs_kept; [apply blobs_kept_insert|]);
      by apply (configs_ok_same db).
  - unfold approve_payment. destruct (not_admin _); [done|].
    destruct (_get_payment_by_id _ _); [|done]. simpl.
    apply configs_ok_update_user_expiry. by apply (configs_ok_same db).
  - unfold reject_payment. destruct (not_admin _); [done|].
    destruct (_get_payment_by_id _ _); [|done]. simpl.
    by apply (configs_ok_same db).
  - unfold handle_upload. destruct (not_admin _); [done|].
    destruct awaiting as [cat|]; [|done].
    destruct document as [[fname content]|]; [|done].
    destruct (is_valid_config_extension fname); simpl; [|done].
    set (temp_name := pretty (unix_timestamp now) +:+ "_" +:+ fname).
    set (enc := generate_filename now fname user_id).
    assert (configs_ok db (<["temp/" +:+ temp_name := content]> fs)) as Hok1
      by (eapply configs_ok_blobs_kept; [apply blobs_kept_insert|done]).
    unfold encrypt_file. rewrite lookup_insert_eq.
    destruct (encrypt iv content) as [e|]; [|done].
    set (fs2 := <["configs/" +:+ enc := e]> (<["temp/" +:+ temp_name := content]> fs)).
    assert (configs_ok (add_config now enc fname cat
                          (Z.of_nat (length content)) 30 db).2 fs2) as Hadd.
    { apply configs_ok_add_config.
      - unfold fs2. rewrite lookup_insert_eq. by eexists.
      - eapply configs_ok_blobs_kept; [apply blobs_kept_insert|done]. }
    destruct (add_config now enc fname cat (Z.of_nat (length content)) 30 db)
      as [config_id db1].
    case_bool_decide; simpl; [|done].
    eapply configs_ok_blobs_kept; [apply blobs_kept_delete_temp|done].
  - unfold download_config.
    destruct (get_user user_id db) as [u|] eqn:Hu; [|done].
    destruct member; simpl; [|done].
    case_bool_decide; [done|]. destruct (subscription_expired _ _); [done|].
    destruct (get_config config_id db) as [c|] eqn:Hc; [|done].
    case_bool_decide; [done|].
    pose proof (blobs_kept_decrypt_file ("configs/" +:+ filename c)
      ("temp/" +:+ pretty (unix_timestamp now) +:+ "_" +:+ original_filename c) fs)
      as Hk.
    destruct (decrypt_file _ _ _) as [[] fs1]; simpl in Hk;
      [|by apply (configs_ok_blobs_kept db fs)].
    destruct send_ok; simpl; [|by apply (configs_ok_blobs_kept db fs)].
    eapply configs_ok_blobs_kept;
      [eapply blobs_kept_trans; [exact Hk|apply blobs_kept_delete_temp]|].
    by apply (configs_ok_record_download _ _ _ _ _ c).
  - unfold delete_config_handler. destruct (not_admin _); [done|].
    destruct (get_config config_id db) as [c|] eqn:Hc; [|done]. simpl.
    by apply configs_ok_delete_config.
  - unfold process_expire_user. destruct (admin_is_admin _ _); [|done].
    destruct awaiting; simpl; [|done]. destruct target; [|done].
    destruct (get_user _ _); [|done]. destruct (datetime_add _ _); [|done].
    simpl. by apply (configs_ok_same db).
  - unfold job_cleanup. apply configs_ok_delete_expired_configs.
    by apply (configs_ok_same db).
Qed.

Lemma state_ok_reachable s : reachable s → state_ok s.
Proof.
  apply reachable_ind.
  - intros t0. split; [|split].
    + split; simpl.
      * rewrite lookup_singleton_eq. by eexists.
      * intros k v Hv. apply lookup_singleton_Some in Hv as [<- <-]. simpl.
        rewrite ?bool_decide_eq_true_2 by done. split; [done|].
        unfold user_download_count. simpl. lia.
    + split; [done|]. intros k p Hp. simpl in Hp.
      by rewrite lookup_empty in Hp.
    + split; [done|]. split; [constructor|].
      intros k c Hc. simpl in Hc. by rewrite lookup_empty in Hc.
  - intros now r [db fs] (Hu & Hp & Hc). split; [|split].
    + by apply users_ok_handle.
    + by apply payments_ok_handle.
    + by apply configs_ok_handle.
Qed.

(** X14.  In every state the system can reach, the operator is the one and
    only administrator: the admin check of the handlers and that of the
    admin panel both pass for the operator and for nobody else, so the
    operator is never locked out and no handler grants the flag.  A
    request to approve, reject, upload, delete a file or expire a user
    that comes from anyone else changes nothing. *)
Theorem only_operator_is_admin s caller :
  reachable s →
  (not_admin (get_user caller s.1) = false ↔ caller = OPERATOR_ID)
  ∧ (admin_is_admin caller s.1 = true ↔ caller = OPERATOR_ID)
  ∧ (caller ≠ OPERATOR_ID →
     ∀ now payment_id config_id iv awaiting document flag target,
       approve_payment now caller payment_id s.1 = (Unauthorized, s.1)
       ∧ reject_payment now caller payment_id s.1 = (Unauthorized, s.1)
       ∧ handle_upload now iv caller awaiting document s.1 s.2
         = (AdminAccessRequired, awaiting, s.1, s.2)
       ∧ delete_config_handler caller config_id s.1 s.2 = s
       ∧ process_expire_user now caller flag target s.1 = (NoReply, flag, s.1)).
Proof.
  intros Hs. destruct (state_ok_reachable s Hs) as ([[o Ho] Hrows] & _ & _).
  destruct s as [db fs]. simpl in *.
  assert (Hgate : not_admin (get_user caller db) = false ↔ caller = OPERATOR_ID).
  { unfold not_admin, get_user. split.
    - destruct (users db !! caller) as [u|] eqn:Hu; [|done].
      intros Hb. apply bool_decide_eq_false in Hb.
      destruct (Hrows caller u Hu) as [Ha _].
      by case_bool_decide.
    - intros ->. rewrite Ho. apply bool_decide_eq_false.
      destruct (Hrows OPERATOR_ID o Ho) as [Ha _].
      rewrite bool_decide_eq_true_2 in Ha by done. lia. }
  assert (Hpanel : admin_is_admin caller db = true ↔ caller = OPERATOR_ID).
  { unfold admin_is_admin, get_user. split.
    - intros Hb. apply orb_true_iff in Hb as [Hb|Hb];
        [by apply bool_decide_eq_true in Hb|].
      destruct (users db !! caller) as [u|] eqn:Hu; [|done].
      apply bool_decide_eq_true in Hb.
      destruct (Hrows caller u Hu) as [Ha _].
      case_bool_decide; [done|lia].
    - intros ->. by rewrite bool_decide_eq_true_2. }
  split; [exact Hgate|]. split; [exact Hpanel|].
  intros Hne now payment_id config_id iv awaiting document flag target.
  assert (not_admin (get_user caller db) = true) as Hna.
  { apply not_false_iff_true. by rewrite Hgate. }
  assert (admin_is_admin caller db = false) as Hnp.
  { apply not_true_iff_false. by rewrite Hpanel. }
  unfold approve_payment, reject_payment, handle_upload,
    delete_config_handler, process_expire_user.
  by rewrite Hna, Hnp.
Qed.

(** X15.  In every state the system can reach, each payment carries a
    number below the payment sequence, the amount 200 and one of the
    statuses 'pending', 'approved', 'rejected'; it has a processed date,
    and an admin note, exactly when it is no longer pending.  So the number
    the next payment will take is free. *)
Theorem payments_well_formed s :
  reachable s →
  (∀ payment_id p,
     payments s.1 !! payment_id = Some p →
     0 < payment_id < next_payment_id s.1
     ∧ amount p = 200
     ∧ status p ∈ ["pending"; "approved"; "rejected"]
     ∧ (processed_date p = None ↔ status p = "pending")
     ∧ (admin_note p = None ↔ status p = "pending"))
  ∧ payments s.1 !! next_payment_id s.1 = None.
Proof.
  intros Hs. destruct (state_ok_reachable s Hs) as (_ & [Hn Hrows] & _).
  split; [exact Hrows|].
  destruct (payments s.1 !! next_payment_id s.1) as [p|] eqn:Hp; [|done].
  destruct (Hrows _ p Hp) as (? & _). lia.
Qed.

(** X16.  In every state the system can reach, the download counter of each
    file equals the number of download records that name it, and the
    download counter of each user is at most the number of records that
    name the user (a user row deleted by the sweep and created again
    starts from zero, while the records stay). *)
Theorem download_counters_match_records s :
  reachable s →
  (∀ config_id c,
     configs s.1 !! config_id = Some c →
     config_total_downloads c = download_count config_id (downloads s.1))
  ∧ (∀ user_id u,
       users s.1 !! user_id = Some u →
       0 <= total_downloads u <= user_download_count user_id (downloads s.1)).
Proof.
  intros Hs.
  destruct (state_ok_reachable s Hs) as ([_ Hu] & _ & (_ & _ & Hc)).
  split.
  - intros config_id c H. by destruct (Hc config_id c H) as (_ & _ & _ & ? & _).
  - intros user_id u H. by destruct (Hu user_id u H) as [_ ?].
Qed.

(** X17.  In every state the system can reach, every file row has its
    encrypted file on disk, a storage name that no other row has, an
    expiry, an active flag of 0 or 1, and a number below the file
    sequence. *)
Theorem file_rows_have_blobs s :
  reachable s →
  ∀ config_id c,
    configs s.1 !! config_id = Some c →
    is_Some (s.2 !! ("configs/" +:+ filename c))
    ∧ (∀ k' c', configs s.1 !! k' = Some c' → filename c' = filename c →
                k' = config_id)
    ∧ is_Some (config_expiry_date c)
    ∧ (is_active c = 0 ∨ is_active c = 1)
    ∧ 0 < config_id < next_config_id s.1.
Proof.
  intros Hs config_id c H.
  destruct (state_ok_reachable s Hs) as (_ & _ & (_ & _ & Hc)).
  by destruct (Hc config_id c H) as (? & ? & ? & _ & ? & ?).
Qed.

(** ** From upload to download *)

Lemma encrypt_then_decrypt iv B :
  is_block iv → Forall is_byte B →
  ∃ e, encrypt iv B = Some e ∧ decrypt e = Some B.
Proof using AES_encrypt_block_is_block AES_decrypt_encrypt_block.
  intros Hiv HB.
  destruct (pad_shape B) as (p & Hp & Hpad & n & Hn).
  destruct (cbc_blocks_roundtrip n iv (pad B block_size)) as [Hl Hr];
    [done|by apply pad_is_byte|done|].
  destruct Hiv as [Hivl _].
  exists (iv ++ cbc_encrypt_blocks n iv (pad B block_size)). split.
  - unfold encrypt, cbc_encrypt.
    rewrite bool_decide_eq_false_2 by (by intros []).
    rewrite bool_decide_eq_false_2
      by (intros H; apply H; rewrite Hn; apply Nat.Div0.mod_mul).
    by rewrite Hn, Nat.div_mul.
  - unfold decrypt.
    rewrite take_app_length', drop_app_length' by done.
    unfold cbc_decrypt.
    rewrite bool_decide_eq_false_2 by (by intros []).
    rewrite bool_decide_eq_false_2
      by (intros H; apply H; rewrite Hl; apply Nat.Div0.mod_mul).
    rewrite Hl, Nat.div_mul by done. cbn [mbind option_bind]. rewrite Hr.
    apply unpad_pad.
Qed.

(** X18.  When an administrator who has chosen a category uploads a file
    with a valid extension, and the generated storage name is not taken,
    [handle_upload] registers it under the next file number as an active
    file of that category with the original name, the size of the content
    and an expiry 30 days ahead; the disk then holds a file that decrypts
    to the uploaded bytes, and the temporary copy is gone.  A subscriber
    who passes the checks is then sent that file, and what is decrypted for
    the subscriber is the uploaded content, byte for byte. *)
Theorem handle_upload_then_download now iv user_id cat fname content db fs :
  is_block iv → Forall is_byte content →
  not_admin (get_user user_id db) = false →
  is_valid_config_extension fname = true →
  datetime_valid (now + timedelta_days 30) →
  0 < next_config_id db →
  (∀ k c, configs db !! k = Some c →
          filename c ≠ generate_filename now fname user_id) →
  let out := handle_upload now iv user_id (Some cat) (Some (fname, content)) db fs in
  let config_id := next_config_id db in
  let stored := generate_filename now fname user_id in
  out.1.1 = (ConfigUploaded config_id, None)
  ∧ configs out.1.2 !! config_id
    = Some (mk_config stored cat fname (Z.of_nat (length content)) now
              (Some (now + timedelta_days 30)) 0 1)
  ∧ out.2 !! ("configs/" +:+ stored) ≫= decrypt = Some content
  ∧ out.2 !! ("temp/" +:+ pretty (unix_timestamp now) +:+ "_" +:+ fname) = None
  ∧ ∀ t member_id u,
      users db !! member_id = Some u →
      payment_status u = "approved" →
      subscription_expired t u = false →
      (download_config t true true member_id config_id out.1.2 out.2).1.1
      = ConfigDownloaded
      ∧ (download_config t true false member_id config_id out.1.2 out.2).2
          !! ("temp/" +:+ pretty (unix_timestamp t) +:+ "_" +:+ fname)
        = Some content.
Proof using AES_encrypt_block_is_block AES_decrypt_encrypt_block.
  intros Hiv Hbytes Ha Hvalid Hdate Hnext Hfree out config_id stored.
  destruct (encrypt_then_decrypt iv content Hiv Hbytes) as (e & Henc & Hdec).
  set (temp := "temp/" +:+ pretty (unix_timestamp now) +:+ "_" +:+ fname).
  assert (Hout : out
    = (ConfigUploaded config_id, None,
       (add_config now stored fname cat (Z.of_nat (length content)) 30 db).2,
       delete temp (<["configs/" +:+ stored := e]> (<[temp := content]> fs)))
    ∧ (add_config now stored fname cat (Z.of_nat (length content)) 30 db).2
      = mk_db (users db)
          (<[config_id := mk_config stored cat fname (Z.of_nat (length content))
                            now (Some (now + timedelta_days 30)) 0 1]>
             (configs db))
          (payments db) (downloads db) (config_id + 1) (next_payment_id db)).
  { subst out config_id stored temp.
    unfold handle_upload. rewrite Ha, Hvalid. simpl.
    unfold encrypt_file. rewrite lookup_insert_eq, Henc.
    unfold add_config. rewrite (datetime_add_Some _ _ Hdate).
    rewrite bool_decide_eq_false_2.
    - simpl. by rewrite bool_decide_eq_true_2 by lia.
    - intros Hex. apply Exists_exists in Hex as ([k c] & Hin & Hf).
      apply elem_of_map_to_list in Hin. by apply (Hfree k c). }
  destruct Hout as [-> Hdb]. simpl. rewrite Hdb. simpl.
  assert (Hblob : delete temp (<["configs/" +:+ stored := e]> (<[temp := content]> fs))
                    !! ("configs/" +:+ stored) = Some e).
  { rewrite lookup_delete_ne by done. apply lookup_insert_eq. }
  split; [done|]. split; [apply lookup_insert_eq|].
  split; [by rewrite Hblob|]. split; [apply lookup_delete_eq|].
  intros t member_id u Hu Hs He.
  unfold download_config, get_user, get_config. simpl.
  rewrite Hu, lookup_insert_eq. simpl.
  rewrite bool_decide_eq_false_2 by (by intros []). rewrite He.
  rewrite ?bool_decide_eq_false_2 by done.
  unfold decrypt_file. rewrite Hblob, Hdec. simpl.
  split; [done|]. apply lookup_insert_eq.
Qed.

(** X19.  When an administrator deletes a file, the row and the encrypted
    file are removed, the download records stay, and the other file rows
    are as before; from then on every request for that file is refused,
    and no request for it is answered with a download. *)
Theorem delete_config_removes_file caller config_id db fs c :
  not_admin (get_user caller db) = false →
  configs db !! config_id = Some c →
  let out := delete_config_handler caller config_id db fs in
  configs out.1 !! config_id = None
  ∧ out.2 !! ("configs/" +:+ filename c) = None
  ∧ downloads out.1 = downloads db
  ∧ users out.1 = users db
  ∧ (∀ k, k ≠ config_id → configs out.1 !! k = configs db !! k)
  ∧ ∀ t member send_ok user_id,
      (download_config t member send_ok user_id config_id out.1 out.2).1.1
        ∈ [UserNotFound; JoinChannelFirst; PaymentRequired;
           SubscriptionExpired; ConfigNotFoundOrExpired].
Proof.
  intros Ha Hc out. unfold out, delete_config_handler, get_config.
  rewrite Ha, Hc. simpl.
  split; [apply lookup_delete_eq|]. split; [apply lookup_delete_eq|].
  split; [done|]. split; [done|].
  split; [intros k Hk; by apply lookup_delete_ne|].
  intros t member send_ok user_id.
  unfold download_config, get_user, get_config. simpl.
  rewrite !elem_of_cons.
  destruct (users db !! user_id) as [u|]; [|pick_disjunct].
  destruct member; simpl; [|pick_disjunct].
  case_bool_decide; [pick_disjunct|].
  destruct (subscription_expired t u); [pick_disjunct|].
  rewrite lookup_delete_eq. pick_disjunct.
Qed.

(** ** The catalogue *)

#[local] Instance upload_date_ge_total : Total upload_date_ge.
Proof. intros a b. unfold upload_date_ge. lia. Qed.

#[local] Instance upload_date_ge_trans : Transitive upload_date_ge.
Proof. intros a b c. unfold upload_date_ge. lia. Qed.

(** X20.  [get_configs_by_category] lists exactly the active files of the
    category, and [get_all_configs] exactly the active files, each once,
    newest upload first.  A listed file is never refused as missing or
    expired to a user who passes the checks, and after a sweep no listed
    file has an expiry before the time of the sweep. *)
Theorem catalogue_lists_active_files cat db :
  StronglySorted upload_date_ge (get_configs_by_category cat db)
  ∧ NoDup (get_configs_by_category cat db).*1
  ∧ (∀ k c, (k, c) ∈ get_configs_by_category cat db ↔
            configs db !! k = Some c ∧ category c = cat ∧ is_active c = 1)
  ∧ StronglySorted upload_date_ge (get_all_configs db)
  ∧ NoDup (get_all_configs db).*1
  ∧ (∀ k c, (k, c) ∈ get_all_configs db ↔
            configs db !! k = Some c ∧ is_active c = 1)
  ∧ (∀ k c now send_ok user_id u fs,
       (k, c) ∈ get_all_configs db →
       users db !! user_id = Some u →
       payment_status u = "approved" →
       subscription_expired now u = false →
       (download_config now true send_ok user_id k db fs).1.1
         ∈ [ConfigDownloaded; ErrorDownloading; ErrorDecrypting])
  ∧ (∀ now k c e,
       (k, c) ∈ get_all_configs (job_cleanup now db) →
       config_expiry_date c = Some e → now <= e).
Proof.
  assert (Hall : ∀ db0 k c, (k, c) ∈ get_all_configs db0 ↔
                   configs db0 !! k = Some c ∧ is_active c = 1).
  { intros db0 k c. unfold get_all_configs.
    by rewrite merge_sort_Permutation, elem_of_map_to_list,
      map_lookup_filter_Some. }
  split; [apply StronglySorted_merge_sort; apply _|].
  split; [unfold get_configs_by_category; rewrite merge_sort_Permutation;
          apply NoDup_fst_map_to_list|].
  split.
  { intros k c. unfold get_configs_by_category.
    rewrite merge_sort_Permutation, elem_of_map_to_list,
      map_lookup_filter_Some. simpl. split.
    - by intros (? & ? & ?).
    - by intros (? & ? & ?). }
  split; [apply StronglySorted_merge_sort; apply _|].
  split; [unfold get_all_configs; rewrite merge_sort_Permutation;
          apply NoDup_fst_map_to_list|].
  split; [apply Hall|]. split.
  - intros k c now send_ok user_id u fs [Hc Ha]%Hall Hu Hs He.
    unfold download_config, get_user, get_config. rewrite Hu. simpl.
    rewrite bool_decide_eq_false_2 by (by intros []). rewrite He, Hc.
    rewrite bool_decide_eq_false_2 by lia.
    rewrite !elem_of_cons.
    destruct (decrypt_file _ _ _) as [[] fs1]; [destruct send_ok|]; simpl;
      pick_disjunct.
  - intros now k c e [Hc Ha]%Hall He. unfold job_cleanup in Hc. simpl in Hc.
    rewrite lookup_fmap in Hc.
    destruct (configs db !! k) as [c0|]; [|done].
    injection Hc as <-.
    destruct (expired_config_row now c0) eqn:Hex; [done|].
    unfold expired_config_row in Hex. rewrite He in Hex.
    rewrite (bool_decide_eq_true_2 (is_active c0 = 1)) in Hex by done.
    rewrite andb_true_r in Hex. apply bool_decide_eq_false in Hex. lia.
Qed.

(** ** Browsing and downloading ask the same of the user *)

(** X21.  [show_category_selection] and [download_config] apply the same
    four checks in the same order: whenever the one refuses, the other
    refuses for the same reason, and the category keyboard is shown exactly
    when a download would go on to look for the file. *)
Theorem category_selection_matches_download now member send_ok user_id config_id db fs :
  let r := (download_config now member send_ok user_id config_id db fs).1.1 in
  match show_category_selection now member user_id db with
  | CategoryUserNotFound => r = UserNotFound
  | CategoryJoinChannelFirst => r = JoinChannelFirst
  | CategoryPaymentRequired => r = PaymentRequired
  | CategorySubscriptionExpired => r = SubscriptionExpired
  | CategoryKeyboard =>
      r ∈ [ConfigNotFoundOrExpired; ConfigDownloaded; ErrorDownloading;
           ErrorDecrypting]
  end.
Proof.
  unfold show_category_selection, download_config, subscription_expired, get_user.
  destruct (users db !! user_id) as [u|]; [|done].
  destruct member; simpl; [|done].
  case_bool_decide; [done|].
  assert (Hfile :
    (match get_config config_id db with
     | Some c =>
         if bool_decide (is_active c = 0) then (ConfigNotFoundOrExpired, db, fs)
         else
           match decrypt_file ("configs/" +:+ filename c)
                   ("temp/" +:+ pretty (unix_timestamp now) +:+ "_"
                      +:+ original_filename c) fs with
           | (true, fs1) =>
               if send_ok
               then (ConfigDownloaded,
                     increment_downloads user_id
                       (record_download now user_id config_id db),
                     delete ("temp/" +:+ pretty (unix_timestamp now) +:+ "_"
                               +:+ original_filename c) fs1)
               else (ErrorDownloading, db, fs1)
           | (false, fs1) => (ErrorDecrypting, db, fs1)
           end
     | None => (ConfigNotFoundOrExpired, db, fs)
     end).1.1 ∈ [ConfigNotFoundOrExpired; ConfigDownloaded; ErrorDownloading;
                 ErrorDecrypting]).
  { rewrite !elem_of_cons.
    destruct (get_config config_id db) as [c|]; [|pick_disjunct].
    case_bool_decide; [pick_disjunct|].
    destruct (decrypt_file _ _ _) as [[] fs1]; [destruct send_ok|]; simpl;
      pick_disjunct. }
  destruct (expiry_date u) as [e|]; [|exact Hfile].
  case_bool_decide; [done|exact Hfile].
Qed.

(** ** Broadcast *)

Lemma size_filter_map_to_list {A} (P : Z * A → Prop) `{!∀ x, Decision (P x)}
    (m : gmap Z A) :
  size (filter P m) = length (filter P (map_to_list m)).
Proof.
  rewrite map_filter_alt, map_size_list_to_map; [done|].
  apply (sublist_NoDup _ (map_to_list m).*1);
    [apply NoDup_fst_map_to_list|apply fmap_sublist, sublist_filter].
Qed.

Lemma broadcast_loop_counts delivers recipients successful failed :
  broadcast_loop delivers recipients successful failed
  = (successful
     + Z.of_nat (length (filter (fun kv : Z * user => delivers kv.1 = true) recipients)),
     failed
     + Z.of_nat (length (filter (fun kv : Z * user => delivers kv.1 = false) recipients))).
Proof.
  revert successful failed.
  induction recipients as [|[k u] rest IH]; intros successful failed; simpl.
  - f_equal; lia.
  - rewrite !filter_cons. simpl. destruct (delivers k) eqn:Hd; rewrite IH.
    + rewrite decide_True by done. rewrite decide_False by done.
      simpl. f_equal; lia.
    + rewrite decide_False by done. rewrite decide_True by done.
      simpl. f_equal; lia.
Qed.

(** X22.  A broadcast by an administrator attempts every user once: the
    report counts as successful the users the message reached and as failed
    the others, a failed send stopping nothing, the two counts add up to the
    number of users, and the conversation flag is cleared. *)
Theorem process_broadcast_counts caller delivers db :
  admin_is_admin caller db = true →
  ∃ successful failed,
    process_broadcast caller true delivers db
    = (Some (successful, failed, Z.of_nat (size (users db))), false)
    ∧ successful
      = Z.of_nat (size (filter (fun kv => delivers kv.1 = true) (users db)))
    ∧ failed
      = Z.of_nat (size (filter (fun kv => delivers kv.1 = false) (users db)))
    ∧ successful + failed = Z.of_nat (size (users db)).
Proof.
  intros Ha. unfold process_broadcast. rewrite Ha. simpl.
  rewrite broadcast_loop_counts. unfold get_all_users.
  assert (Hcnt : ∀ (P : Z * user → Prop) `{!∀ x, Decision (P x)},
            length (filter P (merge_sort join_date_ge (map_to_list (users db))))
            = size (filter P (users db))).
  { intros P HP. by rewrite merge_sort_Permutation, size_filter_map_to_list. }
  assert (Hlen : length (merge_sort join_date_ge (map_to_list (users db)))
                 = size (users db)).
  { by rewrite merge_sort_Permutation, length_map_to_list. }
  rewrite !Hcnt, Hlen, !Z.add_0_l.
  eexists _, _. split; [done|]. split; [done|]. split; [done|].
  rewrite <- Nat2Z.inj_add. f_equal.
  rewrite <- (map_filter_union_complement
                (fun kv : Z * user => delivers kv.1 = true) (users db)) at 3.
  rewrite map_size_disj_union by apply map_disjoint_filter_complement.
  f_equal. f_equal. apply map_filter_ext. intros k u _. simpl.
  symmetry. apply not_true_iff_false.
Qed.

(** ** Time left, the status page and the listings *)

Ltac string_differs H :=
  revert H;
  repeat (match goal with
          | |- String.append ?s _ = _ → _ => destruct s; simpl
          end;
          [discriminate|];
          let H1 := fresh in
          let H2 := fresh in
          intros H1; injection H1 as _ H2; revert H2; try clear H1);
  try match goal with
      | |- String.append ?s _ = _ → _ => destruct s
      end;
  discriminate.

Lemma format_timedelta_not_Expired delta :
  format_timedelta delta ≠ "Expired".
Proof.
  unfold format_timedelta. intros H.
  repeat case_bool_decide; string_differs H.
Qed.

Lemma format_timedelta_not_Never delta :
  format_timedelta delta ≠ "Never".
Proof.
  unfold format_timedelta. intros H.
  repeat case_bool_decide; string_differs H.
Qed.

(** The label "Expired" stands for an expiry that is missing or past. *)
Lemma get_time_until_expiry_Expired now e :
  get_time_until_expiry now e = "Expired" ↔
  match e with Some expiry => expiry < now | None => True end.
Proof.
  unfold get_time_until_expiry. destruct e as [expiry|]; [|done].
  case_bool_decide; [done|]. split; [|done].
  intros Hs. by apply format_timedelta_not_Expired in Hs.
Qed.

Lemma format_date_not_Expired d : format_date d ≠ "Expired".
Proof.
  destruct d as [t|]; [|discriminate].
  unfold format_date, strftime_dmy_hm.
  destruct (civil_from_days _) as [[year month] day].
  unfold two_digits. simpl. discriminate.
Qed.

(** X23.  The time left that [get_time_until_expiry] shows for an expiry
    that is not past is rounded down to whole days, or to whole hours below
    a day, or to whole minutes below an hour; so "1 day" stands for
    anything from 24 hours to just under 48, and the last minute is shown as
    "0 minutes". *)
Theorem get_time_until_expiry_rounds_down now expiry :
  now <= expiry →
  let left := expiry - now in
  let shown := get_time_until_expiry now (Some expiry) in
  ∃ n,
    (shown = pretty n +:+ " day" +:+ plural_s n
     ∧ 1 <= n ∧ n * MICROS_PER_DAY <= left < (n + 1) * MICROS_PER_DAY)
    ∨ (shown = pretty n +:+ " hour" +:+ plural_s n
       ∧ 1 <= n < 24
       ∧ n * (3600 * 1000000) <= left < (n + 1) * (3600 * 1000000))
    ∨ (shown = pretty n +:+ " minute" +:+ plural_s n
       ∧ 0 <= n < 60
       ∧ n * (60 * 1000000) <= left < (n + 1) * (60 * 1000000)).
Proof.
  intros Hle left shown. subst shown.
  unfold get_time_until_expiry. rewrite bool_decide_eq_false_2 by lia.
  fold left. assert (0 <= left) as Hleft by (unfold left; lia).
  clearbody left. clear Hle.
  unfold format_timedelta, delta_days, delta_seconds, MICROS_PER_DAY.
  case_bool_decide as Hd.
  { eexists. left. split; [reflexivity|].
    Z.to_euclidean_division_equations. lia. }
  case_bool_decide as Hh.
  { eexists. right. left. split; [reflexivity|].
    Z.to_euclidean_division_equations. lia. }
  eexists. right. right. split; [reflexivity|].
  Z.to_euclidean_division_equations. lia.
Qed.

(** X24.  The status page of a user who has a row: the advice "Renew your
    subscription" is never given, because the test for it compares the
    formatted expiry date with the word "Expired"; a channel member whose
    payment status is approved is told "Ready to download configs!" whether
    or not the subscription has run out, and when it has, the page shows
    "Expired" beside that advice and [download_config] refuses the same
    user.  An approved user without expiry date is shown "Pending". *)
Theorem show_user_status_advice now member user_id db u :
  users db !! user_id = Some u →
  ∃ page,
    show_user_status now member user_id db = Some page
    ∧ page_action page ≠ ActionRenew
    ∧ (page_action page = ActionReady ↔
       member = true ∧ payment_status u = "approved")
    ∧ (page_subscription page = LineExpired ↔
       payment_status u = "approved" ∧ subscription_expired now u = true)
    ∧ (page_subscription page = LinePending ↔
       payment_status u = "approved" ∧ expiry_date u = None)
    ∧ (page_action page = ActionReady →
       page_subscription page = LineExpired →
       ∀ send_ok config_id fs,
         (download_config now member send_ok user_id config_id db fs).1.1
         = SubscriptionExpired).
Proof.
  intros Hu. unfold show_user_status, get_user. rewrite Hu.
  eexists. split; [reflexivity|]. cbn [page_action page_subscription].
  rewrite (bool_decide_eq_false_2 (format_date _ = "Expired"))
    by apply format_date_not_Expired.
  assert (Hsub :
    (if bool_decide (payment_status u = "approved")
     then match expiry_date u with
          | Some expiry =>
              if bool_decide
                   (get_time_until_expiry now (Some expiry) = "Expired")
              then LineExpired
              else LineActive (get_time_until_expiry now (Some expiry))
          | None => LinePending
          end
     else if bool_decide (payment_status u = "pending")
          then LinePaymentPending else LineNoSubscription) = LineExpired ↔
    payment_status u = "approved" ∧ subscription_expired now u = true).
  { unfold subscription_expired.
    case_bool_decide as Hs.
    - destruct (expiry_date u) as [expiry|].
      + rewrite (bool_decide_ext _ (expiry < now))
          by apply (get_time_until_expiry_Expired now (Some expiry)).
        case_bool_decide; split; try done. by intros [_ ?].
      + split; [done|]. by intros [_ ?].
    - case_bool_decide; (split; [done|]); by intros [? _]. }
  split; [|split; [|split; [|split]]].
  - clear Hsub. destruct member; cbn [negb]; [|done]. by case_bool_decide.
  - clear Hsub. destruct member; cbn [negb].
    + case_bool_decide; split; try done. by intros [_ ?].
    + split; [done|]. by intros [? _].
  - exact Hsub.
  - clear Hsub. case_bool_decide as Hs.
    + destruct (expiry_date u) as [expiry|].
      * case_bool_decide; split; try done; by intros [_ ?].
      * done.
    + case_bool_decide; (split; [done|]); by intros [? _].
  - intros Hready [Hs He]%Hsub send_ok config_id fs.
    destruct member; [|done].
    unfold download_config, get_user. rewrite Hu. simpl.
    rewrite bool_decide_eq_false_2 by (by intros []). by rewrite He.
Qed.

(** *** Pages *)

Lemma slice_page {A : Type} (items : list A) (page per_page : Z) :
  0 <= page → 0 < per_page →
  slice items (page * per_page) (page * per_page + per_page)
  = take (Z.to_nat per_page) (drop (Z.to_nat (page * per_page)) items).
Proof.
  intros Hpage Hper. unfold slice, slice_bound.
  assert (0 <= page * per_page) as Hs by nia.
  set (s := page * per_page) in *. clearbody s.
  rewrite !bool_decide_eq_false_2 by lia.
  destruct (decide (s <= Z.of_nat (length items))) as [Hin|Hout].
  - rewrite (Z.min_l s) by lia.
    destruct (decide (s + per_page <= Z.of_nat (length items))) as [Hin'|Hout'].
    + rewrite Z.min_l by lia. f_equal. lia.
    + rewrite Z.min_r by lia.
      rewrite !take_ge; [done| |]; rewrite length_drop; lia.
  - rewrite !Z.min_r by lia. rewrite Nat2Z.id, Nat.sub_diag.
    rewrite (drop_ge items (Z.to_nat s)) by lia. by rewrite take_nil.
Qed.

Lemma slice_page_lookup {A : Type} (items : list A) (page per_page : Z) (i : nat) :
  0 <= page → 0 < per_page →
  slice items (page * per_page) (page * per_page + per_page) !! i
  = if decide (Z.of_nat i < per_page)
    then items !! (Z.to_nat (page * per_page) + i)%nat
    else None.
Proof.
  intros Hpage Hper. rewrite slice_page by done.
  destruct (decide (Z.of_nat i < per_page)).
  - rewrite lookup_take_lt by lia. apply lookup_drop.
  - apply lookup_take_ge. lia.
Qed.

Lemma slice_page_nil {A : Type} (items : list A) (page per_page : Z) :
  0 <= page → 0 < per_page →
  slice items (page * per_page) (page * per_page + per_page) = []
  ↔ Z.of_nat (length items) <= page * per_page.
Proof.
  intros Hpage Hper. rewrite slice_page by done.
  assert (0 <= page * per_page) as Hs by nia.
  set (s := page * per_page) in *. clearbody s.
  rewrite <-length_zero_iff_nil, length_take, length_drop. lia.
Qed.

Lemma pages_count (len page per_page : Z) :
  0 < per_page →
  page < (len + per_page - 1) `div` per_page ↔ page * per_page < len.
Proof.
  intros Hper. split.
  - intros Hlt.
    assert (per_page * (page + 1) <= len + per_page - 1); [|lia].
    etrans; [|apply (Z.mul_div_le _ per_page); lia].
    apply Z.mul_le_mono_nonneg_l; lia.
  - intros Hlt.
    assert (page + 1 <= (len + per_page - 1) `div` per_page); [|lia].
    apply Z.div_le_lower_bound; lia.
Qed.

Lemma paginate_facts {A B : Type} (line : Z → A → B) (items : list A)
    (page per_page : Z) :
  0 <= page → 0 < per_page →
  let v := paginate line items page per_page in
  view_total v = Z.of_nat (length items)
  ∧ view_page v = page + 1
  ∧ (∀ i : nat,
       view_items v !! i
       = if decide (Z.of_nat i < per_page)
         then line (page * per_page + 1 + Z.of_nat i)
                <$> items !! (Z.to_nat (page * per_page) + i)%nat
         else None)
  ∧ (view_items v ≠ [] ↔ page < view_pages v)
  ∧ (view_next v = Some (page + 1) ↔ page + 1 < view_pages v)
  ∧ (view_next v = None ↔ view_pages v <= page + 1)
  ∧ (view_prev v = Some (page - 1) ↔ 0 < page)
  ∧ (view_prev v = None ↔ page = 0).
Proof.
  intros Hpage Hper v. unfold v, paginate.
  cbn [view_total view_page view_items view_pages view_next view_prev].
  split; [done|]. split; [done|]. split; [|split; [|split; [|split; [|split]]]].
  - intros i. rewrite list_lookup_imap, slice_page_lookup by done.
    by destruct (decide (Z.of_nat i < per_page)).
  - rewrite pages_count by done.
    pose proof (slice_page_nil items page per_page Hpage Hper) as Hnil.
    split.
    + intros Hne.
      destruct (decide (page * per_page < Z.of_nat (length items))); [done|].
      exfalso. apply Hne. by rewrite (proj2 Hnil) by lia.
    + intros Hlt Himap.
      apply (f_equal length) in Himap. rewrite length_imap in Himap.
      apply length_zero_iff_nil, Hnil in Himap. lia.
  - rewrite pages_count by done. case_bool_decide; split; try done; lia.
  - pose proof (pages_count (Z.of_nat (length items)) (page + 1) per_page Hper).
    case_bool_decide; split; try done; lia.
  - case_bool_decide; split; try done; lia.
  - case_bool_decide; split; try done; lia.
Qed.

(** X25.  The pages of [list_pending_payments], for an administrator: the
    pending payment at place k of the queue (from 0) is line k mod 5 of
    page k div 5, a page has no other lines, the number of pages printed is
    the number of pages that have lines, and "Next" is offered exactly when
    the next page has lines.  A page number kept from an earlier, longer
    queue can therefore show an empty page although payments are pending. *)
Theorem list_pending_payments_pages caller db :
  not_admin (get_user caller db) = false →
  let pending := get_pending_payments db in
  (pending = [] → ∀ page, list_pending_payments caller page db = ListingEmpty)
  ∧ (∀ (k : nat) row,
       pending !! k = Some row →
       ∃ v, list_pending_payments caller (Z.of_nat (k / 5)) db = ListingPage v
            ∧ view_items v !! (k mod 5)%nat = Some (payment_line_of db row))
  ∧ ∀ page,
      0 <= page → pending ≠ [] →
      ∃ v, list_pending_payments caller page db = ListingPage v
           ∧ view_total v = Z.of_nat (length pending)
           ∧ (∀ (i : nat) line,
                view_items v !! i = Some line →
                (i < 5)%nat
                ∧ ∃ row, pending !! (5 * Z.to_nat page + i)%nat = Some row
                         ∧ line = payment_line_of db row)
           ∧ (view_items v ≠ [] ↔ page < view_pages v)
           ∧ (view_next v = Some (page + 1) ↔ page + 1 < view_pages v)
           ∧ (view_next v = None ↔ view_pages v <= page + 1).
Proof.
  intros Ha pending.
  assert (Hpage : ∀ page, pending ≠ [] →
            list_pending_payments caller page db
            = ListingPage (paginate (fun _ => payment_line_of db) pending page 5)).
  { intros page Hne. unfold list_pending_payments. rewrite Ha. fold pending.
    by destruct pending. }
  split; [|split].
  - intros Hnil page. unfold list_pending_payments. rewrite Ha. fold pending.
    by rewrite Hnil.
  - intros k row Hk.
    assert (pending ≠ []) as Hne by (intros Hnil; by rewrite Hnil in Hk).
    eexists. split; [by apply Hpage|].
    destruct (paginate_facts (fun _ => payment_line_of db) pending
                (Z.of_nat (k / 5)) 5) as (_ & _ & Hi & _); [lia|lia|].
    rewrite Hi. pose proof (Nat.mod_upper_bound k 5).
    rewrite decide_True by lia.
    replace (Z.to_nat (Z.of_nat (k / 5) * 5) + k mod 5)%nat with k
      by (pose proof (Nat.div_mod_eq k 5); lia).
    by rewrite Hk.
  - intros page Hp Hne. eexists. split; [by apply Hpage|].
    destruct (paginate_facts (fun _ => payment_line_of db) pending page 5)
      as (Ht & _ & Hi & Hitems & Hnext & Hnone & _); [lia|lia|].
    split; [done|]. split; [|done].
    intros i line Hline. rewrite Hi in Hline.
    destruct (decide (Z.of_nat i < 5)); [|done].
    split; [lia|].
    replace (5 * Z.to_nat page + i)%nat with (Z.to_nat (page * 5) + i)%nat by lia.
    destruct (pending !! _) as [row|]; [|done].
    exists row. split; [done|]. by injection Hline as <-.
Qed.

(** X26.  The lines of [list_users], for an administrator: line i of page
    p is the user at place 10 p + i of the list, newest first, numbered from
    1; the badge is green exactly when the payment status is approved and
    the expiry date is not past, which is exactly when [download_config]
    refuses a channel member neither for payment nor for expiry; and the
    expiry column reads "Never" exactly when no expiry date is stored. *)
Theorem list_users_lines now caller page db :
  admin_is_admin caller db = true →
  0 <= page →
  ∃ v, list_users now caller page db = ListingPage v
       ∧ view_total v = Z.of_nat (size (users db))
       ∧ ∀ (i : nat) line,
           view_items v !! i = Some line →
           (i < 10)%nat
           ∧ line_number line = 10 * page + Z.of_nat i + 1
           ∧ ∃ u,
               get_all_users db !! (10 * Z.to_nat page + i)%nat
               = Some (line_user_id line, u)
               ∧ users db !! line_user_id line = Some u
               ∧ line_status line = payment_status u
               ∧ line_downloads line = total_downloads u
               ∧ (line_badge line = BadgeGreen ↔
                  payment_status u = "approved"
                  ∧ subscription_expired now u = false)
               ∧ (line_badge line = BadgeGreen ↔
                  ∀ send_ok config_id fs,
                    let r := (download_config now true send_ok
                                (line_user_id line) config_id db fs).1.1 in
                    r ≠ PaymentRequired ∧ r ≠ SubscriptionExpired)
               ∧ (line_expires line = "Never" ↔ expiry_date u = None).
Proof.
  intros Ha Hp. unfold list_users. rewrite Ha. cbn [negb].
  eexists. split; [reflexivity|].
  destruct (paginate_facts (user_line_of now) (get_all_users db) page 10)
    as (Ht & _ & Hi & _); [lia|lia|].
  split.
  { rewrite Ht. unfold get_all_users.
    by rewrite merge_sort_Permutation, length_map_to_list. }
  intros i line Hline. rewrite Hi in Hline.
  destruct (decide (Z.of_nat i < 10)); [|done].
  split; [lia|].
  replace (10 * Z.to_nat page + i)%nat with (Z.to_nat (page * 10) + i)%nat by lia.
  destruct (get_all_users db !! _) as [[user_id u]|] eqn:Hrow; [|done].
  assert (line = user_line_of now (page * 10 + 1 + Z.of_nat i) (user_id, u))
    as -> by (by injection Hline).
  clear Hline.
  assert (users db !! user_id = Some u) as Hu.
  { apply list_elem_of_lookup_2 in Hrow. unfold get_all_users in Hrow.
    rewrite merge_sort_Permutation in Hrow.
    by apply elem_of_map_to_list in Hrow. }
  assert (Hbadge :
    line_badge (user_line_of now (page * 10 + 1 + Z.of_nat i) (user_id, u))
      = BadgeGreen ↔
    payment_status u = "approved" ∧ subscription_expired now u = false).
  { unfold user_line_of, subscription_expired.
    destruct (expiry_date u) as [expiry|]; cbn [line_badge].
    - rewrite (bool_decide_ext _ (expiry < now))
        by apply (get_time_until_expiry_Expired now (Some expiry)).
      case_bool_decide as He.
      + split; [done|]. by intros [_ ?].
      + case_bool_decide; [done|].
        case_bool_decide; (split; [done|]); by intros [? _].
    - case_bool_decide; [done|].
      case_bool_decide; (split; [done|]); by intros [? _]. }
  assert (Hfields :
    ∀ n, line_user_id (user_line_of now n (user_id, u)) = user_id
         ∧ line_number (user_line_of now n (user_id, u)) = n
         ∧ line_status (user_line_of now n (user_id, u)) = payment_status u
         ∧ line_downloads (user_line_of now n (user_id, u)) = total_downloads u).
  { intros n. unfold user_line_of. by destruct (expiry_date u). }
  destruct (Hfields (page * 10 + 1 + Z.of_nat i)) as (Hid & Hn & Hst & Hdl).
  rewrite Hid, Hn, Hst, Hdl.
  split; [lia|]. exists u.
  split; [done|]. split; [done|]. split; [done|]. split; [done|].
  split; [exact Hbadge|]. split.
  - rewrite Hbadge. split.
    + intros Hok send_ok config_id fs.
      by apply (download_subscription_reply now send_ok user_id config_id db fs u Hu).
    + intros Hok.
      apply (download_subscription_reply now true user_id 0 db ∅ u Hu), Hok.
  - unfold user_line_of.
    destruct (expiry_date u) as [expiry|]; cbn [line_expires]; [|done].
    split; [|done]. unfold get_time_until_expiry.
    case_bool_decide; [discriminate|].
    intros Hn'. by apply format_timedelta_not_Never in Hn'.
Qed.

(** *** The catalogue of a category *)

Lemma length_append (s t : string) :
  String.length (s +:+ t) = (String.length s + String.length t)%nat.
Proof. induction s as [|c s IH]; simpl; [done|]. by rewrite IH. Qed.

Lemma length_substring_0 (n : nat) (s : string) :
  (String.length (String.substring 0 n s) ≤ n)%nat.
Proof.
  revert s. induction n as [|n IH]; intros [|c s]; simpl; try lia.
  specialize (IH s). lia.
Qed.

Lemma shorten_length (limit keep : nat) (name : string) :
  (keep + 3 ≤ limit)%nat →
  (String.length (shorten limit keep name) ≤ limit)%nat.
Proof.
  intros Hk. unfold shorten. case_bool_decide; [|lia].
  rewrite length_append. pose proof (length_substring_0 keep name).
  simpl. lia.
Qed.

Lemma get_configs_by_category_elem cat db k c :
  (k, c) ∈ get_configs_by_category cat db ↔
  configs db !! k = Some c ∧ category c = cat ∧ is_active c = 1.
Proof.
  unfold get_configs_by_category.
  rewrite merge_sort_Permutation, elem_of_map_to_list,
    map_lookup_filter_Some. simpl. split.
  - by intros (? & ? & ?).
  - by intros (? & ? & ?).
Qed.

(** X27.  [list_configs] builds the first page only: it offers the ten
    most recently uploaded active files of the category, or all of them if
    there are fewer, under file names cut to at most 30 characters; with
    more than ten files it prints the full total and a "Next" button, and a
    file that is not offered is no newer than those that are. *)
Theorem list_configs_first_page cat db :
  let listed := get_configs_by_category cat db in
  match list_configs cat db with
  | None => listed = []
  | Some (total, current_page, keyboard) =>
      total = Z.of_nat (length listed)
      ∧ 0 < total
      ∧ current_page = 1
      ∧ button_config_id <$> keyboard_buttons keyboard = take 10 listed.*1
      ∧ keyboard_previous keyboard = None
      ∧ (keyboard_next keyboard = Some 1 ↔ 10 < total)
      ∧ (keyboard_next keyboard = None ↔ total <= 10)
      ∧ (∀ b, b ∈ keyboard_buttons keyboard →
           (String.length (button_label b) ≤ 30)%nat
           ∧ ∃ c, configs db !! button_config_id b = Some c
                  ∧ category c = cat ∧ is_active c = 1
                  ∧ button_label b = shorten 30 27 (original_filename c))
      ∧ (∀ k c,
           configs db !! k = Some c → category c = cat → is_active c = 1 →
           k ∉ button_config_id <$> keyboard_buttons keyboard →
           10 < total
           ∧ ∀ b c', b ∈ keyboard_buttons keyboard →
                     configs db !! button_config_id b = Some c' →
                     upload_date c <= upload_date c')
  end.
Proof.
  intros listed. unfold list_configs. fold listed.
  destruct listed as [|row rest] eqn:Hl; [done|]. rewrite <-Hl.
  assert (listed ≠ []) as Hne by (by rewrite Hl).
  assert (0 < length listed)%nat as Hlen by (rewrite Hl; simpl; lia).
  unfold create_configs_keyboard.
  pose proof (slice_page listed 0 10 ltac:(lia) ltac:(lia)) as Hslice.
  change (Z.to_nat (0 * 10)) with 0%nat in Hslice.
  change (Z.to_nat 10) with 10%nat in Hslice.
  rewrite drop_0 in Hslice. rewrite Hslice.
  assert (take 10 listed ≠ []) as Hpage.
  { rewrite Hl. by simpl. }
  destruct (take 10 listed) as [|row' rest'] eqn:Htake; [done|].
  rewrite <-Htake. clear Hpage.
  cbn [keyboard_buttons keyboard_previous keyboard_next].
  assert (Hsorted : StronglySorted upload_date_ge listed).
  { apply StronglySorted_merge_sort; apply _. }
  assert (Hnodup : NoDup listed.*1).
  { unfold listed, get_configs_by_category.
    rewrite merge_sort_Permutation. apply NoDup_fst_map_to_list. }
  assert (Hids :
    button_config_id <$>
      ((fun row0 : Z * config =>
          mk_config_button (shorten 30 27 (original_filename row0.2)) row0.1)
         <$> take 10 listed) = take 10 listed.*1).
  { rewrite <-fmap_take, <-list_fmap_compose. by apply list_fmap_ext. }
  split; [done|]. split; [lia|]. split; [done|]. split; [exact Hids|].
  split; [done|]. split; [|split; [|split]].
  - case_bool_decide; split; try done; lia.
  - case_bool_decide; split; try done; lia.
  - intros b Hb. apply list_elem_of_fmap in Hb as ([k c] & -> & Hin).
    apply elem_of_take in Hin as (i & Hin & _).
    apply list_elem_of_lookup_2, get_configs_by_category_elem in Hin
      as (Hc & Hcat & Hact).
    cbn [button_label button_config_id fst snd].
    split; [apply shorten_length; lia|]. by exists c.
  - intros k c Hc Hcat Hact Hk. rewrite Hids in Hk.
    assert ((k, c) ∈ listed) as Hin
      by (by apply get_configs_by_category_elem).
    rewrite <-(take_drop 10 listed) in Hin, Hsorted.
    apply elem_of_app in Hin as [Hin|Hin].
    { exfalso. apply Hk. rewrite <-fmap_take.
      by apply (list_elem_of_fmap_2 fst) in Hin. }
    split.
    { apply list_elem_of_lookup_1 in Hin as (i & Hi).
      apply lookup_lt_Some in Hi. rewrite length_drop in Hi. lia. }
    intros b c' Hb Hc'.
    apply list_elem_of_fmap in Hb as ([k' c''] & -> & Hin').
    cbn [button_config_id fst] in Hc'.
    assert (c'' = c') as ->.
    { apply elem_of_take in Hin' as (i & Hin' & _).
      apply list_elem_of_lookup_2, get_configs_by_category_elem in Hin'
        as (Hc'' & _). congruence. }
    apply (StronglySorted_app_1_elem_of _ _ _ _ _ Hsorted Hin' Hin).
Qed.

(** X28.  [list_configs_for_deletion] offers the twenty most recently
    uploaded active files and no file that is not active: a file that the
    sweep has switched off keeps its row but can no longer be picked for
    deletion from the list. *)
Theorem list_configs_for_deletion_active db :
  let listed := get_all_configs db in
  match list_configs_for_deletion db with
  | None => listed = []
  | Some (total, buttons) =>
      total = Z.of_nat (length listed)
      ∧ 0 < total
      ∧ button_config_id <$> buttons = take 20 listed.*1
      ∧ (∀ b, b ∈ buttons →
           ∃ c, configs db !! button_config_id b = Some c ∧ is_active c = 1)
      ∧ (∀ now k c e,
           configs db !! k = Some c →
           config_expiry_date c = Some e → e < now →
           configs (job_cleanup now db) !! k ≠ None
           ∧ match list_configs_for_deletion (job_cleanup now db) with
             | None => True
             | Some (_, buttons') => k ∉ button_config_id <$> buttons'
             end)
  end.
Proof.
  assert (Hall : ∀ db0 k c, (k, c) ∈ get_all_configs db0 ↔
                   configs db0 !! k = Some c ∧ is_active c = 1).
  { intros db0 k c. unfold get_all_configs.
    by rewrite merge_sort_Permutation, elem_of_map_to_list,
      map_lookup_filter_Some. }
  assert (Hslice : ∀ (l : list (Z * config)), slice l 0 20 = take 20 l).
  { intros l. pose proof (slice_page l 0 20 ltac:(lia) ltac:(lia)) as Hs.
    change (Z.to_nat (0 * 20)) with 0%nat in Hs.
    change (Z.to_nat 20) with 20%nat in Hs.
    by rewrite drop_0 in Hs. }
  assert (Hbuttons : ∀ db0 b,
    b ∈ (fun row : Z * config =>
           mk_config_button
             (shorten 25 22 (original_filename row.2)
                +:+ " (" +:+ category row.2 +:+ ")") row.1)
          <$> slice (get_all_configs db0) 0 20 →
    ∃ c, configs db0 !! button_config_id b = Some c ∧ is_active c = 1).
  { intros db0 b Hb. rewrite Hslice in Hb.
    apply list_elem_of_fmap in Hb as ([k c] & -> & Hin).
    apply elem_of_take in Hin as (i & Hin & _).
    apply list_elem_of_lookup_2, Hall in Hin. by exists c. }
  intros listed. unfold list_configs_for_deletion. fold listed.
  destruct listed as [|row rest] eqn:Hl; [done|]. rewrite <-Hl.
  split; [done|]. split; [rewrite Hl; simpl; lia|]. split; [|split].
  - rewrite Hslice, <-fmap_take, <-list_fmap_compose. by apply list_fmap_ext.
  - apply Hbuttons.
  - intros now k c e Hc He Hlt.
    assert (∃ c', configs (job_cleanup now db) !! k = Some c'
                  ∧ is_active c' ≠ 1) as (c' & Hc' & Hact').
    { unfold job_cleanup, delete_expired_configs, delete_expired_users,
        set_configs, set_users. simpl.
      rewrite lookup_fmap, Hc. simpl. eexists. split; [reflexivity|].
      unfold expired_config_row. rewrite He.
      rewrite bool_decide_eq_true_2 by done. cbn [andb].
      by case_bool_decide. }
    split; [by rewrite Hc'|].
    destruct (get_all_configs (job_cleanup now db)) as [|row' rest'] eqn:Hl';
      [done|]. rewrite <-Hl'.
    intros Hk. apply list_elem_of_fmap in Hk as (b & -> & Hb).
    apply Hbuttons in Hb as (c'' & Hc'' & Hact''). congruence.
Qed.

(** ** An upload under a storage name that is taken *)

(** X29.  When the storage name generated for an upload is already that of
    a file row (same original name, same administrator, same second, or a
    clash of the eight digest characters), [handle_upload] reports that
    saving failed and leaves the store and the chosen category as they
    were; but the encrypted file of the earlier row has by then been
    overwritten and the temporary copy stays on disk.  Whoever downloads the
    earlier file afterwards receives the newly uploaded bytes under the
    earlier name. *)
Theorem handle_upload_name_taken now iv user_id cat fname content db fs k c :
  is_block iv → Forall is_byte content →
  not_admin (get_user user_id db) = false →
  is_valid_config_extension fname = true →
  configs db !! k = Some c →
  filename c = generate_filename now fname user_id →
  let out := handle_upload now iv user_id (Some cat) (Some (fname, content)) db fs in
  out.1.1 = (FailedToSaveConfig, Some cat)
  ∧ out.1.2 = db
  ∧ out.2 !! ("configs/" +:+ filename c) ≫= decrypt = Some content
  ∧ out.2 !! ("temp/" +:+ pretty (unix_timestamp now) +:+ "_" +:+ fname)
    = Some content
  ∧ ∀ t member_id u,
      users db !! member_id = Some u →
      payment_status u = "approved" →
      subscription_expired t u = false →
      is_active c ≠ 0 →
      (download_config t true true member_id k out.1.2 out.2).1.1
      = ConfigDownloaded
      ∧ (download_config t true false member_id k out.1.2 out.2).2
          !! ("temp/" +:+ pretty (unix_timestamp t) +:+ "_"
                +:+ original_filename c)
        = Some content.
Proof using AES_encrypt_block_is_block AES_decrypt_encrypt_block.
  intros Hiv Hbytes Ha Hvalid Hc Hname out.
  destruct (encrypt_then_decrypt iv content Hiv Hbytes) as (e & Henc & Hdec).
  set (temp := "temp/" +:+ pretty (unix_timestamp now) +:+ "_" +:+ fname).
  assert (Hadd : ∀ size_bytes,
            add_config now (filename c) fname cat size_bytes 30 db = (-1, db)).
  { intros size_bytes. unfold add_config.
    destruct (datetime_add now (timedelta_days 30)); [|done].
    rewrite bool_decide_eq_true_2; [done|].
    apply Exists_exists. exists (k, c). split; [|done].
    by apply elem_of_map_to_list. }
  assert (Hout : out
    = (FailedToSaveConfig, Some cat, db,
       <["configs/" +:+ filename c := e]> (<[temp := content]> fs))).
  { subst out temp. unfold handle_upload. rewrite Ha, Hvalid. simpl.
    unfold encrypt_file. rewrite lookup_insert_eq, Henc.
    rewrite <-Hname, Hadd. simpl. done. }
  rewrite Hout. simpl.
  assert (Hblob : <["configs/" +:+ filename c := e]> (<[temp := content]> fs)
                    !! ("configs/" +:+ filename c) = Some e)
    by apply lookup_insert_eq.
  split; [done|]. split; [done|]. split; [by rewrite Hblob|]. split.
  { rewrite lookup_insert_ne by done. apply lookup_insert_eq. }
  intros t member_id u Hu Hs He Hact.
  unfold download_config, get_user, get_config.
  rewrite Hu, Hc. simpl.
  rewrite bool_decide_eq_false_2 by (by intros []). rewrite He.
  rewrite bool_decide_eq_false_2 by done.
  unfold decrypt_file. rewrite Hblob, Hdec. simpl.
  split; [done|]. apply lookup_insert_eq.
Qed.
End Bot.

(** * Runs on sample data *)

Lemma sample_cipher_is_block b :
  is_block b → is_block (sample_encrypt_block sample_key b).
Proof.
  intros [Hl Hb]. split.
  - unfold sample_encrypt_block. by rewrite length_rev.
  - unfold sample_encrypt_block. by apply List.Forall_rev.
Defined.

Lemma sample_cipher_inverse b :
  is_block b →
  sample_decrypt_block sample_key (sample_encrypt_block sample_key b) = b.
Proof. intros _. apply rev_involutive. Defined.

(** Decides a closed interval bound on numerals. *)
Ltac closed_range := vm_compute; split; [discriminate | reflexivity].

Lemma approve_payment_extends_expiry_witness :
  ∃ u', users (approve_payment sample_now OPERATOR_ID 1
                 (sample_db "pending" None "pending")).2 !! 42 = Some u'
    ∧ payment_status u' = "approved"
    ∧ expiry_date u' = Some (sample_now + timedelta_days 30).
Proof.
  apply (approve_payment_extends_expiry sample_now OPERATOR_ID 1
           (sample_db "pending" None "pending")
           (mk_payment 42 200 0 "payments/payment_42_0.jpg" "pending" None None)
           (mk_user "bob" 0 None "pending" 3 0));
    [reflexivity | reflexivity | reflexivity | closed_range].
Defined.

Lemma approve_payment_terminal_reprocessed_witness :
  (approve_payment sample_now OPERATOR_ID 1
     (sample_db "approved" (Some (sample_now + timedelta_days 10)) "approved")).1
  = PaymentApproved 1
  ∧ (λ q, (status q, processed_date q))
      <$> payments (approve_payment sample_now OPERATOR_ID 1
            (sample_db "approved" (Some (sample_now + timedelta_days 10)) "approved")).2 !! 1
    = Some ("approved", Some sample_now)
  ∧ expiry_date
      <$> users (approve_payment sample_now OPERATOR_ID 1
            (sample_db "approved" (Some (sample_now + timedelta_days 10)) "approved")).2 !! 42
    = Some (Some (sample_now + timedelta_days 40)).
Proof.
  pose proof (approve_payment_terminal_reprocessed sample_now OPERATOR_ID 1
                (sample_db "approved" (Some (sample_now + timedelta_days 10)) "approved")
                (mk_payment 42 200 0 "payments/payment_42_0.jpg" "approved" None None)
                (or_introl eq_refl) eq_refl eq_refl) as H.
  cbv zeta in H. destruct H as (H1 & H2 & H3 & _).
  split; [exact H1|]. split; [exact H2|].
  exact (f_equal (option_map expiry_date)
           (H3 (mk_user "bob" 0 (Some (sample_now + timedelta_days 10)) "approved" 3 0)
              eq_refl ltac:(closed_range))).
Defined.

(** C3, as stated, fails twice over.  A non-member without an approved
    payment is turned away at the membership gate, which therefore comes
    before the subscription checks; and a member in good standing is sent a
    file whose expiry is a day past but whose active flag is still set. *)
Lemma download_checks_counterexample :
  (download_config sample_decrypt_block sample_key sample_now false true 42 7
     (sample_catalog "pending" None (Some (sample_now + timedelta_days 9)))
     sample_disk).1.1 = JoinChannelFirst
  ∧ (download_config sample_decrypt_block sample_key sample_now true true 42 7
       (sample_catalog "approved" None (Some (sample_now - timedelta_days 1)))
       sample_disk).1.1 = ConfigDownloaded.
Proof. split; vm_compute; reflexivity. Qed.

Lemma download_config_check_order_witness :
  download_config sample_decrypt_block sample_key sample_now true true 42 7
    (sample_catalog "approved" (Some (sample_now - timedelta_days 5)) None)
    sample_disk
  = (SubscriptionExpired,
     sample_catalog "approved" (Some (sample_now - timedelta_days 5)) None,
     sample_disk).
Proof.
  destruct (download_config_check_order sample_decrypt_block sample_key
              sample_now true true 42 7
              (sample_catalog "approved" (Some (sample_now - timedelta_days 5)) None)
              sample_disk
              (mk_user "bob" 0 (Some (sample_now - timedelta_days 5)) "approved" 3 0))
    as (_ & H & _).
  destruct (H eq_refl) as (_ & _ & H3 & _).
  apply H3; reflexivity.
Defined.



Lemma decrypt_encrypt_roundtrip_witness :
  (∃ c, cbc_encrypt sample_encrypt_block sample_key (seqZ 1 16)
          (pad sample_plain block_size) = Some c
        ∧ encrypt sample_encrypt_block sample_key (seqZ 1 16) sample_plain
          = Some (seqZ 1 16 ++ c)
        ∧ decrypt sample_decrypt_block sample_key (seqZ 1 16 ++ c)
          = Some sample_plain)
  ∧ ∀ (fs : filesystem) input_path encrypted_path output_path,
      fs !! input_path = Some sample_plain →
      let '(ok1, fs1) :=
        encrypt_file sample_encrypt_block sample_key (seqZ 1 16)
          input_path encrypted_path fs in
      let '(ok2, fs2) :=
        decrypt_file sample_decrypt_block sample_key
          encrypted_path output_path fs1 in
      ok1 = true ∧ ok2 = true ∧ fs2 !! output_path = Some sample_plain.
Proof.
  apply (decrypt_encrypt_roundtrip sample_encrypt_block sample_decrypt_block
           sample_key sample_cipher_is_block sample_cipher_inverse).
  - split; [reflexivity|]. repeat constructor; discriminate.
  - repeat constructor; discriminate.
Defined.

(** C6, as stated, fails on the boundary: an approved user whose expiry is
    the current instant, hence not strictly in the future, passes both
    subscription checks and is sent the file. *)
Lemma download_at_expiry_instant_counterexample :
  ¬ (sample_now < sample_now)
  ∧ (download_config sample_decrypt_block sample_key sample_now true true 42 7
       (sample_catalog "approved" (Some sample_now)
          (Some (sample_now + timedelta_days 9)))
       sample_disk).1.1 = ConfigDownloaded.
Proof. split; [lia | vm_compute; reflexivity]. Qed.

Lemma download_eligibility_witness :
  let r :=
    (download_config sample_decrypt_block sample_key sample_now true true 42 7
       (sample_catalog "approved" None (Some (sample_now + timedelta_days 9)))
       sample_disk).1.1 in
  r ≠ PaymentRequired ∧ r ≠ SubscriptionExpired.
Proof.
  apply (proj2 (download_eligibility sample_decrypt_block sample_key
                  sample_now true 42 7
                  (sample_catalog "approved" None (Some (sample_now + timedelta_days 9)))
                  sample_disk (mk_user "bob" 0 None "approved" 3 0) eq_refl)).
  split; [reflexivity | left; reflexivity].
Defined.

Lemma is_valid_config_extension_exact_witness :
  ∃ ext, has_extension (String.list_ascii_of_string "Safaricom.HC") ext
         ∧ String.string_of_list_ascii (lower ext) ∈ valid_extensions.
Proof.
  apply (proj1 (proj1 (is_valid_config_extension_exact sample_encrypt_block
                         sample_key sample_md5 "Safaricom.HC"))).
  reflexivity.
Defined.

Lemma delete_expired_users_exact_witness :
  users (delete_expired_users sample_now
           (sample_db "approved" (Some (sample_now - timedelta_days 5)) "approved")).2
    !! 42 = None.
Proof.
  destruct (delete_expired_users_exact sample_now
              (sample_db "approved" (Some (sample_now - timedelta_days 5)) "approved")
              42 (mk_user "bob" 0 (Some (sample_now - timedelta_days 5)) "approved" 3 0))
    as (_ & H & _).
  apply (H eq_refl). split; [reflexivity|]. split; [|discriminate].
  eexists. split; [reflexivity|]. vm_compute. reflexivity.
Defined.

Lemma registration_defaults_and_statuses_witness :
  payment_status (mk_user "bob" sample_now None "pending" 0 0)
    ∈ ["pending"; "approved"; "rejected"]
  ∧ payment_status (mk_user "bob" sample_now None "pending" 0 0) ≠ "none".
Proof.
  apply (proj1 (proj2 (registration_defaults_and_statuses sample_encrypt_block
                         sample_decrypt_block sample_key sample_md5))
           (run sample_encrypt_block sample_decrypt_block sample_key sample_md5
              [(sample_now, Start 42 (Some "bob"))] (create_tables 0, ∅))
           (ex_intro _ 0 (ex_intro _ [(sample_now, Start 42 (Some "bob"))] eq_refl))
           42 (mk_user "bob" sample_now None "pending" 0 0) eq_refl).
Defined.

Lemma reject_payment_frame_witness :
  let db := sample_db "approved" (Some (sample_now + timedelta_days 10)) "pending" in
  let db' := (reject_payment sample_now OPERATOR_ID 1 db).2 in
  users db' !! 42
  = Some (mk_user "bob" 0 (Some (sample_now + timedelta_days 10)) "rejected" 3 0)
  ∧ ∀ t member send_ok config_id fs,
      download_config sample_decrypt_block sample_key t member send_ok 42
        config_id db' fs
      = (if member then PaymentRequired else JoinChannelFirst, db', fs).
Proof.
  apply (reject_payment_frame sample_decrypt_block sample_key sample_now
           OPERATOR_ID 1
           (sample_db "approved" (Some (sample_now + timedelta_days 10)) "pending")
           (mk_payment 42 200 0 "payments/payment_42_0.jpg" "pending" None None)
           (mk_user "bob" 0 (Some (sample_now + timedelta_days 10)) "approved" 3 0));
    reflexivity.
Defined.

(** ** Further runs on sample data *)

Lemma pending_queue_lifecycle_witness :
  let db := sample_db "approved" (Some (sample_now + timedelta_days 10)) "pending" in
  (2, mk_payment 42 200 sample_now
        ("payments/payment_" +:+ pretty 42 +:+ "_"
           +:+ pretty (unix_timestamp sample_now) +:+ ".jpg")
        "pending" None None)
    ∈ get_pending_payments
        (handle_payment_proof sample_now 42 true (Some sample_plain) db ∅).1.2
  ∧ (1, mk_payment 42 200 0 "payments/payment_42_0.jpg" "pending" None None)
      ∈ get_pending_payments
          (handle_payment_proof sample_now 42 true (Some sample_plain) db ∅).1.2.
Proof.
  intros db.
  destruct (pending_queue_lifecycle sample_now db) as (H & _).
  pose proof (H 42 sample_plain ∅
                (mk_user "bob" 0 (Some (sample_now + timedelta_days 10)) "approved" 3 0)
                eq_refl eq_refl eq_refl) as Hq.
  cbv zeta in Hq. split.
  - apply Hq. right. split; reflexivity.
  - apply Hq. left. apply get_pending_payments_elem.
    split; [reflexivity|]. split; [reflexivity|]. eexists. reflexivity.
Defined.

Lemma approve_reject_frame_witness :
  users (approve_payment sample_now OPERATOR_ID 1
           (sample_db "pending" None "pending")).2 !! OPERATOR_ID
  = Some operator_row.
Proof.
  destruct (approve_reject_frame sample_now OPERATOR_ID 1
              (sample_db "pending" None "pending")
              (mk_payment 42 200 0 "payments/payment_42_0.jpg" "pending" None None)
              eq_refl _ (or_introl eq_refl)) as (_ & H & _).
  rewrite H; [reflexivity | vm_compute; discriminate].
Defined.

Lemma approval_gives_access_iff_witness :
  let db := sample_db "pending" (Some (sample_now - timedelta_days 5)) "pending" in
  let r :=
    (download_config sample_decrypt_block sample_key sample_now true true 42 7
       (approve_payment sample_now OPERATOR_ID 1 db).2 ∅).1.1 in
  r ≠ PaymentRequired ∧ r ≠ SubscriptionExpired.
Proof.
  apply (proj2 (approval_gives_access_iff sample_decrypt_block sample_key
                  sample_now OPERATOR_ID 1
                  (sample_db "pending" (Some (sample_now - timedelta_days 5)) "pending")
                  (mk_payment 42 200 0 "payments/payment_42_0.jpg" "pending" None None)
                  (mk_user "bob" 0 (Some (sample_now - timedelta_days 5)) "pending" 3 0)
                  true 7 ∅ eq_refl eq_refl eq_refl
                  ltac:(closed_range))).
  vm_compute. discriminate.
Defined.

Lemma sweep_removes_only_expired_witness :
  (download_config sample_decrypt_block sample_key sample_now true true 42 7
     (sample_db "approved" (Some (sample_now - timedelta_days 5)) "approved")
     ∅).1.1 = SubscriptionExpired.
Proof.
  destruct (sweep_removes_only_expired sample_decrypt_block sample_key
              sample_now
              (sample_db "approved" (Some (sample_now - timedelta_days 5)) "approved")
              42 (mk_user "bob" 0 (Some (sample_now - timedelta_days 5)) "approved" 3 0)
              eq_refl) as [H _].
  apply (H eq_refl true true 7 ∅).
Defined.

Lemma job_cleanup_twice_witness :
  let db := sample_db "approved" (Some (sample_now - timedelta_days 5)) "approved" in
  job_cleanup (sample_now + timedelta_days 1) (job_cleanup sample_now db)
  = job_cleanup (sample_now + timedelta_days 1) db.
Proof.
  apply (job_cleanup_twice sample_now (sample_now + timedelta_days 1)).
  vm_compute. discriminate.
Defined.

Lemma delete_expired_configs_soft_witness :
  let db := sample_catalog "approved" None (Some (sample_now - timedelta_days 1)) in
  (download_config sample_decrypt_block sample_key sample_now true true 42 7
     (delete_expired_configs sample_now db).2 sample_disk).1.1
  ≠ ConfigDownloaded.
Proof.
  pose proof (delete_expired_configs_soft sample_decrypt_block sample_key
                sample_now
                (sample_catalog "approved" None (Some (sample_now - timedelta_days 1)))
                7 (mk_config "config_ab12cd34.hc.enc" "Safaricom" "safaricom.hc"
                     5 0 (Some (sample_now - timedelta_days 1)) 0 1)
                eq_refl) as H.
  cbv zeta in H. destruct H as (_ & _ & _ & _ & _ & H).
  apply H. split; [|reflexivity].
  eexists. split; [reflexivity|]. vm_compute. reflexivity.
Defined.

Lemma process_expire_user_effect_witness :
  (process_expire_user sample_now OPERATOR_ID true (Some 42)
     (sample_db "approved" (Some (sample_now + timedelta_days 10)) "approved")).1
  = (UserExpired, false).
Proof.
  pose proof (process_expire_user_effect sample_decrypt_block sample_key
                sample_now OPERATOR_ID 42
                (sample_db "approved" (Some (sample_now + timedelta_days 10)) "approved")
                (mk_user "bob" 0 (Some (sample_now + timedelta_days 10)) "approved" 3 0)
                eq_refl eq_refl ltac:(closed_range)) as H.
  cbv zeta in H. destruct H as (H & _). exact H.
Defined.

Lemma handle_payment_proof_effect_witness :
  (handle_payment_proof sample_now 42 true (Some sample_plain)
     (sample_db "approved" (Some (sample_now + timedelta_days 10)) "approved")
     ∅).1.1
  = (ProofReceived, false).
Proof.
  pose proof (handle_payment_proof_effect sample_decrypt_block sample_key
                sample_now 42 sample_plain
                (sample_db "approved" (Some (sample_now + timedelta_days 10)) "approved")
                ∅
                (mk_user "bob" 0 (Some (sample_now + timedelta_days 10)) "approved" 3 0)
                eq_refl eq_refl) as H.
  cbv zeta in H. destruct H as (H & _). exact H.
Defined.

Lemma download_config_effect_witness :
  let out :=
    download_config_outcome sample_decrypt_block sample_key sample_now
      true true ConfirmRaises 42 7
      (sample_catalog "approved" None (Some (sample_now + timedelta_days 9)))
      sample_disk in
  out.1.1 = ErrorDownloading
  ∧ downloads out.1.2 = [mk_download 42 7 sample_now].
Proof.
  intros out.
  pose proof (download_config_effect sample_decrypt_block sample_key
                sample_now true true ConfirmRaises 42 7
                (sample_catalog "approved" None (Some (sample_now + timedelta_days 9)))
                sample_disk) as H.
  cbv zeta in H. destruct H as (_ & _ & _ & _ & _ & _ & H).
  destruct H as (Hr & u & c & _ & _ & _ & _ & Hd & _);
    [vm_compute; reflexivity | discriminate |].
  split; [exact Hr | exact Hd].
Defined.

Lemma encrypt_output_length_witness :
  ∃ e, encrypt sample_encrypt_block sample_key (seqZ 1 16) sample_plain = Some e
       ∧ take block_size e = seqZ 1 16
       ∧ length e = 32%nat.
Proof.
  apply (proj2 (encrypt_output_length sample_encrypt_block sample_key
                  sample_cipher_is_block (seqZ 1 16) sample_plain)).
  - split; [reflexivity|]. repeat constructor; discriminate.
  - repeat constructor; discriminate.
Defined.

Lemma only_operator_is_admin_witness :
  let s := run sample_encrypt_block sample_decrypt_block sample_key sample_md5
             [(sample_now, Start 42 (Some "bob"))] (create_tables 0, ∅) in
  approve_payment sample_now 42 1 s.1 = (Unauthorized, s.1).
Proof.
  destruct (only_operator_is_admin sample_encrypt_block sample_decrypt_block
              sample_key sample_md5
              (run sample_encrypt_block sample_decrypt_block sample_key sample_md5
                 [(sample_now, Start 42 (Some "bob"))] (create_tables 0, ∅))
              42
              (ex_intro _ 0 (ex_intro _ [(sample_now, Start 42 (Some "bob"))] eq_refl)))
    as (_ & _ & H).
  destruct (H ltac:(vm_compute; discriminate) sample_now 1 7 [] None None false None)
    as (Ha & _).
  exact Ha.
Defined.

Lemma payments_well_formed_witness :
  let s := run sample_encrypt_block sample_decrypt_block sample_key sample_md5
             [(sample_now, Start 42 (Some "bob"));
              (sample_now, PaymentProof 42 true (Some sample_plain))]
             (create_tables 0, ∅) in
  payments s.1 !! next_payment_id s.1 = None.
Proof.
  apply (proj2 (payments_well_formed sample_encrypt_block sample_decrypt_block
                  sample_key sample_md5
                  (run sample_encrypt_block sample_decrypt_block sample_key sample_md5
                     [(sample_now, Start 42 (Some "bob"));
                      (sample_now, PaymentProof 42 true (Some sample_plain))]
                     (create_tables 0, ∅))
                  (ex_intro _ 0
                     (ex_intro _ [(sample_now, Start 42 (Some "bob"));
                                  (sample_now, PaymentProof 42 true (Some sample_plain))]
                        eq_refl)))).
Defined.

Lemma download_counters_match_records_witness :
  let s := run sample_encrypt_block sample_decrypt_block sample_key sample_md5
             [(sample_now, Start 42 (Some "bob"));
              (sample_now, PaymentProof 42 true (Some sample_plain));
              (sample_now, Approve OPERATOR_ID 1);
              (sample_now,
               Upload (seqZ 1 16) OPERATOR_ID (Some "Safaricom")
                 (Some ("safaricom.hc", sample_plain)));
              (sample_now, Download true true 42 1);
              (sample_now + timedelta_days 1, Download true true 42 1);
              (sample_now + timedelta_days 2, Download true false 42 1)]
             (create_tables 0, ∅) in
  ∃ c u,
    configs s.1 !! 1 = Some c
    ∧ users s.1 !! 42 = Some u
    ∧ config_total_downloads c = 2
    ∧ total_downloads u = 2
    ∧ config_total_downloads c = download_count 1 (downloads s.1)
    ∧ 0 <= total_downloads u <= user_download_count 42 (downloads s.1).
Proof.
  intros s.
  destruct (download_counters_match_records sample_encrypt_block
              sample_decrypt_block sample_key sample_md5 s
              (ex_intro _ 0
                 (ex_intro _
                    [(sample_now, Start 42 (Some "bob"));
                     (sample_now, PaymentProof 42 true (Some sample_plain));
                     (sample_now, Approve OPERATOR_ID 1);
                     (sample_now,
                      Upload (seqZ 1 16) OPERATOR_ID (Some "Safaricom")
                        (Some ("safaricom.hc", sample_plain)));
                     (sample_now, Download true true 42 1);
                     (sample_now + timedelta_days 1, Download true true 42 1);
                     (sample_now + timedelta_days 2, Download true false 42 1)]
                    eq_refl)))
    as [Hc Hu].
  eexists _, _.
  split; [vm_compute; reflexivity|].
  split; [vm_compute; reflexivity|].
  split; [reflexivity|]. split; [reflexivity|].
  split; [apply Hc; vm_compute; reflexivity | apply Hu; vm_compute; reflexivity].
Defined.

Lemma file_rows_have_blobs_witness :
  let s := run sample_encrypt_block sample_decrypt_block sample_key sample_md5
             [(sample_now,
               Upload (seqZ 1 16) OPERATOR_ID (Some "Safaricom")
                 (Some ("safaricom.hc", sample_plain)))]
             (create_tables 0, ∅) in
  is_Some (s.2 !! ("configs/" +:+ generate_filename sample_md5 sample_now
                                     "safaricom.hc" OPERATOR_ID)).
Proof.
  intros s.
  apply (file_rows_have_blobs sample_encrypt_block sample_decrypt_block
           sample_key sample_md5 s
           (ex_intro _ 0
              (ex_intro _ [(sample_now,
                            Upload (seqZ 1 16) OPERATOR_ID (Some "Safaricom")
                              (Some ("safaricom.hc", sample_plain)))]
                 eq_refl))
           1
           (mk_config (generate_filename sample_md5 sample_now "safaricom.hc"
                         OPERATOR_ID)
              "Safaricom" "safaricom.hc" 5 sample_now
              (Some (sample_now + timedelta_days 30)) 0 1)).
  vm_compute. reflexivity.
Defined.

Lemma handle_upload_then_download_witness :
  (handle_upload sample_encrypt_block sample_key sample_md5 sample_now
     (seqZ 1 16) OPERATOR_ID (Some "Safaricom")
     (Some ("safaricom.hc", sample_plain))
     (sample_db "approved" None "approved") ∅).1.1
  = (ConfigUploaded 1, None).
Proof.
  pose proof (handle_upload_then_download sample_encrypt_block
                sample_decrypt_block sample_key sample_md5
                sample_cipher_is_block sample_cipher_inverse
                sample_now (seqZ 1 16) OPERATOR_ID "Safaricom" "safaricom.hc"
                sample_plain (sample_db "approved" None "approved") ∅) as H.
  cbv zeta in H. apply H.
  - split; [reflexivity|]. repeat constructor; discriminate.
  - repeat constructor; discriminate.
  - reflexivity.
  - reflexivity.
  - closed_range.
  - reflexivity.
  - intros k c Hc. vm_compute in Hc. discriminate Hc.
Defined.

Lemma delete_config_removes_file_witness :
  let out := delete_config_handler OPERATOR_ID 7
               (sample_catalog "approved" None None) sample_disk in
  configs out.1 !! 7 = None
  ∧ out.2 !! "configs/config_ab12cd34.hc.enc" = None.
Proof.
  pose proof (delete_config_removes_file sample_decrypt_block sample_key
                OPERATOR_ID 7 (sample_catalog "approved" None None) sample_disk
                (mk_config "config_ab12cd34.hc.enc" "Safaricom" "safaricom.hc"
                   5 0 None 0 1)
                eq_refl eq_refl) as H.
  cbv zeta in H. destruct H as (H1 & H2 & _). split; [exact H1 | exact H2].
Defined.

Lemma process_broadcast_counts_witness :
  ∃ successful failed,
    process_broadcast OPERATOR_ID true (fun k => bool_decide (k = 42))
      (sample_db "approved" None "approved")
    = (Some (successful, failed,
             Z.of_nat (size (users (sample_db "approved" None "approved")))),
       false)
    ∧ successful + failed
      = Z.of_nat (size (users (sample_db "approved" None "approved"))).
Proof.
  destruct (process_broadcast_counts OPERATOR_ID (fun k => bool_decide (k = 42))
              (sample_db "approved" None "approved") eq_refl)
    as (successful & failed & H1 & _ & _ & H2).
  exists successful, failed. split; [exact H1 | exact H2].
Defined.

Lemma get_time_until_expiry_rounds_down_witness :
  ∃ n, get_time_until_expiry sample_now
         (Some (sample_now + 36 * (3600 * 1000000)))
       = pretty n +:+ " day" +:+ plural_s n
       ∨ get_time_until_expiry sample_now
           (Some (sample_now + 36 * (3600 * 1000000)))
         = pretty n +:+ " hour" +:+ plural_s n
       ∨ get_time_until_expiry sample_now
           (Some (sample_now + 36 * (3600 * 1000000)))
         = pretty n +:+ " minute" +:+ plural_s n.
Proof.
  pose proof (get_time_until_expiry_rounds_down sample_now
                (sample_now + 36 * (3600 * 1000000))
                ltac:(vm_compute; discriminate)) as H.
  cbv zeta in H. destruct H as [n H]. exists n.
  destruct H as [[H _]|[[H _]|[H _]]].
  - left. exact H.
  - right. left. exact H.
  - right. right. exact H.
Defined.

Lemma show_user_status_advice_witness :
  ∃ page,
    show_user_status sample_now true 42
      (sample_db "approved" (Some (sample_now - timedelta_days 5)) "approved")
    = Some page
    ∧ page_action page = ActionReady
    ∧ page_subscription page = LineExpired.
Proof.
  destruct (show_user_status_advice sample_decrypt_block sample_key
              sample_now true 42
              (sample_db "approved" (Some (sample_now - timedelta_days 5)) "approved")
              (mk_user "bob" 0 (Some (sample_now - timedelta_days 5)) "approved" 3 0)
              eq_refl) as (page & H1 & _ & H2 & H3 & _).
  exists page. split; [exact H1|]. split.
  - apply H2. split; reflexivity.
  - apply H3. split; reflexivity.
Defined.

Lemma list_pending_payments_pages_witness :
  ∃ v, list_pending_payments OPERATOR_ID (Z.of_nat (0 / 5))
         (sample_db "pending" None "pending") = ListingPage v
       ∧ view_items v !! (0 mod 5)%nat
         = Some (payment_line_of (sample_db "pending" None "pending")
                   (1, mk_payment 42 200 0 "payments/payment_42_0.jpg"
                         "pending" None None)).
Proof.
  pose proof (list_pending_payments_pages OPERATOR_ID
                (sample_db "pending" None "pending") eq_refl) as H.
  cbv zeta in H. destruct H as (_ & H & _).
  apply (H 0%nat). vm_compute. reflexivity.
Defined.

Lemma list_users_lines_witness :
  ∃ v, list_users sample_now OPERATOR_ID 0
         (sample_db "approved" None "approved") = ListingPage v
       ∧ view_total v
         = Z.of_nat (size (users (sample_db "approved" None "approved"))).
Proof.
  destruct (list_users_lines sample_decrypt_block sample_key sample_now
              OPERATOR_ID 0 (sample_db "approved" None "approved")
              eq_refl (Z.le_refl 0)) as (v & H1 & H2 & _).
  exists v. split; [exact H1 | exact H2].
Defined.

Lemma handle_upload_name_taken_witness :
  let taken :=
    mk_config (generate_filename sample_md5 sample_now "safaricom.hc" OPERATOR_ID)
      "Safaricom" "safaricom.hc" 3 sample_now
      (Some (sample_now + timedelta_days 30)) 0 1 in
  let db := mk_db {[ OPERATOR_ID := operator_row ]} {[ 1 := taken ]} ∅ [] 2 1 in
  let out :=
    handle_upload sample_encrypt_block sample_key sample_md5 sample_now
      (seqZ 1 16) OPERATOR_ID (Some "Safaricom")
      (Some ("safaricom.hc", sample_plain)) db ∅ in
  out.1.1 = (FailedToSaveConfig, Some "Safaricom")
  ∧ out.1.2 = db
  ∧ out.2 !! ("configs/" +:+ filename taken)
      ≫= decrypt sample_decrypt_block sample_key
    = Some sample_plain.
Proof.
  intros taken db out.
  pose proof (handle_upload_name_taken sample_encrypt_block
                sample_decrypt_block sample_key sample_md5
                sample_cipher_is_block sample_cipher_inverse
                sample_now (seqZ 1 16) OPERATOR_ID "Safaricom" "safaricom.hc"
                sample_plain db ∅ 1 taken) as H.
  cbv zeta in H. fold out in H.
  destruct H as (H1 & H2 & H3 & _).
  - split; [reflexivity|]. repeat constructor; discriminate.
  - repeat constructor; discriminate.
  - reflexivity.
  - reflexivity.
  - reflexivity.
  - reflexivity.
  - split; [exact H1|]. split; [exact H2 | exact H3].
Defined.
